(** * HS321: a Modbus RTU master for the HS321 frequency converter

    A shallow embedding of [src/src/HS321.cpp] and [src/src/HS321.h]:
    the CRC16 routine, the response validator, the request encoders, the
    half-duplex send routine, the timed receiver and the read and write
    transactions built from them, together with the public wrappers that
    guard them by the initialisation flag.

    Conventions of the embedding.
    - [uint8_t], [uint16_t] and [unsigned long] values are integers of [Z];
      every assignment to such a variable is written with its wrap-around
      ([u8], [u16], [u32]).  [unsigned long] is 32 bits wide, as on the
      Arduino targets of the library.
    - [size_t] quantities (register counts, buffer lengths, indices) are
      natural numbers.  The only arithmetic the code performs on them
      before its range guards is comparison, and after the guards the
      values stay far below 2^16, so no wrap-around can occur.
    - A pointer to an array is an [option (list _)]: [None] is [nullptr],
      [Some l] is an array holding [l].  A store [a[i] = v] is [<[i:=v]> a];
      a load [a[i]] is [at_index a i].  Out-of-range accesses are undefined in
      the source; the theorems assume the arrays are large enough.
    - The code between [#ifdef DEBUG] and [#endif] is not compiled (the
      three macros are commented out at the top of the file) and is left
      out. *)

From Stdlib Require Import ZArith Lia Bool String.
From stdpp Require Import base list.

Local Open Scope Z_scope.

(** ** Machine integers *)

Definition u8 (x : Z) : Z := x mod 2 ^ 8.
Definition u16 (x : Z) : Z := x mod 2 ^ 16.
Definition u32 (x : Z) : Z := x mod 2 ^ 32.

Definition is_u8 (x : Z) : Prop := 0 <= x < 2 ^ 8.
Definition is_u16 (x : Z) : Prop := 0 <= x < 2 ^ 16.

(** [a[i]] for a byte or word array; reads outside the array give [0]. *)
Definition at_index (a : list Z) (i : nat) : Z := default 0 (a !! i).

(** ** HS321.h: constants *)

(** [HIGH], [LOW] and [OUTPUT] are those of [Arduino.h];
    [#define RS485Transmit HIGH] and [#define RS485Receive LOW]. *)
Definition HIGH : Z := 1.
Definition LOW : Z := 0.
Definition RS485Transmit : Z := HIGH.
Definition RS485Receive : Z := LOW.
Definition OUTPUT : Z := 1.

(** [enum CodeFunction : uint8_t]. *)
Definition READ : Z := 0x03.
Definition WRITE_ONE : Z := 0x06.
Definition WRITE_RANGE : Z := 0x10.

(** ** HS321::calculateCRC *)

(** One pass of the inner loop body:
    [if (crc & 0x0001) crc = (crc >> 1) ^ 0xA001; else crc = crc >> 1;]. *)
Definition crc_shift (crc : Z) : Z :=
  if Z.land crc 0x0001 =? 0
  then u16 (Z.shiftr crc 1)
  else u16 (Z.lxor (Z.shiftr crc 1) 0xA001).

(** [for (uint8_t j = 0; j < 8; j++) ...], [k] passes left. *)
Fixpoint crc_bits (k : nat) (crc : Z) : Z :=
  match k with
  | O => crc
  | S k' => crc_bits k' (crc_shift crc)
  end.

(** [for (uint8_t i = 0; i < length; i++) { crc ^= data[i]; ... }],
    at index [i] with [k] bytes left. *)
Fixpoint crc_bytes (data : list Z) (i k : nat) (crc : Z) : Z :=
  match k with
  | O => crc
  | S k' =>
      crc_bytes data (S i) k' (crc_bits 8 (u16 (Z.lxor crc (at_index data i))))
  end.

(** The [length] parameter is a [uint8_t]: whatever the caller passes is
    converted on entry. *)
Definition calculateCRC (data : option (list Z)) (length : nat) : Z :=
  let length := u8 (Z.of_nat length) in
  match data with
  | None => 0xFFFF
  | Some d =>
      if length =? 0 then 0xFFFF
      else crc_bytes d 0 (Z.to_nat length) 0xFFFF
  end.

(** The algorithm in the words of the specification: seed 0xFFFF; for each
    byte, XOR it into the running value, then eight times "if the low bit
    is set, shift right and XOR 0xA001, else shift right". *)
Module Crc16Spec.

Definition bit_round (v : Z) : Z :=
  if Z.testbit v 0 then Z.lxor (Z.shiftr v 1) 0xA001 else Z.shiftr v 1.

Definition byte_round (v b : Z) : Z :=
  Nat.iter 8 bit_round (Z.lxor v b).

Definition crc16 (bytes : list Z) : Z :=
  fold_left byte_round bytes 0xFFFF.

End Crc16Spec.

(** ** HS321::validateModbusResponse *)

Definition validateModbusResponse
    (response : list Z) (responseSize : nat)
    (expectedAddress expectedFunction : Z) : bool :=
  if (responseSize <? 4)%nat then false
  else if negb (at_index response 0 =? expectedAddress) then false
  else if at_index response 1 =? Z.lor expectedFunction 0x80 then false
  else if negb (at_index response 1 =? expectedFunction) then false
  else
    let calculatedCRC := u16 (calculateCRC (Some response) (responseSize - 2)) in
    let receivedCRC :=
      u16 (Z.lor (u16 (Z.shiftl (at_index response (responseSize - 1)) 8))
                 (at_index response (responseSize - 2))) in
    if negb (calculatedCRC =? receivedCRC) then false
    else true.

(** ** The environment: pins, serial ports and the millisecond clock

    Everything the class does to the outside goes through the Arduino
    primitives [pinMode], [digitalWrite], [millis] and the methods of
    [HardwareSerial].  The output primitives append to a log and update
    the pin levels; the input primitives ([millis], [available], [read])
    are answered by the environment, which is an arbitrary sequence of
    answers indexed by the number of the call. *)

Inductive printable :=
| PStr (s : string)
| PNum (n : Z).

Inductive event :=
| EvSerialBegin (port : nat) (baud : Z)
| EvPrint (port : nat) (what : printable)
| EvPrintln (port : nat) (what : printable)
| EvPinMode (pin mode : Z)
| EvDigitalWrite (pin level : Z)
| EvWrite (port : nat) (bytes : list Z)
| EvFlush (port : nat).

Record World := mkWorld {
  millis_at : nat -> Z;        (* answer of the k-th [millis()] *)
  available_at : nat -> Z;     (* answer of the k-th [available()] *)
  read_at : nat -> Z;          (* answer of the k-th [read()] *)
  millis_calls : nat;
  available_calls : nat;
  read_calls : nat;
  pin_level : Z -> Z;
  output : list event          (* oldest first *)
}.

(** A call either returns, dereferences a null [HardwareSerial*], or is
    still running when the fuel of its receive loop is used up. *)
Inductive outcome (A : Type) :=
| Returned (a : A)
| NullDeref
| OutOfFuel.
Arguments Returned {A} a.
Arguments NullDeref {A}.
Arguments OutOfFuel {A}.

Definition IO (A : Type) : Type := World -> outcome A * World.

#[global] Instance IO_ret : MRet IO := fun A a w => (Returned a, w).

#[global] Instance IO_bind : MBind IO := fun A B f m w =>
  match m w with
  | (Returned a, w') => f a w'
  | (NullDeref, w') => (NullDeref, w')
  | (OutOfFuel, w') => (OutOfFuel, w')
  end.

Definition fail_null {A} : IO A := fun w => (NullDeref, w).
Definition fail_fuel {A} : IO A := fun w => (OutOfFuel, w).

Definition emit (e : event) : IO unit := fun w =>
  (Returned tt,
   mkWorld (millis_at w) (available_at w) (read_at w)
           (millis_calls w) (available_calls w) (read_calls w)
           (pin_level w) (output w ++ [e])).

Definition pinMode (pin mode : Z) : IO unit := emit (EvPinMode pin mode).

Definition digitalWrite (pin level : Z) : IO unit := fun w =>
  (Returned tt,
   mkWorld (millis_at w) (available_at w) (read_at w)
           (millis_calls w) (available_calls w) (read_calls w)
           (fun p => if p =? pin then level else pin_level w p)
           (output w ++ [EvDigitalWrite pin level])).

(** [millis()] returns an [unsigned long]. *)
Definition millis : IO Z := fun w =>
  (Returned (u32 (millis_at w (millis_calls w))),
   mkWorld (millis_at w) (available_at w) (read_at w)
           (S (millis_calls w)) (available_calls w) (read_calls w)
           (pin_level w) (output w)).

(** Methods of [HardwareSerial], called through a pointer. *)
Definition with_port {A} (p : option nat) (k : nat -> IO A) : IO A :=
  match p with
  | None => fail_null
  | Some port => k port
  end.

Definition serial_begin (p : option nat) (baud : Z) : IO unit :=
  with_port p (fun port => emit (EvSerialBegin port baud)).

Definition serial_println (p : option nat) (what : printable) : IO unit :=
  with_port p (fun port => emit (EvPrintln port what)).

Definition serial_print (p : option nat) (what : printable) : IO unit :=
  with_port p (fun port => emit (EvPrint port what)).

Definition serial_write (p : option nat) (data : list Z) (length : nat) : IO unit :=
  with_port p (fun port => emit (EvWrite port (take length data))).

Definition serial_flush (p : option nat) : IO unit :=
  with_port p (fun port => emit (EvFlush port)).

Definition serial_available (p : option nat) : IO Z :=
  with_port p (fun _ w =>
    (Returned (available_at w (available_calls w)),
     mkWorld (millis_at w) (available_at w) (read_at w)
             (millis_calls w) (S (available_calls w)) (read_calls w)
             (pin_level w) (output w))).

Definition serial_read (p : option nat) : IO Z :=
  with_port p (fun _ w =>
    (Returned (read_at w (read_calls w)),
     mkWorld (millis_at w) (available_at w) (read_at w)
             (millis_calls w) (available_calls w) (S (read_calls w))
             (pin_level w) (output w))).

(** ** The class *)

Record HS321 := mkHS321 {
  _initialized : bool;
  _slaveAddress : Z;
  _serialPort : option nat;
  _serialDebug : option nat;
  _baud : Z;
  _transmitterModeContact : Z;
  _totalTimeout : Z;
  _interCharTimeout : Z
}.

(** The constructor; [_initialized] has the default member initialiser
    [false]. *)
Definition newHS321 (slaveAddress : Z) (serialPort serialDebug : option nat)
    (baud transmitterModeContact : Z) : HS321 :=
  mkHS321 false slaveAddress serialPort serialDebug baud
          transmitterModeContact 0 0.

Definition isInitialized (self : HS321) : bool := _initialized self.

Definition set_initialized (self : HS321) (b : bool) : HS321 :=
  mkHS321 b (_slaveAddress self) (_serialPort self) (_serialDebug self)
          (_baud self) (_transmitterModeContact self)
          (_totalTimeout self) (_interCharTimeout self).

Definition set_timeouts (self : HS321) (total interChar : Z) : HS321 :=
  mkHS321 (_initialized self) (_slaveAddress self) (_serialPort self)
          (_serialDebug self) (_baud self) (_transmitterModeContact self)
          total interChar.

Section Begin.

(** [static_cast<unsigned long>(3.5 * 10 * 1000000 / _baud)] is computed
    in floating point; its value as a function of the baud rate is kept
    abstract. *)
Variable interCharOfBaud : Z -> Z.

Definition begin (self : HS321) : IO HS321 :=
  match _serialPort self with
  | None =>
      match _serialDebug self with
      | Some _ =>
          serial_println (_serialDebug self)
            (PStr "Ошибка: _serialPort не должен быть nullptr")
      | None => mret tt
      end;;
      mret (set_initialized self false)
  | Some _ =>
      match _serialDebug self with
      | None => mret tt
      | Some _ => serial_begin (_serialDebug self) (_baud self)
      end;;
      serial_begin (_serialPort self) (_baud self);;
      pinMode (_transmitterModeContact self) OUTPUT;;
      digitalWrite (_transmitterModeContact self) RS485Receive;;
      let self := set_timeouts self (u32 2000) (u32 (interCharOfBaud (_baud self))) in
      let self := set_initialized self true in
      match _serialDebug self with
      | Some _ =>
          serial_println (_serialDebug self)
            (PStr "HS321: Инициализация завершена")
      | None => mret tt
      end;;
      mret self
  end.

End Begin.

(** ** HS321::sendData *)

Definition sendData (self : HS321) (data : list Z) (length : nat) : IO unit :=
  digitalWrite (_transmitterModeContact self) RS485Transmit;;
  serial_write (_serialPort self) data length;;
  serial_flush (_serialPort self);;
  digitalWrite (_transmitterModeContact self) RS485Receive.

(** ** HS321::receiveData *)

(** How the outer [while (bytesRead < length)] loop is left: its condition
    became false, or one of its two [break] statements ran. *)
Inductive loop_exit :=
| ExitCondition
| BreakTotalTimeout
| BreakInterCharTimeout.

(** The state of the loop: [buffer], [bytesRead], [lastByteTime]. *)
Definition recv_state : Type := list Z * nat * Z.

(** [while (_serialPort->available() > 0 && bytesRead < length) { ... }].
    Every pass increases [bytesRead], so [length - bytesRead] passes are
    all the loop can make; [k] counts the passes that are left. *)
Fixpoint drain (self : HS321) (length k : nat)
    (buffer : list Z) (bytesRead : nat) (lastByteTime : Z) : IO recv_state :=
  a ← serial_available (_serialPort self);
  if (0 <? a) && (bytesRead <? length)%nat then
    match k with
    | O => fail_fuel
    | S k' =>
        b ← serial_read (_serialPort self);
        let buffer := <[bytesRead := u8 b]> buffer in
        let bytesRead := S bytesRead in
        lastByteTime ← millis;
        drain self length k' buffer bytesRead lastByteTime
    end
  else mret (buffer, bytesRead, lastByteTime).

(** The outer loop; [fuel] bounds the number of passes. *)
Fixpoint receive_loop (fuel : nat) (self : HS321) (length : nat)
    (charTimeout : Z) (buffer : list Z) (bytesRead : nat)
    (lastByteTime : Z) : IO (loop_exit * list Z * nat) :=
  if negb (bytesRead <? length)%nat then mret (ExitCondition, buffer, bytesRead)
  else
    match fuel with
    | O => fail_fuel
    | S fuel' =>
        now ← millis;
        if _totalTimeout self <? u32 (now - lastByteTime)
        then mret (BreakTotalTimeout, buffer, bytesRead)
        else
          '(buffer, bytesRead, lastByteTime) ←
            drain self length (length - bytesRead) buffer bytesRead lastByteTime;
          if (bytesRead <? length)%nat then
            a ← serial_available (_serialPort self);
            if a =? 0 then
              now ← millis;
              if charTimeout <? u32 (now - lastByteTime)
              then mret (BreakInterCharTimeout, buffer, bytesRead)
              else receive_loop fuel' self length charTimeout
                                buffer bytesRead lastByteTime
            else receive_loop fuel' self length charTimeout
                              buffer bytesRead lastByteTime
          else receive_loop fuel' self length charTimeout
                            buffer bytesRead lastByteTime
    end.

(** [static_cast<unsigned long>(ceil(_interCharTimeout * length / 1000))]:
    the product and the quotient are [unsigned long] arithmetic; the
    quotient is below 2^23, so the conversion to floating point, [ceil] and
    the conversion back return it unchanged. *)
Definition charTimeoutOf (self : HS321) (length : nat) : Z :=
  u32 (_interCharTimeout self * Z.of_nat length) / 1000.

(** The result carries the [bool] the function returns and the contents of
    the caller's buffer after the call. *)
Definition receiveData (fuel : nat) (self : HS321)
    (buffer : option (list Z)) (length : nat) : IO (bool * option (list Z)) :=
  match buffer with
  | None => mret (false, None)
  | Some buf =>
      if (length =? 0)%nat then mret (false, Some buf)
      else
        let bytesRead := 0%nat in
        lastByteTime ← millis;
        let charTimeout := charTimeoutOf self length in
        '(_, buf, bytesRead) ←
          receive_loop fuel self length charTimeout buf bytesRead lastByteTime;
        mret ((bytesRead =? length)%nat, Some buf)
  end.

(** ** Request frames *)

(** A local array [uint8_t a[n]]; its initial contents are indeterminate
    in the source and every cell is stored to before it is read. *)
Definition local_array (n : nat) : list Z := replicate n 0.

(** Lines 111-122 of [readParameters]. *)
Definition readRequest (slaveAddress startAddress : Z)
    (numberRegisters : nat) : list Z :=
  let request := local_array 8 in
  let request := <[0%nat := slaveAddress]> request in
  let request := <[1%nat := READ]> request in
  let request := <[2%nat := u8 (Z.shiftr startAddress 8)]> request in
  let request := <[3%nat := u8 (Z.land startAddress 0xFF)]> request in
  let request := <[4%nat := u8 (Z.shiftr (Z.of_nat numberRegisters) 8)]> request in
  let request := <[5%nat := u8 (Z.land (Z.of_nat numberRegisters) 0xFF)]> request in
  let crc := u16 (calculateCRC (Some request) 6) in
  let request := <[6%nat := u8 (Z.land crc 0xFF)]> request in
  let request := <[7%nat := u8 (Z.land (Z.shiftr crc 8) 0xFF)]> request in
  request.

(** [for (size_t i = 0; i < numberRegisters; i++)] of [writeParameters],
    at index [i] with [k] values left. *)
Fixpoint copy_values (arrayValues : list Z) (i k : nat) (request : list Z) : list Z :=
  match k with
  | O => request
  | S k' =>
      let request :=
        <[(7 + i * 2)%nat := u8 (Z.shiftr (at_index arrayValues i) 8)]> request in
      let request :=
        <[(8 + i * 2)%nat := u8 (Z.land (at_index arrayValues i) 0xFF)]> request in
      copy_values arrayValues (S i) k' request
  end.

Definition MAX_MODBUS_REGISTERS : nat := 123.
Definition MAX_REQUEST_SIZE : nat := 7 + MAX_MODBUS_REGISTERS * 2.

Definition writeRequestSize (numberRegisters : nat) : nat :=
  if (numberRegisters =? 1)%nat then 8%nat else (9 + numberRegisters * 2)%nat.

(** Lines 284-313 of [writeParameters]. *)
Definition writeRequest (slaveAddress startAddress : Z)
    (arrayValues : list Z) (numberRegisters : nat) : list Z :=
  let requestSize := writeRequestSize numberRegisters in
  let request := local_array requestSize in
  let request := <[0%nat := slaveAddress]> request in
  let request :=
    if (numberRegisters =? 1)%nat then
      let request := <[1%nat := WRITE_ONE]> request in
      let request := <[2%nat := u8 (Z.shiftr startAddress 8)]> request in
      let request := <[3%nat := u8 (Z.land startAddress 0xFF)]> request in
      let request := <[4%nat := u8 (Z.shiftr (at_index arrayValues 0) 8)]> request in
      let request := <[5%nat := u8 (Z.land (at_index arrayValues 0) 0xFF)]> request in
      request
    else if (1 <? numberRegisters)%nat then
      let request := <[1%nat := WRITE_RANGE]> request in
      let request := <[2%nat := u8 (Z.shiftr startAddress 8)]> request in
      let request := <[3%nat := u8 (Z.land startAddress 0xFF)]> request in
      let request := <[4%nat := u8 (Z.shiftr (Z.of_nat numberRegisters) 8)]> request in
      let request := <[5%nat := u8 (Z.land (Z.of_nat numberRegisters) 0xFF)]> request in
      let request := <[6%nat := u8 (Z.of_nat (numberRegisters * 2))]> request in
      copy_values arrayValues 0 numberRegisters request
    else request in
  let crc := u16 (calculateCRC (Some request) (requestSize - 2)) in
  let request := <[(requestSize - 2)%nat := u8 (Z.land crc 0xFF)]> request in
  let request := <[(requestSize - 1)%nat := u8 (Z.land (Z.shiftr crc 8) 0xFF)]> request in
  request.

(** ** HS321::readParameters *)

(** [(static_cast<uint16_t>(response[i]) << 8) | response[i + 1]], stored
    into a [uint16_t]. *)
Definition be16 (response : list Z) (i : nat) : Z :=
  u16 (Z.lor (Z.shiftl (u16 (at_index response i)) 8) (at_index response (i + 1))).

(** [for (size_t i = 0; i < numberRegisters; i++)] of [readParameters],
    at index [i] with [k] registers left. *)
Fixpoint store_registers (response : list Z) (i k : nat) (arrayValues : list Z) : list Z :=
  match k with
  | O => arrayValues
  | S k' =>
      let dataIndex := (3 + i * 2)%nat in
      store_registers response (S i) k' (<[i := be16 response dataIndex]> arrayValues)
  end.

(** Lines 163-230: what is done with a response that was received in
    full.  The result is the returned [bool] and the caller's array. *)
Definition checkReadResponse (slaveAddress : Z) (response : list Z)
    (arrayValues : list Z) (numberRegisters : nat) : bool * list Z :=
  let responseSize := (5 + numberRegisters * 2)%nat in
  if negb (at_index response 0 =? slaveAddress) || negb (at_index response 1 =? READ)
  then (false, arrayValues)
  else
    let byteCount := at_index response 2 in
    if negb (byteCount =? Z.of_nat (numberRegisters * 2)) then (false, arrayValues)
    else
      let receivedCRC :=
        u16 (Z.lor (Z.shiftl (at_index response (responseSize - 1)) 8)
                   (at_index response (responseSize - 2))) in
      let calculatedCRC := u16 (calculateCRC (Some response) (responseSize - 2)) in
      if negb (receivedCRC =? calculatedCRC) then (false, arrayValues)
      else if (numberRegisters =? 1)%nat
      then (true, <[0%nat := be16 response 3]> arrayValues)
      else (true, store_registers response 0 numberRegisters arrayValues).

(** The result carries the returned [bool] and the caller's array after
    the call. *)
Definition readParameters (fuel : nat) (self : HS321)
    (slaveAddress startAddress : Z) (arrayValues : option (list Z))
    (numberRegisters : nat) : IO (bool * option (list Z)) :=
  match arrayValues with
  | None => mret (false, None)
  | Some values =>
      if (numberRegisters =? 0)%nat then mret (false, arrayValues)
      else if (125 <? numberRegisters)%nat then mret (false, arrayValues)
      else
        let request := readRequest slaveAddress startAddress numberRegisters in
        sendData self request 8;;
        let responseSize := (5 + numberRegisters * 2)%nat in
        let response := local_array responseSize in
        '(received, response) ← receiveData fuel self (Some response) responseSize;
        if negb received then mret (false, arrayValues)
        else
          let '(ok, values) :=
            checkReadResponse slaveAddress (default [] response)
                              values numberRegisters in
          mret (ok, Some values)
  end.

(** ** HS321::writeParameters *)

Definition writeParameters (fuel : nat) (self : HS321)
    (slaveAddress startAddress : Z) (arrayValues : option (list Z))
    (numberRegisters : nat) : IO bool :=
  match arrayValues with
  | None => mret false
  | Some values =>
      if (numberRegisters =? 0)%nat then mret false
      else if (MAX_MODBUS_REGISTERS <? numberRegisters)%nat then mret false
      else
        let requestSize := writeRequestSize numberRegisters in
        if (MAX_REQUEST_SIZE <? requestSize)%nat then mret false
        else
          let request := writeRequest slaveAddress startAddress values numberRegisters in
          sendData self request requestSize;;
          let responseSize := 8%nat in
          let response := local_array responseSize in
          '(received, response) ← receiveData fuel self (Some response) responseSize;
          if negb received then mret false
          else mret (validateModbusResponse (default [] response) responseSize
                                            slaveAddress (at_index request 1))
  end.

(** ** Register addresses and commands *)

Inductive GroupsParameter :=
| GROUP_F0 | GROUP_F1 | GROUP_F2 | GROUP_F3 | GROUP_F4 | GROUP_F5 | GROUP_F6
| GROUP_F7 | GROUP_F8 | GROUP_F9 | GROUP_FA | GROUP_FB | GROUP_FC | GROUP_FP
| GROUP_d | GROUP_COUNT.

Definition group_value (g : GroupsParameter) : Z :=
  match g with
  | GROUP_F0 => 0 | GROUP_F1 => 1 | GROUP_F2 => 2 | GROUP_F3 => 3
  | GROUP_F4 => 4 | GROUP_F5 => 5 | GROUP_F6 => 6 | GROUP_F7 => 7
  | GROUP_F8 => 8 | GROUP_F9 => 9 | GROUP_FA => 10 | GROUP_FB => 11
  | GROUP_FC => 12 | GROUP_FP => 13
  | GROUP_d => 112
  | GROUP_COUNT => 112 - 97
  end.

Inductive ControlCommand :=
| FORWARD_RUN_COMMAND | REVERSE_RUN_COMMAND
| FORWARD_RUN_JOG_COMMAND | REVERSE_RUN_JOG_COMMAND
| FREE_STOP_COMMAND | DECELERATE_STOP_COMMAND | FAULT_RESET_COMMAND.

Definition command_value (c : ControlCommand) : Z :=
  match c with
  | FORWARD_RUN_COMMAND => 0 | REVERSE_RUN_COMMAND => 1
  | FORWARD_RUN_JOG_COMMAND => 2 | REVERSE_RUN_JOG_COMMAND => 3
  | FREE_STOP_COMMAND => 4 | DECELERATE_STOP_COMMAND => 5
  | FAULT_RESET_COMMAND => 6
  end.

Definition buildParameterAddress (group : GroupsParameter) (subAddress : Z) : Z :=
  u16 (Z.lor (Z.shiftl (u16 (group_value group)) 8) subAddress).

(** ** The single-register helpers and the public operations

    A [uint16_t*] argument that points to one variable is an array of one
    element. *)

Definition readSingleParameter (fuel : nat) (self : HS321)
    (address : Z) (value : option (list Z)) : IO (bool * option (list Z)) :=
  readParameters fuel self (_slaveAddress self) address value 1.

Definition writeSingleParameter (fuel : nat) (self : HS321)
    (address value : Z) : IO bool :=
  writeParameters fuel self (_slaveAddress self) address (Some [value]) 1.

Definition readFaultDescription (fuel : nat) (self : HS321)
    (faultCode : option (list Z)) : IO (bool * option (list Z)) :=
  if negb (isInitialized self) || bool_decide (faultCode = None)
  then mret (false, faultCode)
  else readSingleParameter fuel self 0x8000 faultCode.

Definition readRunningState (fuel : nat) (self : HS321)
    (state : option (list Z)) : IO (bool * option (list Z)) :=
  if negb (isInitialized self) || bool_decide (state = None)
  then mret (false, state)
  else readParameters fuel self (_slaveAddress self) 0x3000 state 1.

Definition writeControlCommand (fuel : nat) (self : HS321)
    (command : ControlCommand) : IO bool :=
  if negb (isInitialized self) then mret false
  else writeSingleParameter fuel self 0x2000 (u16 (command_value command)).

Definition readParametersInGroups (fuel : nat) (self : HS321)
    (group : GroupsParameter) (numberGroup : Z)
    (arrayValues : option (list Z)) (count : nat) : IO (bool * option (list Z)) :=
  if negb (isInitialized self) || bool_decide (arrayValues = None) || (count =? 0)%nat
  then mret (false, arrayValues)
  else
    let startAddress := buildParameterAddress group numberGroup in
    readParameters fuel self (_slaveAddress self) startAddress arrayValues count.

Definition readSingleGroupParameter (fuel : nat) (self : HS321)
    (group : GroupsParameter) (numberGroup : Z)
    (value : option (list Z)) : IO (bool * option (list Z)) :=
  if negb (isInitialized self) || bool_decide (value = None)
  then mret (false, value)
  else
    let address := buildParameterAddress group numberGroup in
    readSingleParameter fuel self address value.

Definition writeParametersInGroups (fuel : nat) (self : HS321)
    (group : GroupsParameter) (numberGroup : Z)
    (arrayData : option (list Z)) (dataCount : nat) : IO bool :=
  if negb (isInitialized self) || bool_decide (arrayData = None) || (dataCount =? 0)%nat
  then mret false
  else
    let startAddress := buildParameterAddress group numberGroup in
    writeParameters fuel self (_slaveAddress self) startAddress arrayData dataCount.

Definition writeSingleGroupParameter (fuel : nat) (self : HS321)
    (group : GroupsParameter) (numberGroup value : Z) : IO bool :=
  if negb (isInitialized self) then mret false
  else
    let address := buildParameterAddress group numberGroup in
    writeSingleParameter fuel self address value.

Definition checkCommunicationSettings (fuel : nat) (self : HS321) : IO bool :=
  if negb (isInitialized self) then mret false
  else
    let requestSize := 5%nat in
    let arrayValues := local_array requestSize in
    '(ok, arrayValues) ←
      readParametersInGroups fuel self GROUP_FC 0 (Some arrayValues) requestSize;
    if (ok : bool) then
      let a := default [] arrayValues in
      let dbg := _serialDebug self in
      serial_print dbg (PStr "FC.00 (Baud rate): ");;
      serial_println dbg (PNum (at_index a 0));;
      serial_print dbg (PStr "FC.01 (Data format): ");;
      serial_println dbg (PNum (at_index a 1));;
      serial_print dbg (PStr "FC.02 (Address): ");;
      serial_println dbg (PNum (at_index a 2));;
      serial_print dbg (PStr "FC.03 (Timeout Communication): ");;
      serial_println dbg (PNum (at_index a 3));;
      serial_print dbg (PStr "FC.05 (Error Communication): ");;
      serial_println dbg (PNum (at_index a 4));;
      mret true
    else mret false.

(** ** A simulated slave, for running the model

    [quiet_world] answers every [millis()] with [0] and reports no byte;
    [serving bytes] has the given bytes waiting in the receive buffer of
    the port: [available()] answers with the number of bytes not yet read
    as long as the program alternates [available()] and [read()]. *)

Definition quiet_world : World :=
  mkWorld (fun _ => 0) (fun _ => 0) (fun _ => 0) 0 0 0 (fun _ => LOW) [].

Definition serving (bytes : list Z) : World :=
  mkWorld (fun _ => 0)
          (fun k => Z.of_nat (length bytes - k))
          (fun k => at_index bytes k)
          0 0 0 (fun _ => LOW) [].


(** ** Frames in the words of the specification *)

Module Wire.

(** The two bytes of a 16-bit field, [xHi] and [xLo]. *)
Definition hi (x : Z) : Z := x / 256.
Definition lo (x : Z) : Z := x mod 256.

(** Register values, each big-endian. *)
Definition registers (values : list Z) : list Z :=
  flat_map (fun v => [hi v; lo v]) values.

(** [body][crcLo][crcHi]: the CRC16 of the body, low byte first. *)
Definition with_crc (body : list Z) : list Z :=
  body ++ [lo (Crc16Spec.crc16 body); hi (Crc16Spec.crc16 body)].

(** [addr][0x03][startHi][startLo][countHi][countLo][crcLo][crcHi] *)
Definition read_request (addr start : Z) (count : nat) : list Z :=
  with_crc [addr; 0x03; hi start; lo start;
            hi (Z.of_nat count); lo (Z.of_nat count)].

(** [addr][0x06][addrHi][addrLo][valHi][valLo][crcLo][crcHi] *)
Definition write_single_request (addr reg value : Z) : list Z :=
  with_crc [addr; 0x06; hi reg; lo reg; hi value; lo value].

(** [addr][0x10][startHi][startLo][countHi][countLo][byteCount]
    [val0Hi][val0Lo]...[crcLo][crcHi], [byteCount = count * 2] *)
Definition write_multiple_request (addr start : Z) (values : list Z) : list Z :=
  let count := Z.of_nat (length values) in
  with_crc ([addr; 0x10; hi start; lo start; hi count; lo count; count * 2]
            ++ registers values).

(** A well-formed answer to a read:
    [addr][0x03][byteCount][data...][crcLo][crcHi]. *)
Definition read_response (addr : Z) (values : list Z) : list Z :=
  with_crc ([addr; 0x03; Z.of_nat (length values) * 2] ++ registers values).

(** The acceptance condition of the response validator: length at least
    4, the expected address, a function byte that is not the exception
    marker and equals the expected function, and a CRC16 over all bytes
    but the last two that equals the CRC stored low byte first in the
    last two. *)
Definition accepts (response : list Z) (size : nat)
    (expectedAddress expectedFunction : Z) : Prop :=
  (4 <= size)%nat
  /\ at_index response 0 = expectedAddress
  /\ at_index response 1 <> Z.lor expectedFunction 0x80
  /\ at_index response 1 = expectedFunction
  /\ Crc16Spec.crc16 (take (size - 2) response)
     = at_index response (size - 2) + 256 * at_index response (size - 1).

End Wire.

(** ** Relations between the world before and after a call *)

(** The environment answers the same way before and after. *)
Definition same_oracle (w w' : World) : Prop :=
  millis_at w' = millis_at w
  /\ available_at w' = available_at w
  /\ read_at w' = read_at w.

(** Nothing was asked of the environment. *)
Definition no_input (w w' : World) : Prop :=
  same_oracle w w'
  /\ millis_calls w' = millis_calls w
  /\ available_calls w' = available_calls w
  /\ read_calls w' = read_calls w.

(** No pin was driven and nothing was written to a port. *)
Definition no_output (w w' : World) : Prop :=
  pin_level w' = pin_level w /\ output w' = output w.

(** The events of one transmission of [frame]. *)
Definition transmission (self : HS321) (port : nat) (frame : list Z) : list event :=
  [EvDigitalWrite (_transmitterModeContact self) RS485Transmit;
   EvWrite port frame;
   EvFlush port;
   EvDigitalWrite (_transmitterModeContact self) RS485Receive].

(** The bytes the environment hands out at [read()] calls number
    [from], ..., [from + n - 1], as they are stored in a [uint8_t] buffer. *)
Definition reads (w : World) (from n : nat) : list Z :=
  map (fun k => u8 (read_at w k)) (seq from n).

(** [buffer[i] = b0; buffer[i + 1] = b1; ...]. *)
Fixpoint store_at (buffer : list Z) (i : nat) (bytes : list Z) : list Z :=
  match bytes with
  | [] => buffer
  | b :: bytes' => store_at (<[i := b]> buffer) (S i) bytes'
  end.

(** What a returning run of the receive loop has done. *)
Definition received (w : World) (len : nat) (buf : list Z) (br : nat)
    (ex : loop_exit) (buf' : list Z) (br' : nat) (w' : World) : Prop :=
  exists j : nat,
    br' = (br + j)%nat
    /\ (br' <= len)%nat
    /\ buf' = store_at buf br (reads w (read_calls w) j)
    /\ no_output w w' /\ same_oracle w w'
    /\ read_calls w' = (read_calls w + j)%nat
    /\ (ex = ExitCondition <-> br' = len).

(** The three outcomes of the receive loop. *)
Definition loop_post (self : HS321) (w : World) (len : nat) (buf : list Z) (br : nat)
    (res : outcome (loop_exit * list Z * nat) * World) : Prop :=
  match res with
  | (Returned (ex, buf', br'), w') => received w len buf br ex buf' br' w'
  | (NullDeref, _) => _serialPort self = None
  | (OutOfFuel, _) => True
  end.

(** A computation that drives no pin and writes to no port, whatever its
    outcome. *)
Definition quiet {A : Type} (m : IO A) : Prop :=
  forall w, no_output w (snd (m w)).

(** A world whose clock advances by one millisecond at every reading and
    whose port stays silent. *)
Definition silent_ticking : World :=
  mkWorld (fun k => Z.of_nat k) (fun _ => 0) (fun _ => 0) 0 0 0 (fun _ => LOW) [].

(** A clock that keeps going: from one reading to the next it advances by
    at most [step] milliseconds and never goes back, and over [polls]
    consecutive readings it advances by at least one. *)
Definition steady (polls : nat) (step : Z) (w : World) : Prop :=
  (forall k, 0 <= millis_at w (S k) - millis_at w k <= step)
  /\ (forall k, 1 <= millis_at w (k + polls) - millis_at w k).

(** * Properties *)

(** Range side conditions of concrete byte and word lists. *)
Ltac ranged :=
  repeat (apply Forall_cons_2; [unfold is_u8, is_u16; lia |]); constructor.

(** ** Bit-level arithmetic *)

Lemma mod_pow2_small (n x : Z) : 0 <= x < 2 ^ n -> x mod 2 ^ n = x.
Proof. intros; apply Z.mod_small; lia. Qed.

Lemma high_bits_clear (n a k : Z) :
  0 <= a < 2 ^ n -> n <= k -> Z.testbit a k = false.
Proof.
  intros Ha Hk. destruct (Z.le_gt_cases 0 n) as [Hn | Hn].
  - rewrite <- (mod_pow2_small n a Ha). apply Z.mod_pow2_bits_high. lia.
  - rewrite Z.pow_neg_r in Ha by lia. lia.
Qed.

Lemma lxor_bound (n a b : Z) :
  0 <= n -> 0 <= a < 2 ^ n -> 0 <= b < 2 ^ n -> 0 <= Z.lxor a b < 2 ^ n.
Proof.
  intros Hn Ha Hb.
  assert (E : Z.lxor a b mod 2 ^ n = Z.lxor a b).
  { apply Z.bits_inj'. intros k Hk.
    destruct (Z.lt_ge_cases k n) as [L | G].
    - apply Z.mod_pow2_bits_low. lia.
    - rewrite Z.mod_pow2_bits_high by lia.
      rewrite Z.lxor_spec, !(high_bits_clear n) by lia. reflexivity. }
  rewrite <- E. apply Z.mod_pos_bound. lia.
Qed.

Lemma shiftr1_bound (v : Z) : is_u16 v -> 0 <= Z.shiftr v 1 < 2 ^ 15.
Proof.
  unfold is_u16. intros H. rewrite Z.shiftr_div_pow2 by lia.
  change (2 ^ 1) with 2. change (2 ^ 16) with 65536 in H. change (2 ^ 15) with 32768.
  split; [apply Z.div_pos; lia | apply Z.div_lt_upper_bound; lia].
Qed.

(** ** HS321::calculateCRC against the specification's algorithm *)

Lemma bit_round_u16 (v : Z) : is_u16 v -> is_u16 (Crc16Spec.bit_round v).
Proof.
  intros H. pose proof (shiftr1_bound v H) as B.
  unfold Crc16Spec.bit_round, is_u16. destruct (Z.testbit v 0).
  - apply lxor_bound; lia.
  - lia.
Qed.

Lemma crc_shift_bit_round (v : Z) : is_u16 v -> crc_shift v = Crc16Spec.bit_round v.
Proof.
  intros H. pose proof (bit_round_u16 v H) as B. revert B.
  unfold crc_shift, Crc16Spec.bit_round, is_u16, u16.
  change 0x0001 with (Z.ones 1). rewrite Z.land_ones by lia.
  change (2 ^ 1) with 2. pose proof (Z.bit0_mod v) as M.
  destruct (Z.testbit v 0); simpl in M; rewrite <- M; simpl;
    intros B; apply Z.mod_small; lia.
Qed.

Lemma crc_bits_iter (k : nat) (v : Z) :
  is_u16 v ->
  crc_bits k v = Nat.iter k Crc16Spec.bit_round v /\ is_u16 (crc_bits k v).
Proof.
  revert v. induction k as [| k IH]; intros v H; simpl.
  - auto.
  - rewrite crc_shift_bit_round by assumption.
    destruct (IH (Crc16Spec.bit_round v) (bit_round_u16 v H)) as [E U].
    split; [| exact U].
    rewrite E. change (Crc16Spec.bit_round (Nat.iter k Crc16Spec.bit_round v))
      with (Nat.iter (S k) Crc16Spec.bit_round v).
    rewrite Nat.iter_succ_r. reflexivity.
Qed.

Lemma is_u8_u16 (b : Z) : is_u8 b -> is_u16 b.
Proof. unfold is_u8, is_u16. lia. Qed.

Lemma crc_byte_round (v b : Z) :
  is_u16 v -> is_u8 b ->
  crc_bits 8 (u16 (Z.lxor v b)) = Crc16Spec.byte_round v b
  /\ is_u16 (Crc16Spec.byte_round v b).
Proof.
  intros Hv Hb.
  assert (X : is_u16 (Z.lxor v b)).
  { apply lxor_bound; [lia | exact Hv | exact (is_u8_u16 b Hb)]. }
  unfold u16. rewrite (mod_pow2_small 16) by exact X.
  destruct (crc_bits_iter 8 _ X) as [E U].
  unfold Crc16Spec.byte_round. rewrite <- E. auto.
Qed.

Lemma at_index_lookup (a : list Z) (i : nat) (x : Z) :
  a !! i = Some x -> at_index a i = x.
Proof. unfold at_index. intros ->. reflexivity. Qed.

Lemma crc_bytes_fold (data : list Z) (k i : nat) (v : Z) :
  Forall is_u8 data -> (i + k <= length data)%nat -> is_u16 v ->
  crc_bytes data i k v = fold_left Crc16Spec.byte_round (take k (drop i data)) v
  /\ is_u16 (crc_bytes data i k v).
Proof.
  intros Hd. revert i v. induction k as [| k IH]; intros i v Hlen Hv.
  - simpl. auto.
  - destruct (lookup_lt_is_Some_2 data i) as [b Hb]; [lia |].
    assert (Ub : is_u8 b).
    { rewrite Forall_forall in Hd. apply Hd.
      apply list_elem_of_lookup. eauto. }
    cbn [crc_bytes]. rewrite (at_index_lookup _ _ _ Hb).
    destruct (crc_byte_round v b Hv Ub) as [E U]. rewrite E.
    rewrite (drop_S _ _ _ Hb). cbn [take firstn fold_left].
    apply IH; [lia | exact U].
Qed.

Lemma u8_small (x : Z) : is_u8 x -> u8 x = x.
Proof. apply mod_pow2_small. Qed.

Lemma u16_small (x : Z) : is_u16 x -> u16 x = x.
Proof. apply mod_pow2_small. Qed.

Lemma calculateCRC_prefix (data : list Z) (n : nat) :
  Forall is_u8 data -> (0 < n < 256)%nat -> (n <= length data)%nat ->
  calculateCRC (Some data) n = Crc16Spec.crc16 (take n data)
  /\ is_u16 (calculateCRC (Some data) n).
Proof.
  intros Hd Hn Hlen. unfold calculateCRC.
  rewrite u8_small by (unfold is_u8; lia).
  destruct (Z.eqb_spec (Z.of_nat n) 0) as [E | _]; [lia |].
  rewrite Nat2Z.id.
  destruct (crc_bytes_fold data n 0 0xFFFF Hd) as [E U];
    [lia | unfold is_u16; lia |].
  rewrite drop_0 in E. split; [exact E | exact U].
Qed.

(** C2. On a non-empty sequence of [n] bytes (at most 255, the range of
    the [uint8_t] length) [calculateCRC] returns the Modbus CRC16 of the
    specification: seed 0xFFFF, XOR each byte in, then eight rounds of
    "low bit set: shift right and XOR 0xA001, else shift right".  The result
    is a 16-bit value that depends on the bytes only.  With a null pointer
    or with length 0 it returns 0xFFFF. *)
Theorem calculateCRC_modbus (data : list Z) (n : nat)
    (Hbytes : Forall is_u8 data)
    (Hn : (0 < n < 256)%nat) (Hlen : (n <= length data)%nat) :
  calculateCRC (Some data) n = Crc16Spec.crc16 (take n data)
  /\ is_u16 (calculateCRC (Some data) n)
  /\ (forall m, calculateCRC None m = 0xFFFF)
  /\ (forall d, calculateCRC d 0 = 0xFFFF).
Proof.
  destruct (calculateCRC_prefix data n Hbytes Hn Hlen) as [E U].
  split; [exact E |]. split; [exact U |].
  split; [intros m; reflexivity |].
  intros [d |]; [| reflexivity].
  unfold calculateCRC. change (u8 (Z.of_nat 0)) with 0. reflexivity.
Qed.

Lemma calculateCRC_modbus_witness :
  let data := [1; 3; 0; 0; 0; 1] in
  calculateCRC (Some data) 6 = Crc16Spec.crc16 (take 6 data)
  /\ is_u16 (calculateCRC (Some data) 6)
  /\ (forall m, calculateCRC None m = 0xFFFF)
  /\ (forall d, calculateCRC d 0 = 0xFFFF).
Proof.
  refine (calculateCRC_modbus [1; 3; 0; 0; 0; 1] 6 _ _ _).
  - ranged.
  - lia.
  - simpl; lia.
Defined.

(** The published check value of the request [01 03 00 00 00 01]. *)
Example calculateCRC_vector : calculateCRC (Some [1; 3; 0; 0; 0; 1]) 6 = 0x0A84.
Proof. reflexivity. Qed.
(** ** The two bytes of a 16-bit word *)

Lemma hi_byte (x : Z) : is_u16 x -> u8 (Z.shiftr x 8) = x / 256 /\ is_u8 (x / 256).
Proof.
  unfold is_u16, is_u8, u8. intros H. rewrite Z.shiftr_div_pow2 by lia.
  change (2 ^ 8) with 256. change (2 ^ 16) with 65536 in H.
  assert (0 <= x / 256 < 256).
  { split; [apply Z.div_pos; lia | apply Z.div_lt_upper_bound; lia]. }
  split; [apply Z.mod_small; lia | lia].
Qed.

Lemma lo_byte (x : Z) : u8 (Z.land x 0xFF) = x mod 256 /\ is_u8 (x mod 256).
Proof.
  unfold is_u8, u8. change 0xFF with (Z.ones 8).
  rewrite Z.land_ones by lia. change (2 ^ 8) with 256.
  pose proof (Z.mod_pos_bound x 256).
  split; [apply Z.mod_small; lia | lia].
Qed.

Lemma hi_byte_masked (x : Z) : is_u16 x -> u8 (Z.land (Z.shiftr x 8) 0xFF) = x / 256.
Proof.
  intros H. destruct (hi_byte x H) as [E U].
  destruct (lo_byte (Z.shiftr x 8)) as [E' _]. rewrite E'.
  exact E.
Qed.

Lemma shiftl8_lor (hi lo : Z) :
  is_u8 hi -> is_u8 lo -> Z.lor (Z.shiftl hi 8) lo = hi * 256 + lo.
Proof.
  intros Hh Hl. rewrite Z.shiftl_mul_pow2 by lia. change (2 ^ 8) with 256.
  rewrite <- Z.lxor_lor, <- Z.add_nocarry_lxor; try reflexivity.
  all: apply Z.bits_inj'; intros k Hk; rewrite Z.land_spec, Z.bits_0;
    destruct (Z.lt_ge_cases k 8) as [L | G].
  all: try (rewrite (high_bits_clear 8 lo k Hl G); apply andb_false_r).
  all: change 256 with (2 ^ 8); rewrite Z.mul_pow2_bits_low by lia; reflexivity.
Qed.

Lemma be_word (hi lo : Z) :
  is_u8 hi -> is_u8 lo ->
  Z.lor (Z.shiftl hi 8) lo = hi * 256 + lo /\ is_u16 (hi * 256 + lo).
Proof.
  intros Hh Hl. split; [apply shiftl8_lor; assumption |].
  unfold is_u8, is_u16 in *. lia.
Qed.

Lemma split_word (x : Z) : x / 256 * 256 + x mod 256 = x.
Proof. pose proof (Z.div_mod x 256). lia. Qed.

(** ** Request frames *)

Lemma Forall_u8_hi_lo (x : Z) (l : list Z) :
  is_u16 x -> Forall is_u8 l -> Forall is_u8 (Wire.hi x :: Wire.lo x :: l).
Proof.
  intros Hx Hl. destruct (hi_byte x Hx) as [_ Hh]. destruct (lo_byte x) as [_ Hlo].
  apply Forall_cons_2; [exact Hh |]. apply Forall_cons_2; [exact Hlo | exact Hl].
Qed.


Lemma crc_field (body rest : list Z) :
  Forall is_u8 body -> Forall is_u8 rest -> (0 < length body < 256)%nat ->
  let crc := u16 (calculateCRC (Some (body ++ rest)) (length body)) in
  u8 (Z.land crc 0xFF) = Wire.lo (Crc16Spec.crc16 body)
  /\ u8 (Z.land (Z.shiftr crc 8) 0xFF) = Wire.hi (Crc16Spec.crc16 body).
Proof.
  intros Hb Hr Hl.
  destruct (calculateCRC_prefix (body ++ rest) (length body)) as [E U].
  { apply Forall_app; auto. }
  { exact Hl. }
  { rewrite length_app. lia. }
  rewrite take_app_length in E.
  cbv zeta. rewrite (u16_small _ U), E in *.
  split; [apply lo_byte | apply hi_byte_masked; exact U].
Qed.

Lemma append_crc (body : list Z) (a b : Z) :
  Forall is_u8 body -> is_u8 a -> is_u8 b -> (0 < length body < 256)%nat ->
  let request := body ++ [a; b] in
  let size := (length body + 2)%nat in
  let crc := u16 (calculateCRC (Some request) (size - 2)) in
  <[(size - 1)%nat := u8 (Z.land (Z.shiftr crc 8) 0xFF)]>
    (<[(size - 2)%nat := u8 (Z.land crc 0xFF)]> request)
  = Wire.with_crc body.
Proof.
  intros Hb Ha Hb' Hl. cbv zeta.
  replace (length body + 2 - 2)%nat with (length body) by lia.
  replace (length body + 2 - 1)%nat with (S (length body)) by lia.
  destruct (crc_field body [a; b] Hb) as [E1 E2]; [| exact Hl |].
  { apply Forall_cons_2; [exact Ha |]. apply Forall_cons_2; [exact Hb' | constructor]. }
  cbv zeta in E1, E2. rewrite E1, E2.
  rewrite (insert_app_r_alt body _ (length body)) by lia.
  rewrite (insert_app_r_alt body _ (S (length body))) by lia.
  replace (length body - length body)%nat with 0%nat by lia.
  replace (S (length body) - length body)%nat with 1%nat by lia.
  reflexivity.
Qed.

Lemma is_u8_0 : is_u8 0.
Proof. unfold is_u8. lia. Qed.

Lemma readRequest_frame (sa start : Z) (n : nat) :
  is_u8 sa -> is_u16 start -> is_u16 (Z.of_nat n) ->
  readRequest sa start n = Wire.read_request sa start n.
Proof.
  intros Hsa Hst Hn.
  destruct (hi_byte start Hst) as [E1 _]. destruct (lo_byte start) as [E2 _].
  destruct (hi_byte _ Hn) as [E3 _]. destruct (lo_byte (Z.of_nat n)) as [E4 _].
  unfold readRequest, local_array, Wire.read_request.
  cbn [replicate insert list_insert]. rewrite E1, E2, E3, E4.
  apply (append_crc [sa; 3; Wire.hi start; Wire.lo start;
                     Wire.hi (Z.of_nat n); Wire.lo (Z.of_nat n)] 0 0).
  - apply Forall_cons_2; [exact Hsa |].
    apply Forall_cons_2; [unfold is_u8; lia |].
    apply Forall_u8_hi_lo; [exact Hst |].
    apply Forall_u8_hi_lo; [exact Hn | constructor].
  - exact is_u8_0.
  - exact is_u8_0.
  - simpl. lia.
Qed.

Lemma registers_length (values : list Z) :
  length (Wire.registers values) = (2 * length values)%nat.
Proof. induction values as [| v l IH]; simpl; [reflexivity | rewrite IH; lia]. Qed.

Lemma registers_bytes (values : list Z) :
  Forall is_u16 values -> Forall is_u8 (Wire.registers values).
Proof.
  induction 1 as [| v l Hv _ IH]; [constructor |].
  change (Wire.registers (v :: l)) with (Wire.hi v :: Wire.lo v :: Wire.registers l).
  apply Forall_u8_hi_lo; assumption.
Qed.

Lemma copy_values_app (values : list Z) (k i : nat) (front rest : list Z) :
  Forall is_u16 values ->
  length front = (7 + i * 2)%nat -> (2 * k <= length rest)%nat ->
  (i + k <= length values)%nat ->
  copy_values values i k (front ++ rest)
  = front ++ Wire.registers (take k (drop i values)) ++ drop (2 * k) rest.
Proof.
  intros Hv. revert i front rest.
  induction k as [| k IH]; intros i front rest Hf Hr Hi.
  - reflexivity.
  - destruct (lookup_lt_is_Some_2 values i) as [v Ev]; [lia |].
    assert (Uv : is_u16 v).
    { rewrite Forall_forall in Hv. apply Hv. apply list_elem_of_lookup. eauto. }
    destruct rest as [| a [| b rest]]; simpl in Hr; try lia.
    cbn [copy_values]. rewrite (at_index_lookup _ _ _ Ev).
    destruct (hi_byte v Uv) as [-> _]. destruct (lo_byte v) as [-> _].
    rewrite (insert_app_r_alt front _ (7 + i * 2)) by lia.
    replace (7 + i * 2 - length front)%nat with 0%nat by lia.
    rewrite (insert_app_r_alt front _ (8 + i * 2)) by lia.
    replace (8 + i * 2 - length front)%nat with 1%nat by lia.
    cbn [insert list_insert].
    change (front ++ v / 256 :: v `mod` 256 :: rest)
      with (front ++ [Wire.hi v; Wire.lo v] ++ rest).
    rewrite app_assoc, IH; [| rewrite length_app; simpl; lia | lia | lia].
    rewrite (drop_S _ _ _ Ev). cbn [take firstn].
    replace (2 * S k)%nat with (S (S (2 * k))) by lia.
    cbn [drop skipn]. rewrite <- app_assoc. reflexivity.
Qed.

Lemma writeRequest_single (sa start : Z) (values : list Z) :
  is_u8 sa -> is_u16 start -> is_u16 (at_index values 0) ->
  writeRequest sa start values 1
  = Wire.write_single_request sa start (at_index values 0).
Proof.
  intros Hsa Hst Hv.
  destruct (hi_byte start Hst) as [E1 _]. destruct (lo_byte start) as [E2 _].
  destruct (hi_byte _ Hv) as [E3 _]. destruct (lo_byte (at_index values 0)) as [E4 _].
  unfold writeRequest, local_array, Wire.write_single_request.
  cbn [writeRequestSize Nat.eqb replicate insert list_insert].
  rewrite E1, E2, E3, E4.
  apply (append_crc [sa; 6; Wire.hi start; Wire.lo start;
                     Wire.hi (at_index values 0); Wire.lo (at_index values 0)] 0 0).
  - apply Forall_cons_2; [exact Hsa |].
    apply Forall_cons_2; [unfold is_u8; lia |].
    apply Forall_u8_hi_lo; [exact Hst |].
    apply Forall_u8_hi_lo; [exact Hv | constructor].
  - exact is_u8_0.
  - exact is_u8_0.
  - simpl. lia.
Qed.

Lemma writeRequest_multiple (sa start : Z) (values : list Z) (n : nat) :
  is_u8 sa -> is_u16 start -> Forall is_u16 values ->
  (1 < n <= 123)%nat -> (n <= length values)%nat ->
  writeRequest sa start values n
  = Wire.write_multiple_request sa start (take n values).
Proof.
  intros Hsa Hst Hv Hn Hlen.
  assert (Un : is_u16 (Z.of_nat n)) by (unfold is_u16; lia).
  destruct (hi_byte start Hst) as [E1 _]. destruct (lo_byte start) as [E2 _].
  destruct (hi_byte _ Un) as [E3 _]. destruct (lo_byte (Z.of_nat n)) as [E4 _].
  unfold writeRequest, local_array, Wire.write_multiple_request, writeRequestSize.
  destruct (Nat.eqb_spec n 1) as [? | _]; [lia |].
  destruct (Nat.ltb_spec 1 n) as [_ | ?]; [| lia].
  set (size := (9 + n * 2)%nat).
  assert (Ez : replicate size 0 = replicate 7 0 ++ replicate (n * 2) 0 ++ [0; 0]).
  { change [0; 0] with (replicate 2 0).
    rewrite <- !replicate_add. f_equal. unfold size. lia. }
  rewrite Ez. cbn [replicate app insert list_insert].
  rewrite E1, E2, E3, E4.
  rewrite (u8_small (Z.of_nat (n * 2))) by (unfold is_u8; lia).
  set (hdr := [sa; WRITE_RANGE; start / 256; start mod 256;
               Z.of_nat n / 256; Z.of_nat n mod 256; Z.of_nat (n * 2)]).
  change (copy_values values 0 n _)
    with (copy_values values 0 n (hdr ++ replicate (n * 2) 0 ++ [0; 0])).
  rewrite copy_values_app;
    [| exact Hv | reflexivity
     | rewrite length_app, length_replicate; simpl; lia | lia].
  rewrite drop_0.
  rewrite drop_app_length' by (rewrite length_replicate; lia).
  assert (Lt : length (take n values) = n) by (rewrite length_take; lia).
  rewrite Lt. rewrite app_assoc.
  set (body := hdr ++ Wire.registers (take n values)).
  assert (Lb : length body = (7 + n * 2)%nat).
  { unfold body. rewrite length_app, registers_length, Lt. simpl. lia. }
  replace size with (length body + 2)%nat by (unfold size; lia).
  rewrite (append_crc body 0 0).
  - unfold body, hdr, Wire.hi, Wire.lo, WRITE_RANGE.
    rewrite Nat2Z.inj_mul. reflexivity.
  - unfold body. apply Forall_app. split.
    + unfold hdr. apply Forall_cons_2; [exact Hsa |].
      apply Forall_cons_2; [unfold is_u8, WRITE_RANGE; lia |].
      apply (Forall_u8_hi_lo start); [exact Hst |].
      apply (Forall_u8_hi_lo (Z.of_nat n)); [exact Un |].
      apply Forall_cons_2; [unfold is_u8; lia | constructor].
    + apply registers_bytes. apply Forall_take. exact Hv.
  - exact is_u8_0.
  - exact is_u8_0.
  - lia.
Qed.

(** ** The receiver *)

Lemma no_output_refl (w : World) : no_output w w.
Proof. split; reflexivity. Qed.

Lemma no_output_trans (w1 w2 w3 : World) :
  no_output w1 w2 -> no_output w2 w3 -> no_output w1 w3.
Proof. intros [A B] [C D]. split; congruence. Qed.

Lemma reads_S (w : World) (from n : nat) :
  reads w from (S n) = u8 (read_at w from) :: reads w (S from) n.
Proof. reflexivity. Qed.

Lemma reads_app (w : World) (from n m : nat) :
  reads w from (n + m) = reads w from n ++ reads w (from + n) m.
Proof. unfold reads. rewrite seq_app, map_app. reflexivity. Qed.

Lemma reads_length (w : World) (from n : nat) : length (reads w from n) = n.
Proof. unfold reads. rewrite length_map, length_seq. reflexivity. Qed.

Lemma reads_oracle (w w' : World) (from n : nat) :
  read_at w' = read_at w -> reads w' from n = reads w from n.
Proof. unfold reads. intros ->. reflexivity. Qed.

Lemma store_at_app (buffer : list Z) (i : nat) (l1 l2 : list Z) :
  store_at buffer i (l1 ++ l2) = store_at (store_at buffer i l1) (i + length l1) l2.
Proof.
  revert buffer i. induction l1 as [| b l1 IH]; intros buffer i; simpl.
  - rewrite Nat.add_0_r. reflexivity.
  - rewrite IH. f_equal. lia.
Qed.

(** Stores behind [front] overwrite the cells that follow it, in order. *)
Lemma store_at_fill (front rest : list Z) (l : list Z) :
  (length l <= length rest)%nat ->
  store_at (front ++ rest) (length front) l = front ++ l ++ drop (length l) rest.
Proof.
  revert front rest. induction l as [| b l IH]; intros front rest H; simpl.
  - reflexivity.
  - destruct rest as [| a rest]; simpl in H; [lia |].
    rewrite (insert_app_r_alt front _ (length front)) by lia.
    rewrite Nat.sub_diag. cbn [insert list_insert].
    change (front ++ b :: rest) with (front ++ [b] ++ rest).
    rewrite app_assoc.
    replace (S (length front)) with (length (front ++ [b]))
      by (rewrite length_app; simpl; lia).
    rewrite IH by lia. rewrite <- app_assoc. reflexivity.
Qed.

(** Storing as many bytes as the buffer has cells, from index 0, replaces
    its contents. *)
Lemma store_at_whole (buffer bytes : list Z) :
  length bytes = length buffer -> store_at buffer 0 bytes = bytes.
Proof.
  intros H. pose proof (store_at_fill [] buffer bytes) as F.
  cbn [app length] in F. rewrite F by lia.
  rewrite drop_ge by lia. apply app_nil_r.
Qed.

Lemma drain_unfold (self : HS321) (len k : nat) (buf : list Z) (br : nat) (last : Z) :
  drain self len k buf br last =
  (a ← serial_available (_serialPort self);
   if (0 <? a) && (br <? len)%nat then
     match k with
     | O => fail_fuel
     | S k' =>
         b ← serial_read (_serialPort self);
         lastByteTime ← millis;
         drain self len k' (<[br := u8 b]> buf) (S br) lastByteTime
     end
   else mret (buf, br, last)).
Proof. destruct k; reflexivity. Qed.

Lemma drain_outcome (self : HS321) (len k : nat) (buf : list Z) (br : nat)
    (last : Z) (w : World) :
  match drain self len k buf br last w with
  | (Returned (buf', br', last'), w') =>
      exists j : nat,
        br' = (br + j)%nat
        /\ (j = 0%nat \/ (br + j <= len)%nat)
        /\ buf' = store_at buf br (reads w (read_calls w) j)
        /\ no_output w w' /\ same_oracle w w'
        /\ read_calls w' = (read_calls w + j)%nat
        /\ millis_calls w' = (millis_calls w + j)%nat
        /\ available_calls w' = S (available_calls w + j)
        /\ last' = match j with
                   | O => last
                   | S j' => u32 (millis_at w (millis_calls w + j'))
                   end
        /\ ((br' < len)%nat -> available_at w (available_calls w + j) <= 0)
  | (NullDeref, _) => _serialPort self = None
  | (OutOfFuel, _) => (k < len - br)%nat
  end.
Proof.
  revert buf br last w. induction k as [| k IH]; intros buf br last w;
    rewrite drain_unfold; unfold mbind, IO_bind, serial_available, with_port;
    destruct (_serialPort self) as [port |] eqn:Ep; try reflexivity;
    cbn beta iota;
    destruct (Z.ltb_spec 0 (available_at w (available_calls w))) as [Ha | Ha];
    destruct (Nat.ltb_spec br len) as [Hb | Hb]; cbn [andb].
  all: try (exists 0%nat; rewrite !Nat.add_0_r; simpl;
            repeat split; auto; lia).
  - unfold fail_fuel. lia.
  - unfold serial_read, with_port, millis. cbn beta iota.
    match goal with |- context [drain self len k ?b ?r ?l ?w2] =>
      specialize (IH b r l w2); destruct (drain self len k b r l w2) as [[[[buf' br'] last'] | |] w']
    end; cbn [read_calls millis_calls available_calls millis_at read_at available_at] in IH.
    + destruct IH as (j & E1 & E2 & E3 & E4 & E5 & E6 & E7 & E8 & E9 & E10).
      exists (S j). rewrite reads_S. cbn [store_at].
      repeat split.
      * lia.
      * right. lia.
      * rewrite E3. reflexivity.
      * destruct E4 as [P Q]. exact P.
      * destruct E4 as [P Q]. exact Q.
      * apply E5.
      * apply E5.
      * apply E5.
      * lia.
      * lia.
      * lia.
      * rewrite E9. destruct j; [rewrite Nat.add_0_r; reflexivity |].
        f_equal. f_equal. lia.
      * intros H. replace (available_calls w + S j)%nat
          with (S (available_calls w) + j)%nat by lia. apply E10. exact H.
    + exact IH.
    + lia.
Qed.

Lemma receive_loop_unfold (fuel : nat) (self : HS321) (len : nat) (ct : Z)
    (buf : list Z) (br : nat) (last : Z) :
  receive_loop fuel self len ct buf br last =
  if negb (br <? len)%nat then mret (ExitCondition, buf, br)
  else
    match fuel with
    | O => fail_fuel
    | S fuel' =>
        now ← millis;
        if _totalTimeout self <? u32 (now - last)
        then mret (BreakTotalTimeout, buf, br)
        else
          '(buf, br, last) ← drain self len (len - br) buf br last;
          if (br <? len)%nat then
            a ← serial_available (_serialPort self);
            if a =? 0 then
              now ← millis;
              if ct <? u32 (now - last)
              then mret (BreakInterCharTimeout, buf, br)
              else receive_loop fuel' self len ct buf br last
            else receive_loop fuel' self len ct buf br last
          else receive_loop fuel' self len ct buf br last
    end.
Proof. destruct fuel; reflexivity. Qed.

Lemma received_step (w w1 w2 : World) (len : nat) (buf buf1 : list Z)
    (br j : nat) (ex : loop_exit) (buf2 : list Z) (br2 : nat) :
  no_output w w1 -> same_oracle w w1 ->
  read_calls w1 = (read_calls w + j)%nat ->
  buf1 = store_at buf br (reads w (read_calls w) j) ->
  received w1 len buf1 (br + j) ex buf2 br2 w2 ->
  received w len buf br ex buf2 br2 w2.
Proof.
  intros O1 S1 R1 B1 (j2 & E1 & E2 & E3 & E4 & E5 & E6 & E7).
  exists (j + j2)%nat. repeat split.
  - lia.
  - exact E2.
  - rewrite reads_app, store_at_app, reads_length, <- B1.
    rewrite E3, R1. apply f_equal. apply reads_oracle. apply S1.
  - destruct O1, E4. congruence.
  - destruct O1, E4. congruence.
  - destruct S1 as (? & ? & ?), E5 as (? & ? & ?). congruence.
  - destruct S1 as (? & ? & ?), E5 as (? & ? & ?). congruence.
  - destruct S1 as (? & ? & ?), E5 as (? & ? & ?). congruence.
  - lia.
  - apply E7.
  - apply E7.
Qed.

Lemma received_here (w : World) (len : nat) (buf : list Z) (br : nat) (ex : loop_exit) :
  (br <= len)%nat -> (ex = ExitCondition <-> br = len) ->
  received w len buf br ex buf br w.
Proof.
  intros H E. exists 0%nat. rewrite Nat.add_0_r.
  repeat split; auto; apply E.
Qed.

Lemma loop_post_step (self : HS321) (w w1 : World) (len : nat) (buf buf1 : list Z)
    (br j : nat) res :
  no_output w w1 -> same_oracle w w1 ->
  read_calls w1 = (read_calls w + j)%nat ->
  buf1 = store_at buf br (reads w (read_calls w) j) ->
  loop_post self w1 len buf1 (br + j) res ->
  loop_post self w len buf br res.
Proof.
  intros O1 S1 R1 B1. destruct res as [[[[ex buf2] br2] | |] w2]; simpl; auto.
  apply received_step; auto.
Qed.

Lemma loop_post_input (self : HS321) (w w1 : World) (len : nat) (buf : list Z)
    (br : nat) res :
  no_output w w1 -> same_oracle w w1 -> read_calls w1 = read_calls w ->
  loop_post self w1 len buf br res ->
  loop_post self w len buf br res.
Proof.
  intros O1 S1 R1 H.
  apply (loop_post_step self w w1 len buf buf br 0); auto.
  - lia.
  - rewrite Nat.add_0_r. exact H.
Qed.

Lemma receive_loop_outcome (fuel : nat) (self : HS321) (len : nat) (ct : Z)
    (buf : list Z) (br : nat) (last : Z) (w : World) :
  (br <= len)%nat ->
  loop_post self w len buf br (receive_loop fuel self len ct buf br last w).
Proof.
  revert buf br last w. induction fuel as [| fuel IH]; intros buf br last w Hbr;
    rewrite receive_loop_unfold;
    destruct (Nat.ltb_spec br len) as [Hlt | Hge]; cbn [negb].
  2, 4: apply received_here; [lia | split; [lia | reflexivity]].
  - exact I.
  - unfold mbind at 1, IO_bind at 1, millis at 1. cbn beta iota.
    set (w1 := mkWorld _ _ _ _ _ _ _ _).
    apply (loop_post_input self w w1); [split; reflexivity | repeat split | reflexivity |].
    destruct (Z.ltb_spec (_totalTimeout self)
                (u32 (u32 (millis_at w (millis_calls w)) - last))) as [Ht | Ht].
    + apply received_here; [lia | split; [discriminate | lia]].
    + unfold mbind at 1, IO_bind at 1.
      pose proof (drain_outcome self len (len - br) buf br last w1) as D.
      destruct (drain self len (len - br) buf br last w1)
        as [[[[buf1 br1] last1] | |] w2]; [| exact D | exact I].
      destruct D as (j & E1 & E2 & E3 & E4 & E5 & E6 & E7 & E8 & E9 & E10).
      assert (Hbr1 : (br1 <= len)%nat) by lia.
      subst br1.
      apply (loop_post_step self w1 w2 len buf buf1 br j); auto.
      destruct (Nat.ltb_spec (br + j) len) as [Hlt1 | Hge1]; [| apply IH; exact Hbr1].
      unfold mbind at 1, IO_bind at 1, serial_available, with_port.
      destruct (_serialPort self) as [port |] eqn:Ep; [| exact Ep].
      cbn beta iota.
      set (w3 := mkWorld _ _ _ _ _ _ _ _).
      apply (loop_post_input self w2 w3); [split; reflexivity | repeat split | reflexivity |].
      destruct (Z.eqb_spec (available_at w2 (available_calls w2)) 0) as [Ea | Ea];
        [| apply IH; exact Hbr1].
      unfold mbind at 1, IO_bind at 1, millis at 1. cbn beta iota.
      set (w4 := mkWorld _ _ _ _ _ _ _ _).
      apply (loop_post_input self w3 w4); [split; reflexivity | repeat split | reflexivity |].
      destruct (Z.ltb_spec ct (u32 (u32 (millis_at w3 (millis_calls w3)) - last1)))
        as [Hc | Hc]; [| apply IH; exact Hbr1].
      apply received_here; [lia | split; [discriminate | lia]].
Qed.

Lemma u32_sub (a b : Z) : u32 (u32 a - u32 b) = u32 (a - b).
Proof. unfold u32. rewrite Zminus_mod_idemp_l, Zminus_mod_idemp_r. reflexivity. Qed.

(** Readings of a steady clock. *)
Section Clock.

Variable clock : nat -> Z.
Variable polls : nat.
Variable step : Z.
Hypothesis Hstep : forall k, 0 <= clock (S k) - clock k <= step.
Hypothesis Hpolls : forall k, 1 <= clock (k + polls)%nat - clock k.

Lemma clock_upper (m k : nat) :
  0 <= clock (k + m)%nat - clock k <= step * Z.of_nat m.
Proof.
  induction m as [| m IH].
  - rewrite Nat.add_0_r. lia.
  - replace (k + S m)%nat with (S (k + m)) by lia.
    pose proof (Hstep (k + m)%nat). nia.
Qed.

Lemma clock_lower (q k : nat) : Z.of_nat q <= clock (k + q * polls)%nat - clock k.
Proof.
  induction q as [| q IH].
  - simpl. rewrite Nat.add_0_r. lia.
  - replace (k + S q * polls)%nat with (k + q * polls + polls)%nat by lia.
    pose proof (Hpolls (k + q * polls)%nat). lia.
Qed.

Lemma clock_elapsed (q k c : nat) :
  (k + q * polls <= c)%nat -> Z.of_nat q <= clock c - clock k.
Proof.
  intros H. pose proof (clock_lower q k) as L.
  pose proof (clock_upper (c - (k + q * polls)) (k + q * polls)) as U.
  replace (k + q * polls + (c - (k + q * polls)))%nat with c in U by lia. lia.
Qed.

Lemma clock_gap (k0 c : nat) :
  (k0 <= c)%nat -> step * Z.of_nat (c - k0) < 2 ^ 32 ->
  u32 (u32 (clock c) - u32 (clock k0)) = clock c - clock k0.
Proof.
  intros Hk Hlt. rewrite u32_sub.
  pose proof (clock_upper (c - k0) k0) as U.
  replace (k0 + (c - k0))%nat with c in U by lia.
  apply Z.mod_small. lia.
Qed.

End Clock.

Lemma receive_loop_returns (clock : nat -> Z) (polls : nat) (step : Z)
    (self : HS321) (port : nat) (len : nat) (ct : Z) :
  (forall k, 0 <= clock (S k) - clock k <= step) ->
  (forall k, 1 <= clock (k + polls)%nat - clock k) ->
  _serialPort self = Some port ->
  0 <= _totalTimeout self ->
  step * (Z.of_nat polls * (_totalTimeout self + 1) + 1) < 2 ^ 32 ->
  forall (fuel : nat) (buf : list Z) (br k0 : nat) (w : World),
    millis_at w = clock ->
    (br <= len)%nat -> (k0 < millis_calls w)%nat ->
    Z.of_nat (millis_calls w - k0) <= Z.of_nat polls * (_totalTimeout self + 1) + 1 ->
    Z.of_nat (len - br) * (Z.of_nat polls * (_totalTimeout self + 1) + 2)
      + (Z.of_nat polls * (_totalTimeout self + 1) + 1 - Z.of_nat (millis_calls w - k0))
      < Z.of_nat fuel ->
    exists r w',
      receive_loop fuel self len ct buf br (u32 (clock k0)) w = (Returned r, w').
Proof.
  intros Hstep Hpolls Ep HT0 HT1.
  set (T := _totalTimeout self) in *.
  set (M := Z.of_nat polls * (T + 1) + 1) in *.
  assert (Hstep0 : 0 <= step) by (specialize (Hstep 0%nat); lia).
  assert (HB : (1 <= polls)%nat).
  { destruct polls; [| lia]. specialize (Hpolls 0%nat).
    rewrite Nat.add_0_r in Hpolls. lia. }
  assert (HM : 2 <= M) by (unfold M; nia).
  induction fuel as [| fuel IH]; intros buf br k0 w Hw Hbr Hk Hgap Hfuel;
    rewrite receive_loop_unfold;
    destruct (Nat.ltb_spec br len) as [Hlt | Hge]; cbn [negb].
  2, 4: eexists _, _; reflexivity.
  - exfalso.
    assert (0 <= Z.of_nat (len - br) * (Z.of_nat polls * (T + 1) + 2))
      by (apply Z.mul_nonneg_nonneg; lia).
    fold M in Hfuel. lia.
  - unfold mbind at 1, IO_bind at 1, millis at 1. cbn beta iota.
    set (w1 := mkWorld _ _ _ _ _ _ _ _).
    rewrite Hw, (clock_gap clock step Hstep k0 (millis_calls w)) by nia.
    fold T.
    destruct (Z.ltb_spec T (clock (millis_calls w) - clock k0)) as [Ht | Ht];
      [eexists _, _; reflexivity |].
    assert (Hnear : Z.of_nat (millis_calls w - k0) < Z.of_nat polls * (T + 1)).
    { destruct (Z.lt_ge_cases (Z.of_nat (millis_calls w - k0))
                  (Z.of_nat polls * (T + 1))) as [L | G]; [exact L |].
      pose proof (clock_elapsed clock polls step Hstep Hpolls
                    (Z.to_nat (T + 1)) k0 (millis_calls w)) as E.
      assert (Eq : Z.of_nat (Z.to_nat (T + 1) * polls) = (T + 1) * Z.of_nat polls)
        by (rewrite Nat2Z.inj_mul, Z2Nat.id; lia).
      rewrite Z2Nat.id in E by lia. lia. }
    unfold mbind at 1, IO_bind at 1.
    pose proof (drain_outcome self len (len - br) buf br (u32 (clock k0)) w1) as D.
    destruct (drain self len (len - br) buf br (u32 (clock k0)) w1)
      as [[[[buf1 br1] last1] | |] w2]; [| congruence | lia].
    destruct D as (j & E1 & E2 & E3 & E4 & E5 & E6 & E7 & E8 & E9 & E10).
    subst br1.
    assert (Hbr1 : (br + j <= len)%nat) by lia.
    set (k1 := match j with O => k0 | S j' => (millis_calls w1 + j')%nat end).
    assert (El : last1 = u32 (clock k1)).
    { rewrite E9. unfold k1. destruct j; [reflexivity |].
      change (millis_at w1) with (millis_at w). rewrite Hw. reflexivity. }
    assert (Hw2 : millis_at w2 = clock).
    { destruct E5 as (-> & _). exact Hw. }
    change (millis_calls w1) with (S (millis_calls w)) in *.
    assert (K : forall w3, millis_at w3 = clock ->
                  (millis_calls w2 <= millis_calls w3 <= S (millis_calls w2))%nat ->
                  exists r w',
                    receive_loop fuel self len ct buf1 (br + j) last1 w3
                    = (Returned r, w')).
    { intros w3 Hw3 Hm3. rewrite El. apply IH; auto.
      - unfold k1. destruct j; lia.
      - fold M. unfold k1. destruct j; lia.
      - assert (EL : Z.of_nat (len - (br + j))
                     = Z.of_nat (len - br) - Z.of_nat j) by lia.
        fold M. fold M in Hfuel.
        replace (Z.of_nat polls * (T + 1) + 2) with (M + 1) in * by (unfold M; lia).
        rewrite EL, Z.mul_sub_distr_r.
        unfold k1. destruct j as [| j'].
        + lia.
        + assert (M + 1 <= Z.of_nat (S j') * (M + 1)) by nia.
          lia. }
    destruct (Nat.ltb_spec (br + j) len) as [Hlt1 | Hge1];
      [| apply K; [exact Hw2 | lia]].
    unfold mbind at 1, IO_bind at 1, serial_available, with_port.
    rewrite Ep. cbn beta iota.
    set (w3 := mkWorld _ _ _ _ _ _ _ _).
    destruct (Z.eqb_spec (available_at w2 (available_calls w2)) 0) as [Ea | Ea];
      [| apply K; [exact Hw2 | simpl; lia]].
    unfold mbind at 1, IO_bind at 1, millis at 1. cbn beta iota.
    set (w4 := mkWorld _ _ _ _ _ _ _ _).
    match goal with |- context [if ?c then _ else _] => destruct c end;
      [eexists _, _; reflexivity |].
    apply K; [exact Hw2 | simpl; lia].
Qed.

(** ** Computations without output *)

Lemma quiet_ret {A : Type} (a : A) : quiet (mret a).
Proof. intros w. apply no_output_refl. Qed.

Lemma quiet_fail_fuel {A : Type} : quiet (@fail_fuel A).
Proof. intros w. apply no_output_refl. Qed.

Lemma quiet_bind {A B : Type} (m : IO A) (f : A -> IO B) :
  quiet m -> (forall a, quiet (f a)) -> quiet (m ≫= f).
Proof.
  intros Hm Hf w. specialize (Hm w). unfold mbind, IO_bind.
  destruct (m w) as [[a | |] w1]; simpl in *; auto.
  apply (no_output_trans w w1); [exact Hm | apply Hf].
Qed.

Lemma quiet_millis : quiet millis.
Proof. intros w. split; reflexivity. Qed.

Lemma quiet_available (p : option nat) : quiet (serial_available p).
Proof. intros w. destruct p; split; reflexivity. Qed.

Lemma quiet_read (p : option nat) : quiet (serial_read p).
Proof. intros w. destruct p; split; reflexivity. Qed.

Create HintDb quiet.
#[local] Hint Resolve quiet_ret quiet_fail_fuel quiet_millis quiet_available
  quiet_read : quiet.

Lemma quiet_drain (self : HS321) (len k : nat) (buf : list Z) (br : nat) (last : Z) :
  quiet (drain self len k buf br last).
Proof.
  revert buf br last. induction k as [| k IH]; intros buf br last;
    rewrite drain_unfold; (apply quiet_bind; [apply quiet_available |]);
    intros a; destruct ((0 <? a) && (br <? len)%nat); auto with quiet.
  apply quiet_bind; [auto with quiet |]. intros b.
  apply quiet_bind; [auto with quiet |]. intros t. apply IH.
Qed.

Lemma quiet_receive_loop (fuel : nat) (self : HS321) (len : nat) (ct : Z)
    (buf : list Z) (br : nat) (last : Z) :
  quiet (receive_loop fuel self len ct buf br last).
Proof.
  revert buf br last. induction fuel as [| fuel IH]; intros buf br last;
    rewrite receive_loop_unfold; destruct (negb (br <? len)%nat);
    auto with quiet.
  apply quiet_bind; [auto with quiet |]. intros now.
  destruct (_totalTimeout self <? u32 (now - last)); [auto with quiet |].
  apply quiet_bind; [apply quiet_drain |]. intros [[buf1 br1] last1].
  destruct (br1 <? len)%nat; [| apply IH].
  apply quiet_bind; [auto with quiet |]. intros a.
  destruct (a =? 0); [| apply IH].
  apply quiet_bind; [auto with quiet |]. intros now1.
  destruct (ct <? u32 (now1 - last1)); [auto with quiet | apply IH].
Qed.

Lemma quiet_receiveData (fuel : nat) (self : HS321) (buffer : option (list Z)) (len : nat) :
  quiet (receiveData fuel self buffer len).
Proof.
  unfold receiveData. destruct buffer as [buf |]; [| apply quiet_ret].
  destruct (len =? 0)%nat; [apply quiet_ret |].
  apply quiet_bind; [apply quiet_millis |]. intros t.
  apply quiet_bind; [apply quiet_receive_loop |]. intros [[ex buf1] br1].
  apply quiet_ret.
Qed.

(** ** Sending *)

Lemma sendData_run (self : HS321) (port : nat) (data : list Z) (len : nat) (w : World) :
  _serialPort self = Some port ->
  exists w',
    sendData self data len w = (Returned tt, w')
    /\ no_input w w'
    /\ output w' = output w ++ transmission self port (take len data)
    /\ pin_level w' (_transmitterModeContact self) = RS485Receive.
Proof.
  intros Ep. unfold sendData, serial_write, serial_flush. rewrite Ep.
  eexists. split; [reflexivity |]. cbn.
  split; [repeat split |]. split.
  - rewrite <- !app_assoc. reflexivity.
  - rewrite Z.eqb_refl. reflexivity.
Qed.

(** What follows a transmission without further output leaves the log
    and the pin as the transmission left them. *)
Lemma send_then_quiet {A : Type} (self : HS321) (port : nat) (data : list Z)
    (len : nat) (k : IO A) (w : World) :
  _serialPort self = Some port -> quiet k ->
  let w' := snd ((sendData self data len;; k) w) in
  output w' = output w ++ transmission self port (take len data)
  /\ pin_level w' (_transmitterModeContact self) = RS485Receive.
Proof.
  intros Ep Hk.
  destruct (sendData_run self port data len w Ep) as (w1 & E & _ & Ho & Hp).
  assert (Ew : (sendData self data len;; k) w = k w1).
  { unfold mbind, IO_bind. rewrite E. reflexivity. }
  cbv zeta. rewrite Ew.
  destruct (Hk w1) as [P O]. rewrite P, O. auto.
Qed.

(** ** HS321::receiveData *)

Lemma receiveData_null (fuel : nat) (self : HS321) (len : nat) (w : World) :
  receiveData fuel self None len w = (Returned (false, None), w).
Proof. reflexivity. Qed.

Lemma receiveData_zero (fuel : nat) (self : HS321) (buffer : option (list Z)) (w : World) :
  receiveData fuel self buffer 0 w = (Returned (false, buffer), w).
Proof. destruct buffer; reflexivity. Qed.

Lemma receiveData_unfold (fuel : nat) (self : HS321) (buf : list Z) (len : nat) (w : World) :
  len <> 0%nat ->
  receiveData fuel self (Some buf) len w =
  match receive_loop fuel self len (charTimeoutOf self len) buf 0
          (u32 (millis_at w (millis_calls w))) (snd (millis w)) with
  | (Returned (_, bytes, bytesRead), w') =>
      (Returned ((bytesRead =? len)%nat, Some bytes), w')
  | (NullDeref, w') => (NullDeref, w')
  | (OutOfFuel, w') => (OutOfFuel, w')
  end.
Proof.
  intros Hlen. unfold receiveData.
  destruct (Nat.eqb_spec len 0) as [? | _]; [contradiction |].
  unfold mbind, IO_bind, millis. cbn beta iota. cbn [snd].
  match goal with |- context [receive_loop ?f ?s ?l ?c ?b ?r ?t ?w1] =>
    destruct (receive_loop f s l c b r t w1) as [[[[ex bytes] bytesRead] | |] w']
  end; reflexivity.
Qed.

(** The number of passes of the outer loop that is enough under a
    steady clock. *)
Lemma receiveData_returns (polls : nat) (step : Z) (self : HS321) (port : nat)
    (buf : list Z) (len fuel : nat) (w : World) :
  _serialPort self = Some port -> steady polls step w ->
  0 <= _totalTimeout self ->
  step * (Z.of_nat polls * (_totalTimeout self + 1) + 1) < 2 ^ 32 ->
  Z.of_nat len * (Z.of_nat polls * (_totalTimeout self + 1) + 2)
    + Z.of_nat polls * (_totalTimeout self + 1) < Z.of_nat fuel ->
  exists r w', receiveData fuel self (Some buf) len w = (Returned r, w').
Proof.
  intros Ep [Hstep Hpolls] HT0 HT1 Hfuel.
  destruct (Nat.eq_dec len 0%nat) as [-> | Hlen].
  { rewrite receiveData_zero. eauto. }
  rewrite receiveData_unfold by exact Hlen.
  assert (HB : 0 <= Z.of_nat polls * (_totalTimeout self + 1)) by nia.
  destruct (receive_loop_returns (millis_at w) polls step self port len
              (charTimeoutOf self len) Hstep Hpolls Ep HT0 HT1
              fuel buf 0%nat (millis_calls w) (snd (millis w)))
    as ([[ex bytes] bytesRead] & w' & E).
  - reflexivity.
  - lia.
  - simpl. lia.
  - simpl. replace (S (millis_calls w) - millis_calls w)%nat with 1%nat by lia. lia.
  - simpl. replace (S (millis_calls w) - millis_calls w)%nat with 1%nat by lia.
    rewrite Nat.sub_0_r. lia.
  - rewrite E. eauto.
Qed.

(** A successful call into a buffer of the expected length leaves in it
    the bytes that were read, in order. *)
Lemma receiveData_true_bytes (fuel : nat) (self : HS321) (buf : list Z)
    (len : nat) (w w' : World) (buffer' : option (list Z)) :
  len <> 0%nat -> length buf = len ->
  receiveData fuel self (Some buf) len w = (Returned (true, buffer'), w') ->
  buffer' = Some (reads w (read_calls w) len).
Proof.
  intros Hlen Hb. rewrite receiveData_unfold by exact Hlen.
  pose proof (receive_loop_outcome fuel self len (charTimeoutOf self len) buf 0
                (u32 (millis_at w (millis_calls w))) (snd (millis w))
                (Nat.le_0_l len)) as P.
  destruct (receive_loop fuel self len (charTimeoutOf self len) buf 0
              (u32 (millis_at w (millis_calls w))) (snd (millis w)))
    as [[[[ex bytes] bytesRead] | |] w1]; try discriminate.
  destruct P as (j & E1 & _ & E3 & _). simpl in E1. subst j.
  intros H. injection H as Hr <- _. apply Nat.eqb_eq in Hr. subst bytesRead.
  f_equal. rewrite E3.
  change (reads (millis w).2 (read_calls (millis w).2) len)
    with (reads w (read_calls w) len).
  apply store_at_whole. rewrite reads_length. symmetry. exact Hb.
Qed.

(** C5. A call of [receiveData] with a buffer and a non-zero length
    returns [true] exactly when the receive loop ended because
    [bytesRead] reached the expected length, that is when exactly that
    many bytes were read from the port and neither timeout [break] ran;
    a buffer of that length then holds exactly the bytes read, in order.
    Leaving the loop through a timeout means fewer bytes were stored and
    the result is [false].  Under a steady clock the call returns, within
    a number of passes that the timeout and the length bound.  With a null
    buffer or a zero length it returns [false] at once and the world is
    untouched. *)
Theorem receiveData_complete_iff (fuel : nat) (self : HS321) (buf : list Z)
    (len : nat) (w : World) (Hlen : len <> 0%nat) :
  match receiveData fuel self (Some buf) len w with
  | (Returned (r, buf'), w') =>
      exists ex bytes bytesRead,
        receive_loop fuel self len (charTimeoutOf self len) buf 0
          (u32 (millis_at w (millis_calls w))) (snd (millis w))
        = (Returned (ex, bytes, bytesRead), w')
        /\ buf' = Some bytes
        /\ bytes = store_at buf 0 (reads w (read_calls w) bytesRead)
        /\ read_calls w' = (read_calls w + bytesRead)%nat
        /\ (bytesRead <= len)%nat
        /\ (r = true <-> bytesRead = len)
        /\ (r = true <-> ex = ExitCondition)
        /\ (ex <> ExitCondition -> (bytesRead < len)%nat /\ r = false)
        /\ (r = true -> length buf = len -> bytes = reads w (read_calls w) len)
        /\ no_output w w'
  | (NullDeref, _) => _serialPort self = None
  | (OutOfFuel, _) => True
  end
  /\ (forall port polls step,
        _serialPort self = Some port -> steady polls step w ->
        0 <= _totalTimeout self ->
        step * (Z.of_nat polls * (_totalTimeout self + 1) + 1) < 2 ^ 32 ->
        Z.of_nat len * (Z.of_nat polls * (_totalTimeout self + 1) + 2)
          + Z.of_nat polls * (_totalTimeout self + 1) < Z.of_nat fuel ->
        exists r w', receiveData fuel self (Some buf) len w = (Returned r, w'))
  /\ (forall f s n v, receiveData f s None n v = (Returned (false, None), v))
  /\ (forall f s b v, receiveData f s b 0 v = (Returned (false, b), v)).
Proof.
  split; [| split; [| split]].
  - rewrite receiveData_unfold by exact Hlen.
    pose proof (receive_loop_outcome fuel self len (charTimeoutOf self len) buf 0
                  (u32 (millis_at w (millis_calls w))) (snd (millis w))
                  (Nat.le_0_l len)) as P.
    destruct (receive_loop fuel self len (charTimeoutOf self len) buf 0
                (u32 (millis_at w (millis_calls w))) (snd (millis w)))
      as [[[[ex bytes] bytesRead] | |] w']; [| exact P | exact I].
    destruct P as (j & E1 & E2 & E3 & E4 & E5 & E6 & E7).
    simpl in E1. subst j.
    exists ex, bytes, bytesRead.
    assert (Er : (bytesRead =? len)%nat = true <-> bytesRead = len)
      by apply Nat.eqb_eq.
    destruct E4 as [P O].
    split; [reflexivity |]. split; [reflexivity |]. split; [exact E3 |].
    split; [exact E6 |]. split; [exact E2 |]. split; [exact Er |].
    split; [tauto |]. split; [| split; [| split; [exact P | exact O]]].
    + intros H. assert (bytesRead <> len) by tauto.
      split; [lia |]. destruct (Nat.eqb_spec bytesRead len); [tauto | reflexivity].
    + intros Hr Hb. apply Er in Hr. subst bytesRead. rewrite E3.
      change (reads (millis w).2 (read_calls (millis w).2) len)
        with (reads w (read_calls w) len).
      apply store_at_whole. rewrite reads_length. symmetry. exact Hb.
  - intros port polls step. apply receiveData_returns.
  - intros. apply receiveData_null.
  - intros. apply receiveData_zero.
Qed.

Lemma receiveData_complete_iff_witness :
  let self := mkHS321 true 1 (Some 1%nat) None 9600 4 5 3645 in
  3%nat <> 0%nat
  /\ steady 1 1 silent_ticking
  /\ (exists r w',
        receiveData 31 self (Some [0; 0; 0]) 3 silent_ticking = (Returned r, w')).
Proof.
  intros self.
  assert (H : 3%nat <> 0%nat) by discriminate.
  assert (T : steady 1 1 silent_ticking).
  { split; intros k; cbn [silent_ticking millis_at]; lia. }
  split; [exact H |]. split; [exact T |].
  destruct (receiveData_complete_iff 31 self [0; 0; 0] 3 silent_ticking H)
    as (_ & R & _).
  apply (R 1%nat 1%nat 1); [reflexivity | exact T | simpl; lia | simpl; lia |].
  change (_totalTimeout self) with 5. lia.
Defined.

(** A response that is waiting in the receive buffer is collected. *)
Example receiveData_served :
  let self := mkHS321 true 1 (Some 1%nat) None 9600 4 2000 3645 in
  fst (receiveData 1 self (Some [0; 0; 0]) 3 (serving [1; 2; 3]))
  = Returned (true, Some [1; 2; 3]).
Proof. reflexivity. Qed.

(** Two bytes of three, then silence until the clock has passed the
    inter-character timeout: the call fails with a partial buffer. *)
Example receiveData_partial :
  let self := mkHS321 true 1 (Some 1%nat) None 9600 4 2000 3645 in
  let w := mkWorld (fun k => Z.of_nat (20 * k))
                   (fun k => Z.of_nat (2 - k)) (fun k => at_index [1; 2] k)
                   0 0 0 (fun _ => LOW) [] in
  fst (receiveData 5 self (Some [0; 0; 0]) 3 w) = Returned (false, Some [1; 2; 0]).
Proof. reflexivity. Qed.

(** ** The transactions *)

Lemma with_crc_length (body : list Z) :
  length (Wire.with_crc body) = (length body + 2)%nat.
Proof. unfold Wire.with_crc. rewrite length_app. reflexivity. Qed.

Lemma quiet_after_read_send (fuel : nat) (self : HS321) (sa : Z)
    (values : list Z) (n : nat) :
  quiet ('(received, response) ←
           receiveData fuel self (Some (local_array (5 + n * 2))) (5 + n * 2);
         if negb received then mret (false, Some values)
         else
           let '(ok, values) :=
             checkReadResponse sa (default [] response) values n in
           mret (ok, Some values)).
Proof.
  apply quiet_bind; [apply quiet_receiveData |]. intros [received response].
  destruct (negb received); [apply quiet_ret |].
  destruct (checkReadResponse sa (default [] response) values n). apply quiet_ret.
Qed.

Lemma quiet_after_write_send (fuel : nat) (self : HS321) (sa f : Z) :
  quiet ('(received, response) ← receiveData fuel self (Some (local_array 8)) 8;
         if negb received then mret false
         else mret (validateModbusResponse (default [] response) 8 sa f)).
Proof.
  apply quiet_bind; [apply quiet_receiveData |]. intros [received response].
  destruct (negb received); apply quiet_ret.
Qed.

Lemma readParameters_accepts (fuel : nat) (self : HS321) (sa start : Z)
    (values : list Z) (n : nat) :
  (1 <= n <= 125)%nat ->
  readParameters fuel self sa start (Some values) n =
  (sendData self (readRequest sa start n) 8;;
   '(received, response) ←
     receiveData fuel self (Some (local_array (5 + n * 2))) (5 + n * 2);
   if negb received then mret (false, Some values)
   else
     let '(ok, values) :=
       checkReadResponse sa (default [] response) values n in
     mret (ok, Some values)).
Proof.
  intros Hn. unfold readParameters.
  destruct (Nat.eqb_spec n 0) as [? | _]; [lia |].
  destruct (Nat.ltb_spec 125 n) as [? | _]; [lia |].
  reflexivity.
Qed.

Lemma writeParameters_accepts (fuel : nat) (self : HS321) (sa start : Z)
    (values : list Z) (n : nat) :
  (1 <= n <= 123)%nat -> (writeRequestSize n <= MAX_REQUEST_SIZE)%nat ->
  writeParameters fuel self sa start (Some values) n =
  (sendData self (writeRequest sa start values n) (writeRequestSize n);;
   '(received, response) ← receiveData fuel self (Some (local_array 8)) 8;
   if negb received then mret false
   else mret (validateModbusResponse (default [] response) 8 sa
                (at_index (writeRequest sa start values n) 1))).
Proof.
  intros Hn Hs. unfold writeParameters.
  destruct (Nat.eqb_spec n 0) as [? | _]; [lia |].
  destruct (Nat.ltb_spec MAX_MODBUS_REGISTERS n) as [H | _];
    [unfold MAX_MODBUS_REGISTERS in H; lia |].
  destruct (Nat.ltb_spec MAX_REQUEST_SIZE (writeRequestSize n)) as [? | _]; [lia |].
  reflexivity.
Qed.

(** C3. For a count from 1 to 125 [readParameters] transmits exactly one
    frame, the eight bytes
    [addr][0x03][startHi][startLo][countHi][countLo][crcLo][crcHi], whose
    last two bytes are the CRC16 of the first six, low byte first.  With
    count 0, a count above 125 or a null array it returns [false] and the
    world is untouched. *)
Theorem readParameters_request (fuel : nat) (self : HS321) (port : nat)
    (sa start : Z) (values : list Z) (n : nat) (w : World)
    (Hport : _serialPort self = Some port)
    (Hsa : is_u8 sa) (Hstart : is_u16 start) (Hn : (1 <= n <= 125)%nat) :
  let frame := readRequest sa start n in
  frame = Wire.read_request sa start n
  /\ length frame = 8%nat
  /\ output (snd (readParameters fuel self sa start (Some values) n w))
     = output w ++ transmission self port frame
  /\ (forall f s a st arr v,
        readParameters f s a st arr 0 v = (Returned (false, arr), v))
  /\ (forall f s a st arr m v,
        (125 < m)%nat -> readParameters f s a st arr m v = (Returned (false, arr), v))
  /\ (forall f s a st m v,
        readParameters f s a st None m v = (Returned (false, None), v)).
Proof.
  assert (E : readRequest sa start n = Wire.read_request sa start n).
  { apply readRequest_frame; [exact Hsa | exact Hstart | unfold is_u16; lia]. }
  cbv zeta. split; [exact E |]. split; [rewrite E; reflexivity |].
  split; [| split; [| split]].
  - rewrite readParameters_accepts by exact Hn.
    destruct (send_then_quiet self port (readRequest sa start n) 8 _ w Hport
                (quiet_after_read_send fuel self sa values n)) as [O _].
    rewrite O. rewrite take_ge; [reflexivity |]. rewrite E. reflexivity.
  - intros f s a st [arr |] v; reflexivity.
  - intros f s a st [arr |] m v Hm; [| reflexivity]. unfold readParameters.
    destruct (Nat.eqb_spec m 0) as [? | _]; [lia |].
    destruct (Nat.ltb_spec 125 m) as [_ | ?]; [reflexivity | lia].
  - reflexivity.
Qed.

Lemma readParameters_request_witness :
  let self := mkHS321 true 1 (Some 1%nat) None 9600 4 2000 3645 in
  readRequest 1 0x3000 1 = [1; 3; 0x30; 0; 0; 1; 0x8B; 0x0A]
  /\ output (snd (readParameters 3 self 1 0x3000 (Some [0]) 1 quiet_world))
     = transmission self 1 [1; 3; 0x30; 0; 0; 1; 0x8B; 0x0A].
Proof.
  intros self.
  assert (Hsa : is_u8 1) by (unfold is_u8; lia).
  assert (Hst : is_u16 0x3000) by (unfold is_u16; lia).
  assert (Hn : (1 <= 1 <= 125)%nat) by lia.
  destruct (readParameters_request 3 self 1 1 0x3000 [0] 1 quiet_world
              eq_refl Hsa Hst Hn) as (E & _ & O & _).
  split; [reflexivity | exact O].
Defined.

(** C1 (the code's behaviour).  [writeParameters] returns [false] with the
    world untouched for count 0, for every count above 123, and also for
    count 123 itself: its request of 9 + 123 * 2 = 255 bytes exceeds
    [MAX_REQUEST_SIZE = 7 + 123 * 2 = 253].  For the counts from 1 to 122
    the request is transmitted. *)
Theorem writeParameters_count_guards (fuel : nat) (self : HS321)
    (sa start : Z) (arrayValues : option (list Z)) (w : World) :
  writeParameters fuel self sa start arrayValues 123 w = (Returned false, w)
  /\ writeParameters fuel self sa start arrayValues 0 w = (Returned false, w)
  /\ (forall n, (123 < n)%nat ->
        writeParameters fuel self sa start arrayValues n w = (Returned false, w))
  /\ (writeRequestSize 123 = 255 /\ MAX_REQUEST_SIZE = 253
      /\ writeRequestSize 122 = 253)%nat
  /\ (forall port values n,
        _serialPort self = Some port -> arrayValues = Some values ->
        (1 <= n <= 122)%nat ->
        output (snd (writeParameters fuel self sa start arrayValues n w))
        = output w ++ transmission self port
                        (take (writeRequestSize n)
                              (writeRequest sa start values n))).
Proof.
  split; [destruct arrayValues; reflexivity |].
  split; [destruct arrayValues; reflexivity |].
  split; [| split; [repeat split |]].
  - intros n Hn. destruct arrayValues as [values |]; [| reflexivity].
    unfold writeParameters.
    destruct (Nat.eqb_spec n 0) as [? | _]; [reflexivity |].
    destruct (Nat.ltb_spec MAX_MODBUS_REGISTERS n) as [_ | H];
      [reflexivity | unfold MAX_MODBUS_REGISTERS in H; lia].
  - intros port values n Hport -> Hn.
    rewrite writeParameters_accepts; [| lia |].
    + apply (send_then_quiet self port (writeRequest sa start values n)
               (writeRequestSize n) _ w Hport
               (quiet_after_write_send fuel self sa
                  (at_index (writeRequest sa start values n) 1))).
    + unfold writeRequestSize, MAX_REQUEST_SIZE, MAX_MODBUS_REGISTERS.
      destruct (n =? 1)%nat; lia.
Qed.

Lemma at_index_u16 (values : list Z) (i : nat) :
  Forall is_u16 values -> (i < length values)%nat -> is_u16 (at_index values i).
Proof.
  intros Hv Hi. destruct (lookup_lt_is_Some_2 values i Hi) as [v Ev].
  rewrite (at_index_lookup _ _ _ Ev).
  rewrite Forall_forall in Hv. apply Hv. apply list_elem_of_lookup. eauto.
Qed.

Lemma writeRequest_length (sa start : Z) (values : list Z) (n : nat) :
  is_u8 sa -> is_u16 start -> Forall is_u16 values ->
  (1 <= n <= 123)%nat -> (n <= length values)%nat ->
  length (writeRequest sa start values n) = writeRequestSize n.
Proof.
  intros Hsa Hst Hv Hn Hlen. destruct (Nat.eq_dec n 1%nat) as [-> | Hn1].
  - rewrite writeRequest_single; [reflexivity | exact Hsa | exact Hst |].
    apply at_index_u16; [exact Hv | lia].
  - rewrite writeRequest_multiple by (auto; lia).
    unfold Wire.write_multiple_request. rewrite with_crc_length, length_app.
    rewrite registers_length, length_take. unfold writeRequestSize.
    destruct (Nat.eqb_spec n 1) as [? | _]; [contradiction |]. simpl. lia.
Qed.

(** C7 (the code's behaviour).  For a write request with a non-null
    array on an object with a port, [writeParameters] transmits, for
    count 1, the eight bytes
    [addr][0x06][addrHi][addrLo][valHi][valLo][crcLo][crcHi] and, for a
    count from 2 to 122,
    [addr][0x10][startHi][startLo][countHi][countLo][byteCount][values...]
    [crcLo][crcHi] with [byteCount = count * 2] and every value big-endian;
    in both the CRC16 of the preceding bytes is appended low byte first,
    and the frame is the only output of the call.  For count 123, which
    passes the check of the count, no frame is produced: the call returns
    [false] with the world untouched, because the request of 255 bytes
    exceeds [MAX_REQUEST_SIZE = 253]. *)
Theorem writeParameters_request (fuel : nat) (self : HS321) (port : nat)
    (sa start : Z) (values : list Z) (n : nat) (w : World)
    (Hport : _serialPort self = Some port)
    (Hsa : is_u8 sa) (Hstart : is_u16 start)
    (Hvalues : Forall is_u16 values) (Hlen : (n <= length values)%nat)
    (Hn : (1 <= n <= 123)%nat) :
  let call := writeParameters fuel self sa start (Some values) n w in
  (n = 1%nat ->
   output (snd call)
   = output w ++ transmission self port
                   (Wire.write_single_request sa start (at_index values 0)))
  /\ ((1 < n <= 122)%nat ->
      output (snd call)
      = output w ++ transmission self port
                      (Wire.write_multiple_request sa start (take n values))
      /\ length (Wire.write_multiple_request sa start (take n values))
         = (9 + n * 2)%nat)
  /\ (n = 123%nat -> call = (Returned false, w)).
Proof.
  cbv zeta.
  assert (Sent : (n <= 122)%nat ->
            output (snd (writeParameters fuel self sa start (Some values) n w))
            = output w ++ transmission self port (writeRequest sa start values n)).
  { intros Hle.
    assert (Hsize : (writeRequestSize n <= MAX_REQUEST_SIZE)%nat).
    { unfold writeRequestSize, MAX_REQUEST_SIZE, MAX_MODBUS_REGISTERS.
      destruct (n =? 1)%nat; lia. }
    rewrite writeParameters_accepts by assumption.
    destruct (send_then_quiet self port (writeRequest sa start values n)
                (writeRequestSize n) _ w Hport
                (quiet_after_write_send fuel self sa
                   (at_index (writeRequest sa start values n) 1))) as [O _].
    rewrite O. rewrite take_ge; [reflexivity |].
    rewrite writeRequest_length by assumption. lia. }
  split; [| split].
  - intros E. rewrite Sent by lia. subst n.
    rewrite writeRequest_single; [reflexivity | exact Hsa | exact Hstart |].
    apply at_index_u16; [exact Hvalues | lia].
  - intros H. rewrite Sent by lia.
    assert (E : writeRequest sa start values n
                = Wire.write_multiple_request sa start (take n values))
      by (apply writeRequest_multiple; auto; lia).
    rewrite <- E. split; [reflexivity |].
    rewrite writeRequest_length by assumption. unfold writeRequestSize.
    destruct (Nat.eqb_spec n 1) as [? | _]; [lia | reflexivity].
  - intros ->. reflexivity.
Qed.

Lemma writeParameters_request_witness :
  let self := mkHS321 true 1 (Some 1%nat) None 9600 4 2000 3645 in
  output (snd (writeParameters 3 self 1 0x2000 (Some [5; 6; 0x1234]) 3 quiet_world))
  = transmission self 1
      [1; 0x10; 0x20; 0; 0; 3; 6; 0; 5; 0; 6; 0x12; 0x34; 0x6C; 0x36]
  /\ writeParameters 3 self 1 0x0000 (Some (replicate 123 0)) 123 quiet_world
     = (Returned false, quiet_world).
Proof.
  intros self.
  assert (Hsa : is_u8 1) by (unfold is_u8; lia).
  assert (Hst : is_u16 0x2000) by (unfold is_u16; lia).
  assert (Hz : is_u16 0) by (unfold is_u16; lia).
  assert (Hv : Forall is_u16 [5; 6; 0x1234]).
  { ranged. }
  assert (Hlen : (3 <= length [5; 6; 0x1234])%nat) by (simpl; lia).
  assert (Hn : (1 <= 3 <= 123)%nat) by lia.
  assert (Hv' : Forall is_u16 (replicate 123 0)).
  { apply Forall_replicate. exact Hz. }
  assert (Hlen' : (123 <= length (replicate 123 0))%nat)
    by (rewrite length_replicate; lia).
  assert (Hn' : (1 <= 123 <= 123)%nat) by lia.
  split.
  - destruct (writeParameters_request 3 self 1 1 0x2000 [5; 6; 0x1234] 3 quiet_world
                eq_refl Hsa Hst Hv Hlen Hn) as (_ & M & _).
    destruct M as [O _]; [lia |]. exact O.
  - destruct (writeParameters_request 3 self 1 1 0x0000 (replicate 123 0) 123
                quiet_world eq_refl Hsa Hz Hv' Hlen' Hn') as (_ & _ & F).
    exact (F eq_refl).
Defined.

Lemma begin_run (interCharOfBaud : Z -> Z) (self : HS321) (port : nat) (w : World) :
  _serialPort self = Some port ->
  exists self' w',
    begin interCharOfBaud self w = (Returned self', w')
    /\ _initialized self' = true
    /\ _serialPort self' = Some port
    /\ _transmitterModeContact self' = _transmitterModeContact self
    /\ _totalTimeout self' = 2000
    /\ pin_level w' (_transmitterModeContact self) = RS485Receive
    /\ In (EvPinMode (_transmitterModeContact self) OUTPUT) (output w')
    /\ no_input w w'.
Proof.
  intros Ep. unfold begin. rewrite Ep.
  cbn [_serialDebug set_initialized set_timeouts].
  destruct (_serialDebug self) as [dbg |] eqn:Ed;
    (eexists _, _; split; [reflexivity |]);
    cbn; rewrite Z.eqb_refl;
    (repeat split; try assumption; try reflexivity);
    rewrite !in_app_iff; simpl; tauto.
Qed.

(** C8. [sendData] drives the direction pin to transmit, writes and
    flushes, and then drives the pin back to receive, whatever the data;
    after the call the pin is in receive mode.  A successful [begin] also
    leaves the pin, configured as an output, in receive mode, and a read
    or write transaction started with the pin in receive mode ends with
    it in receive mode, whether or not an answer arrives. *)
Theorem sendData_restores_receive (self : HS321) (port : nat) (data : list Z)
    (len : nat) (w : World) (Hport : _serialPort self = Some port) :
  let pin := _transmitterModeContact self in
  (exists w',
     sendData self data len w = (Returned tt, w')
     /\ output w' = output w ++ [EvDigitalWrite pin RS485Transmit;
                                 EvWrite port (take len data);
                                 EvFlush port;
                                 EvDigitalWrite pin RS485Receive]
     /\ pin_level w' pin = RS485Receive)
  /\ (forall interCharOfBaud, exists self' w',
        begin interCharOfBaud self w = (Returned self', w')
        /\ In (EvPinMode pin OUTPUT) (output w')
        /\ pin_level w' pin = RS485Receive)
  /\ (forall fuel sa start arrayValues n,
        pin_level w pin = RS485Receive ->
        pin_level (snd (readParameters fuel self sa start arrayValues n w)) pin
          = RS485Receive
        /\ pin_level (snd (writeParameters fuel self sa start arrayValues n w)) pin
          = RS485Receive).
Proof.
  cbv zeta. split; [| split].
  - destruct (sendData_run self port data len w Hport) as (w' & E & _ & O & P).
    exists w'. auto.
  - intros icob.
    destruct (begin_run icob self port w Hport)
      as (self' & w' & E & _ & _ & _ & _ & P & I & _).
    exists self', w'. auto.
  - intros fuel sa start arrayValues n Hw. split.
    + destruct arrayValues as [values |]; [| exact Hw].
      destruct (Nat.eq_dec n 0%nat) as [-> | N0]; [exact Hw |].
      destruct (le_lt_dec n 125%nat) as [Hle | Hgt].
      * rewrite readParameters_accepts by lia.
        apply (send_then_quiet self port (readRequest sa start n) 8 _ w Hport
                 (quiet_after_read_send fuel self sa values n)).
      * unfold readParameters.
        destruct (Nat.eqb_spec n 0) as [? | _]; [exact Hw |].
        destruct (Nat.ltb_spec 125 n) as [_ | ?]; [exact Hw | lia].
    + destruct arrayValues as [values |]; [| exact Hw].
      unfold writeParameters.
      destruct (n =? 0)%nat; [exact Hw |].
      destruct (MAX_MODBUS_REGISTERS <? n)%nat; [exact Hw |].
      destruct (MAX_REQUEST_SIZE <? writeRequestSize n)%nat; [exact Hw |].
      apply (send_then_quiet self port (writeRequest sa start values n)
               (writeRequestSize n) _ w Hport
               (quiet_after_write_send fuel self sa
                  (at_index (writeRequest sa start values n) 1))).
Qed.

Lemma sendData_restores_receive_witness :
  let self := mkHS321 true 1 (Some 1%nat) None 9600 4 2000 3645 in
  exists w',
    sendData self [1; 2; 3] 3 quiet_world = (Returned tt, w')
    /\ output w' = [EvDigitalWrite 4 HIGH; EvWrite 1 [1; 2; 3]; EvFlush 1;
                    EvDigitalWrite 4 LOW]
    /\ pin_level w' 4 = LOW.
Proof.
  intros self.
  destruct (sendData_restores_receive self 1 [1; 2; 3] 3 quiet_world eq_refl)
    as [H _].
  exact H.
Defined.

(** ** Checking a response *)

Lemma at_index_u8 (bytes : list Z) (i : nat) :
  Forall is_u8 bytes -> (i < length bytes)%nat -> is_u8 (at_index bytes i).
Proof.
  intros Hv Hi. destruct (lookup_lt_is_Some_2 bytes i Hi) as [v Ev].
  rewrite (at_index_lookup _ _ _ Ev).
  rewrite Forall_forall in Hv. apply Hv. apply list_elem_of_lookup. eauto.
Qed.

Lemma crc16_u16 (body : list Z) :
  Forall is_u8 body -> is_u16 (Crc16Spec.crc16 body).
Proof.
  intros Hb.
  destruct (crc_bytes_fold body (length body) 0 0xFFFF Hb) as [E U];
    [lia | unfold is_u16; lia |].
  rewrite drop_0, firstn_all in E. unfold Crc16Spec.crc16. rewrite <- E. exact U.
Qed.

Lemma with_crc_bytes (body : list Z) :
  Forall is_u8 body -> Forall is_u8 (Wire.with_crc body).
Proof.
  intros Hb. unfold Wire.with_crc. apply Forall_app. split; [exact Hb |].
  pose proof (crc16_u16 body Hb) as U.
  destruct (hi_byte _ U) as [_ Hh]. destruct (lo_byte (Crc16Spec.crc16 body)) as [_ Hl].
  apply Forall_cons_2; [exact Hl |]. apply Forall_cons_2; [exact Hh | constructor].
Qed.

Lemma at_index_app_tail (body : list Z) (a b : Z) :
  at_index (body ++ [a; b]) (length body) = a
  /\ at_index (body ++ [a; b]) (S (length body)) = b.
Proof.
  unfold at_index. split.
  - rewrite lookup_app_r by lia. rewrite Nat.sub_diag. reflexivity.
  - rewrite lookup_app_r by lia.
    replace (S (length body) - length body)%nat with 1%nat by lia. reflexivity.
Qed.

(** The stored CRC of two received bytes, as both checks compute it. *)
Lemma stored_crc (hi lo : Z) :
  is_u8 hi -> is_u8 lo ->
  u16 (Z.lor (Z.shiftl hi 8) lo) = hi * 256 + lo
  /\ u16 (Z.lor (u16 (Z.shiftl hi 8)) lo) = hi * 256 + lo.
Proof.
  intros Hh Hl. destruct (be_word hi lo Hh Hl) as [E U].
  assert (S8 : u16 (Z.shiftl hi 8) = Z.shiftl hi 8).
  { apply u16_small. rewrite Z.shiftl_mul_pow2 by lia.
    unfold is_u8, is_u16 in *. lia. }
  rewrite S8, E. split; apply u16_small; exact U.
Qed.

(** C4. [validateModbusResponse] returns [true] exactly when the length
    is at least 4, the first byte is the expected address, the second byte
    is not the expected function with its high bit set and equals the
    expected function, and the CRC16 of all bytes but the last two equals
    the CRC stored low byte first in the last two.  The function is
    private and its only call, in [writeParameters], passes the constant
    size 8; the equivalence is proved for every size up to 257, that is
    for every response whose length minus two fits the [uint8_t] length of
    [calculateCRC], which covers every Modbus RTU frame. *)
Theorem validateModbusResponse_iff (response : list Z) (size : nat)
    (expectedAddress expectedFunction : Z)
    (Hbytes : Forall is_u8 response)
    (Hsize : (size <= length response)%nat) (Hshort : (size <= 257)%nat) :
  validateModbusResponse response size expectedAddress expectedFunction = true
  <-> Wire.accepts response size expectedAddress expectedFunction.
Proof.
  unfold validateModbusResponse, Wire.accepts.
  destruct (Nat.ltb_spec size 4) as [H4 | H4]; [split; [discriminate | lia] |].
  destruct (Z.eqb_spec (at_index response 0) expectedAddress) as [Ea | Ea];
    cbn [negb]; [| split; [discriminate | tauto]].
  destruct (Z.eqb_spec (at_index response 1) (Z.lor expectedFunction 128)) as [Ex | Ex];
    [split; [discriminate | tauto] |].
  destruct (Z.eqb_spec (at_index response 1) expectedFunction) as [Ef | Ef];
    cbn [negb]; [| split; [discriminate | tauto]].
  destruct (calculateCRC_prefix response (size - 2) Hbytes) as [Ec Uc]; [lia | lia |].
  rewrite (u16_small _ Uc), Ec.
  destruct (stored_crc (at_index response (size - 1)) (at_index response (size - 2)))
    as [_ Es]; [apply at_index_u8; [exact Hbytes | lia] .. |].
  rewrite Es.
  destruct (Z.eqb_spec (Crc16Spec.crc16 (take (size - 2) response))
              (at_index response (size - 1) * 256 + at_index response (size - 2)))
    as [E | E]; cbn [negb].
  - split; [| reflexivity]. intros _. repeat split; auto. lia.
  - split; [discriminate |]. intros (_ & _ & _ & _ & C). lia.
Qed.

Lemma validateModbusResponse_iff_witness :
  let ack := [1; 6; 0x20; 0; 0; 5; 0x42; 0x09] in
  validateModbusResponse ack 8 1 6 = true /\ Wire.accepts ack 8 1 6.
Proof.
  intros ack.
  assert (Hb : Forall is_u8 ack).
  { ranged. }
  assert (Hs : (8 <= length ack)%nat) by (simpl; lia).
  assert (Hl : (8 <= 257)%nat) by lia.
  split; [reflexivity |].
  apply (validateModbusResponse_iff ack 8 1 6 Hb Hs Hl). reflexivity.
Defined.

(** Beyond that range, which no call in the program reaches, the length
    passed to [calculateCRC] wraps: for a size of 258 it is 256, which is 0
    as a [uint8_t], so the computed CRC is the sentinel 0xFFFF whatever the
    bytes are. *)
Remark validateModbusResponse_size_258 :
  let response := [1; 3] ++ replicate 254 0 ++ [0xFF; 0xFF] in
  ~ (validateModbusResponse response 258 1 3 = true
     <-> Wire.accepts response 258 1 3).
Proof.
  intros response [H _].
  assert (V : validateModbusResponse response 258 1 3 = true) by (vm_compute; reflexivity).
  destruct (H V) as (_ & _ & _ & _ & C).
  vm_compute in C. discriminate C.
Qed.

(** ** Decoding a read response *)

Lemma registers_lookup (values : list Z) (j : nat) (v : Z) :
  values !! j = Some v ->
  Wire.registers values !! (j * 2)%nat = Some (Wire.hi v)
  /\ Wire.registers values !! (j * 2 + 1)%nat = Some (Wire.lo v).
Proof.
  revert j. induction values as [| x l IH]; intros j E; [discriminate |].
  destruct j as [| j]; simpl in E.
  - injection E as ->. split; reflexivity.
  - apply IH in E. exact E.
Qed.

Lemma be16_registers (hdr tail values : list Z) (j : nat) (v : Z) :
  length hdr = 3%nat -> Forall is_u16 values -> values !! j = Some v ->
  be16 (hdr ++ Wire.registers values ++ tail) (3 + j * 2) = v.
Proof.
  intros Hh Hv E.
  assert (Uv : is_u16 v).
  { rewrite Forall_forall in Hv. apply Hv. apply list_elem_of_lookup. eauto. }
  destruct (registers_lookup values j v E) as [E1 E2].
  unfold be16, at_index.
  rewrite (lookup_app_r hdr _ (3 + j * 2)), (lookup_app_r hdr _ (3 + j * 2 + 1)) by lia.
  replace (3 + j * 2 - length hdr)%nat with (j * 2)%nat by lia.
  replace (3 + j * 2 + 1 - length hdr)%nat with (j * 2 + 1)%nat by lia.
  rewrite (lookup_app_l_Some _ _ _ _ E1), (lookup_app_l_Some _ _ _ _ E2).
  cbn [default from_option id].
  destruct (hi_byte v Uv) as [_ Hhi]. destruct (lo_byte v) as [_ Hlo].
  rewrite (u16_small (Wire.hi v)) by (apply is_u8_u16; exact Hhi).
  destruct (stored_crc (Wire.hi v) (Wire.lo v) Hhi Hlo) as [-> _].
  apply split_word.
Qed.

Lemma store_registers_app (response decoded : list Z) (k i : nat) (front rest : list Z) :
  (forall j v, decoded !! j = Some v -> be16 response (3 + j * 2) = v) ->
  length front = i -> (k <= length rest)%nat -> (i + k <= length decoded)%nat ->
  store_registers response i k (front ++ rest)
  = front ++ take k (drop i decoded) ++ drop k rest.
Proof.
  intros Hd. revert i front rest.
  induction k as [| k IH]; intros i front rest Hf Hr Hi; [reflexivity |].
  destruct (lookup_lt_is_Some_2 decoded i) as [v Ev]; [lia |].
  destruct rest as [| a rest]; simpl in Hr; [lia |].
  cbn [store_registers]. rewrite (Hd i v Ev).
  rewrite (insert_app_r_alt front _ i) by lia.
  replace (i - length front)%nat with 0%nat by lia. cbn [insert list_insert].
  change (front ++ v :: rest) with (front ++ [v] ++ rest).
  rewrite app_assoc, IH; [| rewrite length_app; simpl; lia | lia | lia].
  rewrite (drop_S _ _ _ Ev). cbn [take firstn drop skipn].
  rewrite <- app_assoc. reflexivity.
Qed.

Lemma checkReadResponse_decodes (sa : Z) (decoded values : list Z) (n : nat) :
  is_u8 sa -> (1 <= n <= 125)%nat -> Forall is_u16 decoded ->
  length decoded = n -> (n <= length values)%nat ->
  checkReadResponse sa (Wire.read_response sa decoded) values n
  = (true, decoded ++ drop n values).
Proof.
  intros Hsa Hn Hd Hc Hroom.
  set (body := [sa; 3; Z.of_nat (length decoded) * 2] ++ Wire.registers decoded).
  assert (Lb : length body = (3 + n * 2)%nat).
  { unfold body. rewrite length_app, registers_length. simpl. lia. }
  assert (Bb : Forall is_u8 body).
  { unfold body. apply Forall_app. split; [| apply registers_bytes; exact Hd].
    apply Forall_cons_2; [exact Hsa |].
    repeat (apply Forall_cons_2; [unfold is_u8; lia |]). constructor. }
  pose proof (crc16_u16 body Bb) as Uc.
  destruct (hi_byte _ Uc) as [_ Hhi]. destruct (lo_byte (Crc16Spec.crc16 body)) as [_ Hlo].
  assert (Er : Wire.read_response sa decoded
               = body ++ [Wire.lo (Crc16Spec.crc16 body); Wire.hi (Crc16Spec.crc16 body)])
    by reflexivity.
  destruct (at_index_app_tail body (Wire.lo (Crc16Spec.crc16 body))
              (Wire.hi (Crc16Spec.crc16 body))) as [T1 T2].
  unfold checkReadResponse.
  replace (5 + n * 2 - 1)%nat with (S (length body)) by lia.
  replace (5 + n * 2 - 2)%nat with (length body) by lia.
  rewrite Er, T1, T2.
  change (at_index (body ++ _) 0) with sa.
  change (at_index (body ++ _) 1) with READ.
  change (at_index (body ++ _) 2) with (Z.of_nat (length decoded) * 2).
  rewrite !Z.eqb_refl. cbn [negb orb].
  replace (Z.of_nat (n * 2)) with (Z.of_nat (length decoded) * 2) by lia.
  rewrite Z.eqb_refl. cbn [negb].
  destruct (stored_crc (Wire.hi (Crc16Spec.crc16 body))
              (Wire.lo (Crc16Spec.crc16 body)) Hhi Hlo) as [-> _].
  unfold Wire.hi at 1, Wire.lo at 1. rewrite split_word.
  destruct (calculateCRC_prefix (body ++ [Wire.lo (Crc16Spec.crc16 body);
                                           Wire.hi (Crc16Spec.crc16 body)])
              (length body)) as [Ec _].
  { rewrite <- Er. apply with_crc_bytes. exact Bb. }
  { lia. }
  { rewrite length_app. lia. }
  rewrite take_app_length in Ec. rewrite Ec, (u16_small _ Uc), Z.eqb_refl.
  cbn [negb].
  assert (Es : store_registers (Wire.read_response sa decoded) 0 n values
               = decoded ++ drop n values).
  { rewrite <- (take_drop n values) at 1.
    change (take n values ++ drop n values) with ([] ++ (take n values ++ drop n values)).
    rewrite (store_registers_app _ decoded n 0 []); [| | reflexivity | | lia].
    - rewrite drop_0, take_ge by lia. cbn [app].
      rewrite drop_app_length' by (rewrite length_take; lia). reflexivity.
    - intros j v Ej.
      apply (be16_registers [sa; 3; Z.of_nat (length decoded) * 2]); auto.
    - rewrite length_app, length_take. lia. }
  rewrite <- Er.
  destruct (Nat.eqb_spec n 1) as [-> | _]; [| rewrite Es; reflexivity].
  rewrite <- Es. reflexivity.
Qed.

(** C6. Let the next [5 + n * 2] bytes that the port hands out after a
    read request for [n] registers (1 to 125) be the well-formed response
    carrying the values [decoded]: the slave address, function 0x03, byte
    count [n * 2], the values big-endian from offset 3, the CRC16 low byte
    first.  If [receiveData] collects them in time, [readParameters]
    returns [true] and the first [n] cells of the caller's array hold
    exactly [decoded], in order; the cells behind them are unchanged. *)
Theorem readParameters_round_trip (fuel : nat) (self : HS321) (port : nat)
    (sa start : Z) (values decoded : list Z) (n : nat) (w w' : World)
    (response : option (list Z))
    (Hport : _serialPort self = Some port)
    (Hsa : is_u8 sa) (Hn : (1 <= n <= 125)%nat)
    (Hdecoded : Forall is_u16 decoded) (Hcount : length decoded = n)
    (Hroom : (n <= length values)%nat)
    (Hline : reads w (read_calls w) (5 + n * 2) = Wire.read_response sa decoded)
    (Hreceived :
       receiveData fuel self (Some (local_array (5 + n * 2))) (5 + n * 2)
         (snd (sendData self (readRequest sa start n) 8 w))
       = (Returned (true, response), w')) :
  readParameters fuel self sa start (Some values) n w
  = (Returned (true, Some (decoded ++ drop n values)), w')
  /\ take n (decoded ++ drop n values) = decoded.
Proof.
  split; [| rewrite take_app_length'; [reflexivity | symmetry; exact Hcount]].
  rewrite readParameters_accepts by exact Hn.
  destruct (sendData_run self port (readRequest sa start n) 8 w Hport)
    as (w1 & E & ((_ & _ & Er) & _ & _ & Ec) & _).
  rewrite E in Hreceived. cbn [snd] in Hreceived.
  assert (Eb : response = Some (Wire.read_response sa decoded)).
  { rewrite <- Hline, <- Ec, <- (reads_oracle w w1 _ _ Er).
    apply (receiveData_true_bytes fuel self (local_array (5 + n * 2))
             (5 + n * 2) w1 w'); [lia | apply length_replicate |].
    exact Hreceived. }
  subst response.
  unfold mbind, IO_bind. rewrite E, Hreceived. cbn [negb default from_option id].
  rewrite checkReadResponse_decodes by assumption. reflexivity.
Qed.

Lemma readParameters_round_trip_witness :
  let self := mkHS321 true 1 (Some 1%nat) None 9600 4 2000 3645 in
  fst (readParameters 1 self 1 0x1000 (Some [0; 0; 0]) 3
         (serving (Wire.read_response 1 [100; 200; 300])))
  = Returned (true, Some [100; 200; 300]).
Proof.
  intros self.
  set (w := serving (Wire.read_response 1 [100; 200; 300])).
  set (w1 := snd (sendData self (readRequest 1 0x1000 3) 8 w)).
  set (run := receiveData 1 self (Some (local_array (5 + 3 * 2))) (5 + 3 * 2) w1).
  assert (Hsa : is_u8 1) by (unfold is_u8; lia).
  assert (Hn : (1 <= 3 <= 125)%nat) by lia.
  assert (Hd : Forall is_u16 [100; 200; 300]).
  { ranged. }
  assert (Hr : (3 <= length [0; 0; 0])%nat) by (simpl; lia).
  assert (Hline : reads w (read_calls w) (5 + 3 * 2)
                  = Wire.read_response 1 [100; 200; 300]) by reflexivity.
  assert (Hrecv :
    run = (Returned (true, Some (Wire.read_response 1 [100; 200; 300])), snd run)).
  { rewrite (surjective_pairing run) at 1. f_equal. }
  destruct (readParameters_round_trip 1 self 1 1 0x1000 [0; 0; 0] [100; 200; 300] 3
              w (snd run) _ eq_refl Hsa Hn Hd eq_refl Hr Hline Hrecv) as [E _].
  rewrite E. reflexivity.
Defined.

Lemma checkReadResponse_failure (sa : Z) (response values : list Z) (n : nat) :
  fst (checkReadResponse sa response values n) = false ->
  snd (checkReadResponse sa response values n) = values.
Proof.
  unfold checkReadResponse.
  repeat match goal with
         | |- context [if ?c then _ else _] => destruct c
         end; simpl; intros H; solve [reflexivity | discriminate H].
Qed.

Lemma checkReadResponse_success (sa : Z) (response values : list Z) (n : nat) :
  fst (checkReadResponse sa response values n) = true ->
  at_index response 0 = sa
  /\ at_index response 1 = READ
  /\ at_index response 2 = Z.of_nat (n * 2)
  /\ u16 (Z.lor (Z.shiftl (at_index response (5 + n * 2 - 1)) 8)
                (at_index response (5 + n * 2 - 2)))
     = u16 (calculateCRC (Some response) (5 + n * 2 - 2)).
Proof.
  unfold checkReadResponse.
  destruct (Z.eqb_spec (at_index response 0) sa) as [E0 | ?];
    [| intros H; discriminate H].
  destruct (Z.eqb_spec (at_index response 1) READ) as [E1 | ?];
    [| intros H; discriminate H].
  cbn [negb orb].
  destruct (Z.eqb_spec (at_index response 2) (Z.of_nat (n * 2))) as [E2 | ?];
    [| intros H; discriminate H].
  cbn [negb].
  match goal with |- context [?a =? ?b] => destruct (Z.eqb_spec a b) as [E3 | ?] end;
    [| intros H; discriminate H].
  intros _. auto.
Qed.

(** C10. A call of [readParameters] that returns [false] leaves the
    caller's array exactly as it was: the array is stored to only after
    the address, the function code, the byte count and the CRC of a
    completely received response have all been accepted. *)
Theorem readParameters_failure_keeps_array (fuel : nat) (self : HS321)
    (sa start : Z) (arrayValues arrayValues' : option (list Z)) (n : nat)
    (w w' : World)
    (Hfalse : readParameters fuel self sa start arrayValues n w
              = (Returned (false, arrayValues'), w')) :
  arrayValues' = arrayValues
  /\ (forall response values,
        fst (checkReadResponse sa response values n) = false ->
        snd (checkReadResponse sa response values n) = values)
  /\ (forall response values,
        fst (checkReadResponse sa response values n) = true ->
        at_index response 0 = sa
        /\ at_index response 1 = READ
        /\ at_index response 2 = Z.of_nat (n * 2)
        /\ u16 (Z.lor (Z.shiftl (at_index response (5 + n * 2 - 1)) 8)
                      (at_index response (5 + n * 2 - 2)))
           = u16 (calculateCRC (Some response) (5 + n * 2 - 2))).
Proof.
  split; [| split; intros response values;
             [apply checkReadResponse_failure | apply checkReadResponse_success]].
  revert Hfalse. unfold readParameters.
  destruct arrayValues as [values |]; [| intros H; injection H; auto].
  destruct (n =? 0)%nat; [intros H; injection H; auto |].
  destruct (125 <? n)%nat; [intros H; injection H; auto |].
  unfold mbind, IO_bind.
  destruct (sendData self (readRequest sa start n) 8 w) as [[[] | |] w1];
    try discriminate.
  destruct (receiveData fuel self (Some (local_array (5 + n * 2))) (5 + n * 2) w1)
    as [[[received response] | |] w2]; try discriminate.
  destruct received; cbn [negb]; [| intros H; injection H; auto].
  pose proof (checkReadResponse_failure sa (default [] response) values n) as F.
  destruct (checkReadResponse sa (default [] response) values n) as [ok values'].
  intros H. injection H as -> <- _. cbn [fst snd] in F. rewrite F; reflexivity.
Qed.

Lemma readParameters_failure_keeps_array_witness :
  let self := mkHS321 true 1 (Some 1%nat) None 9600 4 2000 3645 in
  let corrupted := [1; 3; 2; 0; 100; 0; 0] in
  exists arrayValues' w',
    readParameters 1 self 1 0x3000 (Some [7]) 1 (serving corrupted)
    = (Returned (false, arrayValues'), w')
    /\ arrayValues' = Some [7].
Proof.
  intros self corrupted.
  set (run := readParameters 1 self 1 0x3000 (Some [7]) 1 (serving corrupted)).
  set (arrayValues' := match fst run with Returned (_, a) => a | _ => None end).
  assert (H : run = (Returned (false, arrayValues'), snd run)).
  { rewrite (surjective_pairing run) at 1. f_equal. }
  exists arrayValues', (snd run). split; [exact H |].
  apply (readParameters_failure_keeps_array 1 self 1 0x3000 (Some [7]) arrayValues' 1
           (serving corrupted) (snd run) H).
Defined.

(** ** The initialisation flag *)

(** C9. On an object on which [begin] was never called, and on one for
    which [begin] failed because the serial port pointer is null, every
    public operation returns [false] and does no input or output: the
    world after the call is the world before it. *)
Theorem uninitialized_refuses (interCharOfBaud : Z -> Z) (sa : Z)
    (port dbg : option nat) (baud pin : Z) (w0 : World) (self : HS321)
    (Hself : self = newHS321 sa port dbg baud pin
             \/ exists w1, begin interCharOfBaud (newHS321 sa None dbg baud pin) w0
                           = (Returned self, w1)) :
  isInitialized self = false
  /\ forall (fuel : nat) (w : World) (ptr : option (list Z))
            (group : GroupsParameter) (numberGroup value : Z) (count : nat)
            (command : ControlCommand),
       readFaultDescription fuel self ptr w = (Returned (false, ptr), w)
       /\ readRunningState fuel self ptr w = (Returned (false, ptr), w)
       /\ writeControlCommand fuel self command w = (Returned false, w)
       /\ readSingleGroupParameter fuel self group numberGroup ptr w
          = (Returned (false, ptr), w)
       /\ readParametersInGroups fuel self group numberGroup ptr count w
          = (Returned (false, ptr), w)
       /\ writeSingleGroupParameter fuel self group numberGroup value w
          = (Returned false, w)
       /\ writeParametersInGroups fuel self group numberGroup ptr count w
          = (Returned false, w)
       /\ checkCommunicationSettings fuel self w = (Returned false, w).
Proof.
  assert (Hi : _initialized self = false).
  { destruct Hself as [-> | [w1 H]]; [reflexivity |].
    unfold begin in H. cbn [_serialPort newHS321 _serialDebug] in H.
    destruct dbg; injection H as <- _; reflexivity. }
  split; [exact Hi |]. intros fuel w ptr group numberGroup value count command.
  unfold readFaultDescription, readRunningState, writeControlCommand,
    readSingleGroupParameter, readParametersInGroups, writeSingleGroupParameter,
    writeParametersInGroups, checkCommunicationSettings, isInitialized.
  rewrite Hi. cbn [negb orb]. repeat split.
Qed.

Lemma uninitialized_refuses_witness :
  let never := newHS321 1 (Some 1%nat) None 9600 4 in
  let failed := set_initialized (newHS321 1 None (Some 0%nat) 9600 4) false in
  readFaultDescription 5 never (Some [0]) quiet_world
    = (Returned (false, Some [0]), quiet_world)
  /\ writeControlCommand 5 failed FORWARD_RUN_COMMAND quiet_world
    = (Returned false, quiet_world).
Proof.
  intros never failed. split.
  - destruct (uninitialized_refuses (fun b => 35000000 / b) 1 (Some 1%nat) None 9600 4
                quiet_world never (or_introl eq_refl)) as [_ H].
    apply (H 5%nat quiet_world (Some [0]) GROUP_F0 0 0 0%nat FORWARD_RUN_COMMAND).
  - assert (B : exists w1, begin (fun b => 35000000 / b)
                             (newHS321 1 None (Some 0%nat) 9600 4) quiet_world
                           = (Returned failed, w1)) by (eexists; reflexivity).
    destruct (uninitialized_refuses (fun b => 35000000 / b) 1 None (Some 0%nat) 9600 4
                quiet_world failed (or_intror B)) as [_ H].
    apply (H 5%nat quiet_world None GROUP_F0 0 0 0%nat FORWARD_RUN_COMMAND).
Defined.

(** ** Scenarios of the specification, run on the model *)

(** A slave at address 1 answers the read of register 0x3000 with
    [01 03 02 00 64 crcLo crcHi]: the value 100 is stored. *)
Example scenario_single_register_read :
  let self := mkHS321 true 1 (Some 1%nat) None 9600 4 2000 3645 in
  fst (readRunningState 1 self (Some [0]) (serving (Wire.read_response 1 [100])))
  = Returned (true, Some [100]).
Proof. reflexivity. Qed.

(** The slave echoes the eight bytes of a single-register write. *)
Example scenario_write_then_ack :
  let self := mkHS321 true 1 (Some 1%nat) None 9600 4 2000 3645 in
  fst (writeSingleParameter 1 self 0x2000 5
         (serving (Wire.write_single_request 1 0x2000 5)))
  = Returned true.
Proof. reflexivity. Qed.

(** The slave sends nothing: the read fails once the clock has passed the
    inter-character timeout, and the caller's variable keeps its value. *)
Example scenario_device_silent :
  let self := mkHS321 true 1 (Some 1%nat) None 9600 4 2000 3645 in
  fst (readRunningState 20 self (Some [7]) silent_ticking)
  = Returned (false, Some [7]).
Proof. reflexivity. Qed.

(** * Further properties

    Properties of the same functions that follow from the code: register
    addresses, the strength of the response validator and of the CRC, the
    outcome of [begin], the frames of the public operations, and what a
    transaction asks of the serial port and of the clock. *)

(** ** Register addresses *)

Lemma group_value_u8 (g : GroupsParameter) : is_u8 (group_value g).
Proof. unfold is_u8. destruct g; simpl; lia. Qed.

Lemma group_value_inj (g1 g2 : GroupsParameter) :
  group_value g1 = group_value g2 -> g1 = g2.
Proof. destruct g1, g2; simpl; intros H; try reflexivity; discriminate H. Qed.

(** The address of a parameter with a sub-address of one byte. *)
Lemma buildParameterAddress_value (g : GroupsParameter) (s : Z) :
  is_u8 s ->
  buildParameterAddress g s = group_value g * 256 + s
  /\ is_u16 (group_value g * 256 + s).
Proof.
  intros Hs. unfold buildParameterAddress.
  pose proof (group_value_u8 g) as Hg.
  rewrite (u16_small (group_value g)) by (apply is_u8_u16; exact Hg).
  destruct (stored_crc (group_value g) s Hg Hs) as [-> _].
  split; [reflexivity |]. apply be_word; assumption.
Qed.

(** X1. [buildParameterAddress] puts the number of the group into the high
    byte of the register address and the sub-address into the low byte:
    for a sub-address of one byte the address is [group * 256 + sub], it
    fits 16 bits, its two bytes give back the group and the sub-address,
    and two pairs of group and sub-address with the same address are the
    same pair. *)
Theorem buildParameterAddress_split (g1 g2 : GroupsParameter) (s1 s2 : Z)
    (Hs1 : is_u8 s1) (Hs2 : is_u8 s2) :
  buildParameterAddress g1 s1 = group_value g1 * 256 + s1
  /\ is_u16 (buildParameterAddress g1 s1)
  /\ Wire.hi (buildParameterAddress g1 s1) = group_value g1
  /\ Wire.lo (buildParameterAddress g1 s1) = s1
  /\ (buildParameterAddress g1 s1 = buildParameterAddress g2 s2 ->
      g1 = g2 /\ s1 = s2).
Proof.
  destruct (buildParameterAddress_value g1 s1 Hs1) as [E1 U1].
  destruct (buildParameterAddress_value g2 s2 Hs2) as [E2 _].
  pose proof (group_value_u8 g1) as Hg1. pose proof (group_value_u8 g2) as Hg2.
  unfold is_u8 in *.
  rewrite E1. split; [reflexivity |]. split; [exact U1 |].
  unfold Wire.hi, Wire.lo.
  split; [| split].
  - rewrite Z.div_add_l by lia. rewrite Z.div_small by lia. lia.
  - rewrite Z.add_comm, Z.mod_add by lia. apply Z.mod_small. lia.
  - rewrite E2. intros H.
    assert (group_value g1 = group_value g2) by lia.
    split; [apply group_value_inj; assumption | lia].
Qed.

Lemma buildParameterAddress_split_witness :
  buildParameterAddress GROUP_d 0 = 0x7000
  /\ buildParameterAddress GROUP_FC 5 = 0x0C05.
Proof.
  assert (H0 : is_u8 0) by (unfold is_u8; lia).
  assert (H5 : is_u8 5) by (unfold is_u8; lia).
  destruct (buildParameterAddress_split GROUP_d GROUP_FC 0 5 H0 H5) as (E1 & _).
  destruct (buildParameterAddress_split GROUP_FC GROUP_d 5 0 H5 H0) as (E2 & _).
  rewrite E1, E2. split; reflexivity.
Defined.

(** ** What the validator refuses and what it accepts *)

(** Setting bit 7 of a value that has it set changes nothing. *)
Lemma lor_high_bit (f : Z) : 0 <= f -> Z.testbit f 7 = true -> Z.lor f 0x80 = f.
Proof.
  intros Hf Hb. apply Z.bits_inj'. intros k Hk. rewrite Z.lor_spec.
  destruct (Z.eq_dec k 7) as [-> | Hne].
  - rewrite Hb. reflexivity.
  - change 0x80 with (2 ^ 7). rewrite Z.pow2_bits_false by lia. apply orb_false_r.
Qed.

(** X2. [validateModbusResponse] returns [false] for every response whose
    function byte is the expected function with bit 7 set, the marker of a
    Modbus exception, whatever the rest of the response and its CRC.  As a
    consequence an expected function that has bit 7 set itself is never
    accepted: the byte that would match it is taken for the exception
    marker. *)
Theorem validateModbusResponse_exception (response : list Z) (size : nat)
    (expectedAddress expectedFunction : Z) :
  (at_index response 1 = Z.lor expectedFunction 0x80 ->
   validateModbusResponse response size expectedAddress expectedFunction = false)
  /\ (0 <= expectedFunction -> Z.testbit expectedFunction 7 = true ->
      validateModbusResponse response size expectedAddress expectedFunction = false).
Proof.
  assert (A : at_index response 1 = Z.lor expectedFunction 0x80 ->
              validateModbusResponse response size expectedAddress expectedFunction
              = false).
  { intros E. unfold validateModbusResponse. rewrite E, Z.eqb_refl.
    destruct (size <? 4)%nat; [reflexivity |].
    destruct (negb (at_index response 0 =? expectedAddress)); reflexivity. }
  split; [exact A |]. intros Hf Hb.
  destruct (Z.eq_dec (at_index response 1) expectedFunction) as [E | E].
  - apply A. rewrite lor_high_bit by assumption. exact E.
  - unfold validateModbusResponse.
    destruct (size <? 4)%nat; [reflexivity |].
    destruct (negb (at_index response 0 =? expectedAddress)); [reflexivity |].
    destruct (at_index response 1 =? Z.lor expectedFunction 128); [reflexivity |].
    destruct (Z.eqb_spec (at_index response 1) expectedFunction); [contradiction |].
    reflexivity.
Qed.

Lemma validateModbusResponse_exception_witness :
  validateModbusResponse [1; 0x83; 2; 0xC0; 0xF1] 5 1 3 = false
  /\ validateModbusResponse [1; 0x83; 2; 0xC0; 0xF1] 5 1 0x83 = false.
Proof.
  destruct (validateModbusResponse_exception [1; 0x83; 2; 0xC0; 0xF1] 5 1 3) as [A _].
  destruct (validateModbusResponse_exception [1; 0x83; 2; 0xC0; 0xF1] 5 1 0x83) as [_ B].
  split; [apply A; reflexivity | apply B; [lia | reflexivity]].
Defined.

(** Reading a byte array at any index, also behind its end in the model,
    gives a byte. *)
Lemma at_index_byte (bytes : list Z) (i : nat) :
  Forall is_u8 bytes -> is_u8 (at_index bytes i).
Proof.
  intros Hb. destruct (le_lt_dec (length bytes) i) as [Hge | Hlt].
  - unfold at_index. rewrite lookup_ge_None_2 by lia. unfold is_u8. simpl. lia.
  - apply at_index_u8; assumption.
Qed.

Lemma at_index_insert (l : list Z) (i j : nat) (x : Z) :
  (i < length l)%nat ->
  at_index (<[i := x]> l) j = if decide (i = j) then x else at_index l j.
Proof.
  intros Hi. unfold at_index. destruct (decide (i = j)) as [-> | Hne].
  - rewrite list_lookup_insert_eq by exact Hi. reflexivity.
  - rewrite list_lookup_insert_ne by exact Hne. reflexivity.
Qed.

Lemma at_index_insert_ne (l : list Z) (i j : nat) (x : Z) :
  i <> j -> at_index (<[i := x]> l) j = at_index l j.
Proof.
  intros H. unfold at_index. rewrite list_lookup_insert_ne by exact H.
  reflexivity.
Qed.

(** The acceptance condition of the validator for a response of at most
    257 bytes, in the form the proofs below use. *)
Lemma validateModbusResponse_true (response : list Z) (size : nat) (ea ef : Z) :
  Forall is_u8 response -> (size <= length response)%nat -> (size <= 257)%nat ->
  validateModbusResponse response size ea ef = true <->
  (4 <= size)%nat
  /\ at_index response 0 = ea
  /\ at_index response 1 <> Z.lor ef 0x80
  /\ at_index response 1 = ef
  /\ Crc16Spec.crc16 (take (size - 2) response)
     = at_index response (size - 1) * 256 + at_index response (size - 2).
Proof.
  intros Hbytes Hsize Hshort. unfold validateModbusResponse.
  destruct (Nat.ltb_spec size 4) as [H4 | H4]; [split; [discriminate | lia] |].
  destruct (Z.eqb_spec (at_index response 0) ea) as [Ea | Ea];
    cbn [negb]; [| split; [discriminate | tauto]].
  destruct (Z.eqb_spec (at_index response 1) (Z.lor ef 128)) as [Ex | Ex];
    [split; [discriminate | tauto] |].
  destruct (Z.eqb_spec (at_index response 1) ef) as [Ef | Ef];
    cbn [negb]; [| split; [discriminate | tauto]].
  destruct (calculateCRC_prefix response (size - 2) Hbytes) as [Ec Uc]; [lia | lia |].
  rewrite (u16_small _ Uc), Ec.
  destruct (stored_crc (at_index response (size - 1)) (at_index response (size - 2)))
    as [_ Es]; [apply at_index_byte; exact Hbytes .. |].
  rewrite Es.
  match goal with |- context [?a =? ?b] => destruct (Z.eqb_spec a b) as [E | E] end;
    cbn [negb]; [tauto | split; [discriminate | tauto]].
Qed.

(** A body followed by its CRC is accepted for the address and the
    function it starts with. *)
Lemma with_crc_accepted (body : list Z) :
  Forall is_u8 body -> (2 <= length body <= 255)%nat ->
  Z.testbit (at_index body 1) 7 = false ->
  validateModbusResponse (Wire.with_crc body) (length body + 2)
    (at_index body 0) (at_index body 1) = true.
Proof.
  intros Hbytes Hlen Hfn.
  apply validateModbusResponse_true.
  - apply with_crc_bytes. exact Hbytes.
  - unfold Wire.with_crc. rewrite length_app. simpl. lia.
  - lia.
  - unfold Wire.with_crc.
    assert (L : forall i, (i < length body)%nat ->
                at_index (body ++ [Wire.lo (Crc16Spec.crc16 body);
                                   Wire.hi (Crc16Spec.crc16 body)]) i
                = at_index body i).
    { intros i Hi. unfold at_index. rewrite lookup_app_l by exact Hi. reflexivity. }
    rewrite !L by lia.
    repeat split.
    + lia.
    + intros E. apply (f_equal (fun v => Z.testbit v 7)) in E.
      rewrite Z.lor_spec, Hfn in E. discriminate E.
    + replace (length body + 2 - 2)%nat with (length body) by lia.
      rewrite take_app_length. 
      replace (length body + 2 - 1)%nat with (S (length body)) by lia.
      destruct (at_index_app_tail body (Wire.lo (Crc16Spec.crc16 body))
                  (Wire.hi (Crc16Spec.crc16 body))) as [-> ->].
      unfold Wire.hi, Wire.lo.
      pose proof (Z.div_mod (Crc16Spec.crc16 body) 256). lia.
Qed.

(** X3. [validateModbusResponse] accepts every well-formed frame: a body of
    2 to 255 bytes whose function byte has bit 7 clear, followed by the
    CRC16 of the body with the low byte first, is accepted for the address
    and the function the body starts with. *)
Theorem validateModbusResponse_well_formed (body : list Z)
    (Hbytes : Forall is_u8 body) (Hlen : (2 <= length body <= 255)%nat)
    (Hfn : Z.testbit (at_index body 1) 7 = false) :
  validateModbusResponse (Wire.with_crc body) (length body + 2)
    (at_index body 0) (at_index body 1) = true.
Proof. exact (with_crc_accepted body Hbytes Hlen Hfn). Qed.

Lemma validateModbusResponse_well_formed_witness :
  validateModbusResponse (Wire.with_crc [1; 6; 0x20; 0; 0; 5]) 8 1 6 = true.
Proof.
  apply (validateModbusResponse_well_formed [1; 6; 0x20; 0; 0; 5]).
  - ranged.
  - simpl; lia.
  - reflexivity.
Defined.

(** ** Error detection of the CRC *)

Lemma lxor_cancel_r (a b c : Z) : Z.lxor a c = Z.lxor b c -> a = b.
Proof.
  intros H. apply (f_equal (fun x => Z.lxor x c)) in H.
  rewrite !Z.lxor_assoc, !Z.lxor_nilpotent, !Z.lxor_0_r in H. exact H.
Qed.

Lemma lxor_cancel_l (a b c : Z) : Z.lxor c a = Z.lxor c b -> a = b.
Proof. rewrite !(Z.lxor_comm c). apply lxor_cancel_r. Qed.

Lemma halves_equal (a b : Z) :
  Z.shiftr a 1 = Z.shiftr b 1 -> Z.testbit a 0 = Z.testbit b 0 -> a = b.
Proof.
  rewrite !Z.shiftr_div_pow2 by lia. change (2 ^ 1) with 2. intros Hd Hb.
  pose proof (Z.bit0_mod a) as Ma. pose proof (Z.bit0_mod b) as Mb.
  rewrite Hb in Ma.
  pose proof (Z.div_mod a 2). pose proof (Z.div_mod b 2). lia.
Qed.

(** One shift-and-xor step of the CRC is injective on 16-bit values: the
    polynomial 0xA001 has bit 15 set and a shifted value has not. *)
Lemma bit_round_inj (a b : Z) :
  is_u16 a -> is_u16 b ->
  Crc16Spec.bit_round a = Crc16Spec.bit_round b -> a = b.
Proof.
  intros Ha Hb. pose proof (shiftr1_bound a Ha) as Sa.
  pose proof (shiftr1_bound b Hb) as Sb.
  assert (Top : forall x y, 0 <= x < 2 ^ 15 -> 0 <= y < 2 ^ 15 ->
                  Z.lxor x 0xA001 <> y).
  { intros x y Hx Hy E. apply (f_equal (fun v => Z.testbit v 15)) in E.
    rewrite Z.lxor_spec, (high_bits_clear 15 x), (high_bits_clear 15 y) in E by lia.
    discriminate E. }
  unfold Crc16Spec.bit_round.
  destruct (Z.testbit a 0) eqn:Ta, (Z.testbit b 0) eqn:Tb; intros E.
  - apply halves_equal; [eapply lxor_cancel_r; exact E | congruence].
  - exfalso. exact (Top _ _ Sa Sb E).
  - exfalso. symmetry in E. exact (Top _ _ Sb Sa E).
  - apply halves_equal; [exact E | congruence].
Qed.

Lemma iter_bit_round_u16 (k : nat) (v : Z) :
  is_u16 v -> is_u16 (Nat.iter k Crc16Spec.bit_round v).
Proof.
  intros H. induction k as [| k IH]; [exact H |]. simpl. apply bit_round_u16. exact IH.
Qed.

Lemma iter_bit_round_inj (k : nat) (a b : Z) :
  is_u16 a -> is_u16 b ->
  Nat.iter k Crc16Spec.bit_round a = Nat.iter k Crc16Spec.bit_round b -> a = b.
Proof.
  intros Ha Hb. induction k as [| k IH]; [auto |]. simpl. intros E.
  apply IH. apply bit_round_inj; auto using iter_bit_round_u16.
Qed.

Lemma lxor_byte_u16 (v b : Z) : is_u16 v -> is_u8 b -> is_u16 (Z.lxor v b).
Proof. intros Hv Hb. apply lxor_bound; [lia | exact Hv | exact (is_u8_u16 b Hb)]. Qed.

Lemma byte_round_inj (x y c d : Z) :
  is_u16 x -> is_u16 y -> is_u8 c -> is_u8 d ->
  Crc16Spec.byte_round x c = Crc16Spec.byte_round y d -> Z.lxor x c = Z.lxor y d.
Proof.
  intros Hx Hy Hc Hd. unfold Crc16Spec.byte_round.
  apply iter_bit_round_inj; apply lxor_byte_u16; assumption.
Qed.

Lemma fold_byte_round_u16 (l : list Z) (s : Z) :
  Forall is_u8 l -> is_u16 s -> is_u16 (fold_left Crc16Spec.byte_round l s).
Proof.
  intros Hl. revert s. induction Hl as [| c l Hc _ IH]; intros s Hs; [exact Hs |].
  simpl. apply IH. apply crc_byte_round; assumption.
Qed.

Lemma fold_byte_round_inj (l : list Z) (x y : Z) :
  Forall is_u8 l -> is_u16 x -> is_u16 y ->
  fold_left Crc16Spec.byte_round l x = fold_left Crc16Spec.byte_round l y -> x = y.
Proof.
  intros Hl. revert x y. induction Hl as [| c l Hc _ IH]; intros x y Hx Hy E;
    [exact E |].
  simpl in E. apply IH in E; try (apply crc_byte_round; assumption).
  apply byte_round_inj in E; try assumption. eapply lxor_cancel_r. exact E.
Qed.

(** Two byte sequences that differ in one byte have different CRCs. *)
Lemma crc16_one_byte (pre post : list Z) (b b' : Z) :
  Forall is_u8 pre -> Forall is_u8 post -> is_u8 b -> is_u8 b' ->
  Crc16Spec.crc16 (pre ++ b :: post) = Crc16Spec.crc16 (pre ++ b' :: post) ->
  b = b'.
Proof.
  intros Hpre Hpost Hb Hb'. unfold Crc16Spec.crc16.
  rewrite !fold_left_app. cbn [fold_left].
  assert (Us : is_u16 (fold_left Crc16Spec.byte_round pre 0xFFFF)).
  { apply fold_byte_round_u16; [exact Hpre | unfold is_u16; lia]. }
  intros E.
  apply fold_byte_round_inj in E; try assumption;
    try (apply crc_byte_round; assumption).
  apply byte_round_inj in E; try assumption. eapply lxor_cancel_l. exact E.
Qed.

(** X4. [validateModbusResponse] detects every corruption of a single byte:
    if a response of at most 257 bytes is accepted, the response with any
    one of its bytes replaced by a different byte is refused, whether the
    byte is the address, the function, a data byte or one of the two CRC
    bytes. *)
Theorem validateModbusResponse_detects_byte (response : list Z) (size : nat)
    (ea ef : Z) (i : nat) (b' : Z)
    (Hbytes : Forall is_u8 response)
    (Hsize : (size <= length response)%nat) (Hshort : (size <= 257)%nat)
    (Hi : (i < size)%nat) (Hb' : is_u8 b') (Hne : b' <> at_index response i)
    (Hok : validateModbusResponse response size ea ef = true) :
  validateModbusResponse (<[i := b']> response) size ea ef = false.
Proof.
  apply validateModbusResponse_true in Hok; try assumption.
  destruct Hok as (H4 & E0 & _ & E1 & Ec).
  apply not_true_is_false. intros Hok'.
  apply validateModbusResponse_true in Hok';
    [| apply Forall_insert; assumption | rewrite length_insert; exact Hsize
     | exact Hshort].
  destruct Hok' as (_ & E0' & _ & E1' & Ec').
  rewrite !at_index_insert in * by lia.
  destruct (decide (i = 0%nat)) as [-> | N0]; [congruence |].
  destruct (decide (i = 1%nat)) as [-> | N1]; [congruence |].
  pose proof (at_index_byte response (size - 1) Hbytes) as Uh.
  pose proof (at_index_byte response (size - 2) Hbytes) as Ul.
  unfold is_u8 in Uh, Ul, Hb'.
  destruct (le_lt_dec (size - 2) i) as [Htail | Hbody].
  - rewrite take_insert_ge in Ec' by exact Htail. rewrite Ec in Ec'.
    destruct (decide (i = (size - 1)%nat)) as [Eh | Nh];
      destruct (decide (i = (size - 2)%nat)) as [El | Nl]; try lia.
    all: subst i; lia.
  - destruct (decide (i = (size - 1)%nat)); [lia |].
    destruct (decide (i = (size - 2)%nat)); [lia |].
    rewrite <- Ec in Ec'. rewrite take_insert_lt in Ec' by exact Hbody.
    assert (Hl : take (size - 2) response !! i = Some (at_index response i)).
    { rewrite lookup_take_lt by exact Hbody. unfold at_index.
      destruct (lookup_lt_is_Some_2 response i) as [x ->]; [lia | reflexivity]. }
    assert (Hlen : (i < length (take (size - 2) response))%nat)
      by (rewrite length_take; lia).
    rewrite (insert_take_drop _ _ _ Hlen) in Ec'.
    rewrite <- (take_drop_middle _ _ _ Hl) in Ec' at 3.
    apply crc16_one_byte in Ec'.
    + contradiction.
    + apply Forall_take, Forall_take. exact Hbytes.
    + apply Forall_drop, Forall_take. exact Hbytes.
    + exact Hb'.
    + apply at_index_byte. exact Hbytes.
Qed.

Lemma validateModbusResponse_detects_byte_witness :
  validateModbusResponse (<[3%nat := 1]> [1; 6; 0x20; 0; 0; 5; 0x42; 0x09]) 8 1 6
  = false.
Proof.
  apply (validateModbusResponse_detects_byte [1; 6; 0x20; 0; 0; 5; 0x42; 0x09] 8 1 6).
  - ranged.
  - simpl; lia.
  - lia.
  - lia.
  - unfold is_u8; lia.
  - discriminate.
  - reflexivity.
Defined.

Lemma bit_round_even (v : Z) :
  Crc16Spec.bit_round (2 * v) = v.
Proof.
  unfold Crc16Spec.bit_round. rewrite Z.testbit_even_0.
  rewrite Z.shiftr_div_pow2 by lia. change (2 ^ 1) with 2.
  rewrite Z.mul_comm. apply Z.div_mul. lia.
Qed.

(** Feeding the CRC its own low byte leaves its high byte. *)
Lemma byte_round_low (v : Z) :
  is_u16 v -> Crc16Spec.byte_round v (Wire.lo v) = Wire.hi v.
Proof.
  intros Hv. unfold Crc16Spec.byte_round, Wire.lo, Wire.hi.
  assert (E : Z.lxor v (v mod 256) = 256 * (v / 256)).
  { apply Z.bits_inj'. intros k Hk. rewrite Z.lxor_spec.
    change 256 with (2 ^ 8). rewrite Z.mul_comm.
    destruct (Z.lt_ge_cases k 8) as [Hlt | Hge].
    - rewrite Z.mod_pow2_bits_low by lia. rewrite Z.mul_pow2_bits_low by lia.
      apply xorb_nilpotent.
    - rewrite Z.mod_pow2_bits_high by lia. rewrite Z.mul_pow2_bits by lia.
      rewrite Z.div_pow2_bits by lia. rewrite xorb_false_r.
      f_equal. lia. }
  rewrite E.
  replace (256 * (v / 256)) with (2 * (2 * (2 * (2 * (2 * (2 * (2 * (2 * (v / 256)))))))))
    by lia.
  cbn [Nat.iter nat_rect]. rewrite !bit_round_even. reflexivity.
Qed.

Lemma byte_round_high (h : Z) :
  Crc16Spec.byte_round h h = 0.
Proof.
  unfold Crc16Spec.byte_round. rewrite Z.lxor_nilpotent. reflexivity.
Qed.

(** The CRC of a body followed by its CRC, low byte first, is zero. *)
Lemma crc16_residue (body : list Z) :
  Forall is_u8 body -> Crc16Spec.crc16 (Wire.with_crc body) = 0.
Proof.
  intros Hb. pose proof (crc16_u16 body Hb) as Hc.
  unfold Wire.with_crc. unfold Crc16Spec.crc16 at 1.
  rewrite fold_left_app. cbn [fold_left].
  change (fold_left Crc16Spec.byte_round body 65535) with (Crc16Spec.crc16 body).
  rewrite byte_round_low by exact Hc. apply byte_round_high.
Qed.

(** X5. [calculateCRC] over a frame together with its two CRC bytes gives
    0: for a body of at most 253 bytes followed by the CRC16 of the body,
    low byte first, the function returns 0 when it is run over the whole
    frame. *)
Theorem calculateCRC_residue (body : list Z)
    (Hbytes : Forall is_u8 body) (Hlen : (length body <= 253)%nat) :
  calculateCRC (Some (Wire.with_crc body)) (length body + 2) = 0.
Proof.
  destruct (calculateCRC_prefix (Wire.with_crc body) (length body + 2)) as [E _].
  - apply with_crc_bytes. exact Hbytes.
  - lia.
  - unfold Wire.with_crc. rewrite length_app. simpl. lia.
  - rewrite E. rewrite take_ge.
    + apply crc16_residue. exact Hbytes.
    + unfold Wire.with_crc. rewrite length_app. simpl. lia.
Qed.

Lemma calculateCRC_residue_witness :
  calculateCRC (Some [1; 3; 0x30; 0; 0; 1; 0x8B; 0x0A]) 8 = 0.
Proof.
  apply (calculateCRC_residue [1; 3; 0x30; 0; 0; 1]).
  - ranged.
  - simpl; lia.
Defined.

(** ** Requests and acknowledgements *)

(** The copy loop of [writeParameters] stores from index 7 on. *)
Lemma copy_values_low (values : list Z) (i k : nat) (request : list Z) (j : nat) :
  (j < 7)%nat -> at_index (copy_values values i k request) j = at_index request j.
Proof.
  intros Hj. revert i request. induction k as [| k IH]; intros i request;
    cbn [copy_values]; [reflexivity |].
  rewrite IH, !at_index_insert_ne by lia. reflexivity.
Qed.

(** The function code of a write request depends on the count alone. *)
Lemma writeRequest_function (sa start : Z) (values : list Z) (n : nat) :
  (1 <= n)%nat ->
  at_index (writeRequest sa start values n) 1
  = if (n =? 1)%nat then WRITE_ONE else WRITE_RANGE.
Proof.
  intros Hn. unfold writeRequest, writeRequestSize.
  destruct (Nat.eqb_spec n 1) as [-> | N1].
  - reflexivity.
  - destruct (Nat.ltb_spec 1 n) as [_ | ?]; [| lia].
    rewrite !at_index_insert_ne by lia.
    rewrite copy_values_low by lia.
    rewrite !at_index_insert_ne by lia.
    rewrite at_index_insert.
    + destruct (decide (1%nat = 1%nat)); [reflexivity | lia].
    + rewrite length_insert. unfold local_array. rewrite length_replicate. lia.
Qed.

(** The requests for 1 to 122 registers pass the size guard. *)
Lemma size_guard (n : nat) :
  (1 <= n <= 122)%nat -> (writeRequestSize n <= MAX_REQUEST_SIZE)%nat.
Proof.
  intros Hn. unfold writeRequestSize, MAX_REQUEST_SIZE, MAX_MODBUS_REGISTERS.
  destruct (n =? 1)%nat; lia.
Qed.

(** X6. The requests the master builds are well-formed for its own
    validator: the 8-byte read request for 1 to 125 registers is accepted by
    [validateModbusResponse] for the slave address and function 0x03, the
    8-byte request that writes one register for function 0x06, and the
    request that writes [n] registers, of 9 + 2n bytes, for function 0x10.
    A slave that echoes a single write is therefore acknowledged. *)
Theorem requests_pass_validation (sa start : Z) (values : list Z) (n : nat)
    (Hsa : is_u8 sa) (Hstart : is_u16 start) (Hvalues : Forall is_u16 values) :
  ((1 <= n <= 125)%nat ->
   validateModbusResponse (readRequest sa start n) 8 sa READ = true)
  /\ ((1 <= length values)%nat ->
      validateModbusResponse (writeRequest sa start values 1) 8 sa WRITE_ONE = true)
  /\ ((1 < n <= 123)%nat -> (n <= length values)%nat ->
      validateModbusResponse (writeRequest sa start values n) (9 + n * 2)
        sa WRITE_RANGE = true).
Proof.
  assert (B : forall x, is_u16 x -> is_u8 (Wire.hi x) /\ is_u8 (Wire.lo x)).
  { intros x Hx. unfold is_u16 in Hx. unfold is_u8, Wire.hi, Wire.lo.
    pose proof (Z.mod_pos_bound x 256). 
    assert (0 <= x / 256 < 256) by (split; [apply Z.div_pos; lia
                                           | apply Z.div_lt_upper_bound; lia]).
    lia. }
  destruct (B start Hstart) as [Bh Bl].
  split; [| split].
  - intros Hn.
    rewrite readRequest_frame; [| exact Hsa | exact Hstart | unfold is_u16; lia].
    destruct (B (Z.of_nat n)) as [Nh Nl]; [unfold is_u16; lia |].
    apply (with_crc_accepted
             [sa; 0x03; Wire.hi start; Wire.lo start;
              Wire.hi (Z.of_nat n); Wire.lo (Z.of_nat n)]).
    + repeat (apply Forall_cons_2; [first [assumption | unfold is_u8; lia] |]).
      constructor.
    + simpl; lia.
    + reflexivity.
  - intros Hl.
    assert (Uv : is_u16 (at_index values 0)) by (apply at_index_u16; [assumption | lia]).
    rewrite writeRequest_single by assumption.
    destruct (B _ Uv) as [Vh Vl].
    apply (with_crc_accepted
             [sa; 0x06; Wire.hi start; Wire.lo start;
              Wire.hi (at_index values 0); Wire.lo (at_index values 0)]).
    + repeat (apply Forall_cons_2; [first [assumption | unfold is_u8; lia] |]).
      constructor.
    + simpl; lia.
    + reflexivity.
  - intros Hn Hl.
    rewrite writeRequest_multiple by (try assumption; lia).
    unfold Wire.write_multiple_request.
    rewrite length_take, Nat.min_l by exact Hl.
    destruct (B (Z.of_nat n)) as [Nh Nl]; [unfold is_u16; lia |].
    set (body := [sa; 16; Wire.hi start; Wire.lo start; Wire.hi (Z.of_nat n);
                  Wire.lo (Z.of_nat n); Z.of_nat n * 2]
                 ++ Wire.registers (take n values)).
    assert (Lb : length body = (7 + n * 2)%nat).
    { unfold body. rewrite length_app, registers_length, length_take. simpl. lia. }
    pose proof (with_crc_accepted body) as V.
    rewrite Lb in V. replace (7 + n * 2 + 2)%nat with (9 + n * 2)%nat in V by lia.
    apply V.
    + unfold body. apply Forall_app. split.
      * repeat (apply Forall_cons_2; [first [assumption | unfold is_u8; lia] |]).
        constructor.
      * apply registers_bytes. apply Forall_take. exact Hvalues.
    + lia.
    + reflexivity.
Qed.

Lemma requests_pass_validation_witness :
  validateModbusResponse (readRequest 1 0x3000 1) 8 1 READ = true
  /\ validateModbusResponse (writeRequest 1 0x2000 [5] 1) 8 1 WRITE_ONE = true.
Proof.
  assert (Hsa : is_u8 1) by (unfold is_u8; lia).
  assert (H1 : is_u16 0x3000) by (unfold is_u16; lia).
  assert (H2 : is_u16 0x2000) by (unfold is_u16; lia).
  assert (Hv : Forall is_u16 [5]) by ranged.
  split.
  - apply (proj1 (requests_pass_validation 1 0x3000 [5] 1 Hsa H1 Hv)). lia.
  - apply (proj1 (proj2 (requests_pass_validation 1 0x2000 [5] 1 Hsa H2 Hv))).
    simpl; lia.
Defined.

(** X7. When [writeParameters] has sent its request for 1 to 122 registers
    and [receiveData] has delivered the 8 bytes of the acknowledgement, the
    result is that of [validateModbusResponse] on these 8 bytes, for the
    slave address and the function of the request: 0x06 for one register,
    0x10 for more.  The four bytes between the function and the CRC are
    not compared with the request: an acknowledgement with the right
    address, function and CRC is accepted whatever register address and
    value or count it echoes. *)
Theorem writeParameters_acknowledged (fuel : nat) (self : HS321) (port : nat)
    (sa start : Z) (values : list Z) (n : nat) (w w' : World)
    (response : option (list Z))
    (Hport : _serialPort self = Some port) (Hn : (1 <= n <= 122)%nat)
    (Hreceived :
       receiveData fuel self (Some (local_array 8)) 8
         (snd (sendData self (writeRequest sa start values n)
                 (writeRequestSize n) w))
       = (Returned (true, response), w')) :
  let fn := if (n =? 1)%nat then WRITE_ONE else WRITE_RANGE in
  writeParameters fuel self sa start (Some values) n w
  = (Returned (validateModbusResponse (reads w (read_calls w) 8) 8 sa fn), w')
  /\ (forall a b c d,
        is_u8 sa -> is_u8 a -> is_u8 b -> is_u8 c -> is_u8 d ->
        reads w (read_calls w) 8 = Wire.with_crc [sa; fn; a; b; c; d] ->
        writeParameters fuel self sa start (Some values) n w = (Returned true, w')).
Proof.
  intros fn.
  destruct (sendData_run self port (writeRequest sa start values n)
              (writeRequestSize n) w Hport) as (w1 & Es & Hin & _).
  rewrite Es in Hreceived. cbn [snd] in Hreceived.
  assert (Hresp : response = Some (reads w (read_calls w) 8)).
  { pose proof (receiveData_true_bytes fuel self (local_array 8) 8 w1 w' response)
      as B.
    rewrite B; [| lia | reflexivity | exact Hreceived].
    destruct Hin as ((_ & _ & Er) & _ & _ & Ec). rewrite Ec.
    rewrite (reads_oracle w w1) by exact Er. reflexivity. }
  assert (Run : writeParameters fuel self sa start (Some values) n w
                = (Returned (validateModbusResponse (reads w (read_calls w) 8) 8 sa fn),
                   w')).
  { rewrite writeParameters_accepts; [| lia | apply size_guard; exact Hn].
    unfold mbind at 1. unfold IO_bind at 1. rewrite Es.
    unfold mbind, IO_bind. rewrite Hreceived. cbn [negb]. subst response.
    cbn [default from_option id]. rewrite writeRequest_function by lia.
    reflexivity. }
  split; [exact Run |].
  intros a b c d Hsa Ha Hb Hc Hd Hline. rewrite Run, Hline.
  pose proof (with_crc_accepted [sa; fn; a; b; c; d]) as V.
  cbn [length at_index lookup list_lookup default from_option id Nat.add] in V.
  rewrite V; [reflexivity | | lia |].
  - assert (is_u8 fn) by (unfold fn, WRITE_ONE, WRITE_RANGE, is_u8;
                          destruct (n =? 1)%nat; lia).
    repeat (apply Forall_cons_2; [assumption |]). constructor.
  - unfold fn. destruct (n =? 1)%nat; reflexivity.
Qed.

Lemma writeParameters_acknowledged_witness :
  let self := mkHS321 true 1 (Some 1%nat) None 9600 4 2000 3645 in
  exists w',
    writeParameters 20 self 1 0x2000 (Some [5]) 1
      (serving (Wire.with_crc [1; 6; 0x12; 0x34; 0x56; 0x78]))
    = (Returned true, w').
Proof.
  intros self. eexists.
  refine (proj2 (writeParameters_acknowledged 20 self 1 1 0x2000 [5] 1
            (serving (Wire.with_crc [1; 6; 0x12; 0x34; 0x56; 0x78])) _ _
            eq_refl _ _) 0x12 0x34 0x56 0x78 _ _ _ _ _ _);
    try (unfold is_u8; lia); try lia.
  - vm_compute. reflexivity.
  - reflexivity.
Defined.

(** ** The check of a read response *)

(** X8. The checks [readParameters] makes on a response that was received
    in full, written out in the function itself, accept exactly the
    responses that [validateModbusResponse] accepts for function 0x03 and
    whose byte count is twice the number of registers. *)
Theorem checkReadResponse_validates (sa : Z) (response values : list Z) (n : nat)
    (Hbytes : Forall is_u8 response) :
  fst (checkReadResponse sa response values n)
  = validateModbusResponse response (5 + n * 2) sa READ
    && (at_index response 2 =? Z.of_nat (n * 2)).
Proof.
  unfold checkReadResponse, validateModbusResponse.
  destruct (Nat.ltb_spec (5 + n * 2) 4) as [? | _]; [lia |].
  destruct (Z.eqb_spec (at_index response 0) sa) as [E0 | E0]; cbn [negb orb];
    [| reflexivity].
  destruct (Z.eqb_spec (at_index response 1) READ) as [E1 | E1]; cbn [negb].
  - rewrite E1. change (READ =? Z.lor READ 128) with false. cbn iota.
    destruct (stored_crc (at_index response (5 + n * 2 - 1))
                (at_index response (5 + n * 2 - 2))) as [S1 S2];
      [apply at_index_byte; exact Hbytes .. |].
    rewrite S1, S2.
    destruct (Z.eqb_spec (at_index response 2) (Z.of_nat (n * 2))) as [E2 | E2];
      cbn [negb].
    + rewrite andb_true_r.
      rewrite (Z.eqb_sym (_ * 256 + _) (u16 _)).
      destruct (u16 _ =? _); cbn [negb]; [| reflexivity].
      destruct (n =? 1)%nat; reflexivity.
    + rewrite andb_false_r. reflexivity.
  - destruct (at_index response 1 =? Z.lor READ 128); reflexivity.
Qed.

Lemma checkReadResponse_validates_witness :
  fst (checkReadResponse 1 (Wire.read_response 1 [100]) [0] 1)
  = validateModbusResponse (Wire.read_response 1 [100]) 7 1 READ && true.
Proof.
  assert (Hb : Forall is_u8 (Wire.read_response 1 [100])).
  { match goal with
    | |- Forall ?P ?l => let l' := eval vm_compute in l in change (Forall P l')
    end. ranged. }
  exact (checkReadResponse_validates 1 (Wire.read_response 1 [100]) [0] 1 Hb).
Defined.

(** Two bytes read as a big-endian word. *)
Lemma be16_bytes (response : list Z) (i : nat) :
  Forall is_u8 response ->
  be16 response i = at_index response i * 256 + at_index response (i + 1).
Proof.
  intros Hb. unfold be16.
  pose proof (at_index_byte response i Hb) as Hh.
  pose proof (at_index_byte response (i + 1) Hb) as Hl.
  rewrite (u16_small (at_index response i)) by (apply is_u8_u16; exact Hh).
  apply stored_crc; assumption.
Qed.

(** X9. When [readParameters] accepts a response and the caller's array
    has at least [n] cells, the first [n] cells of the array hold the
    register values of the response, each the big-endian word of the two
    bytes at index 3 + 2i and 4 + 2i, and the cells behind them are
    unchanged; this holds for every accepted response, not only for those
    built from register values. *)
Theorem checkReadResponse_stores (sa : Z) (response values : list Z) (n : nat)
    (Hbytes : Forall is_u8 response) (Hroom : (n <= length values)%nat)
    (Hok : fst (checkReadResponse sa response values n) = true) :
  snd (checkReadResponse sa response values n)
  = map (fun i => at_index response (3 + i * 2) * 256
                  + at_index response (4 + i * 2)) (seq 0 n)
    ++ drop n values.
Proof.
  set (decoded := map (fun i => be16 response (3 + i * 2)) (seq 0 n)).
  assert (Es : store_registers response 0 n values = decoded ++ drop n values).
  { rewrite <- (take_drop n values) at 1.
    change (take n values ++ drop n values)
      with ([] ++ (take n values ++ drop n values)).
    rewrite (store_registers_app response decoded n 0 []).
    - rewrite drop_0, take_ge by (unfold decoded; rewrite length_map, length_seq; lia).
      cbn [app]. rewrite drop_app_length' by (rewrite length_take; lia). reflexivity.
    - intros j v. unfold decoded. rewrite list_lookup_fmap.
      destruct (seq 0 n !! j) as [i |] eqn:Ei; [| discriminate].
      apply lookup_seq in Ei. destruct Ei as [-> _]. simpl. congruence.
    - reflexivity.
    - rewrite length_app, length_take. lia.
    - unfold decoded. rewrite length_map, length_seq. lia. }
  assert (Ed : decoded = map (fun i => at_index response (3 + i * 2) * 256
                                       + at_index response (4 + i * 2)) (seq 0 n)).
  { unfold decoded. apply map_ext. intros i.
    rewrite be16_bytes by exact Hbytes.
    replace (3 + i * 2 + 1)%nat with (4 + i * 2)%nat by lia. reflexivity. }
  rewrite <- Ed, <- Es. revert Hok. unfold checkReadResponse.
  repeat match goal with
         | |- context [if negb ?c then _ else _] => destruct c; cbn [negb]
         | |- context [if ?a || ?b then _ else _] => destruct a, b; cbn [negb orb]
         end; try (intros H; discriminate H).
  intros _. destruct (Nat.eqb_spec n 1) as [-> | _]; reflexivity.
Qed.

Lemma checkReadResponse_stores_witness :
  snd (checkReadResponse 1 (Wire.read_response 1 [0x1234; 5]) [0; 0; 9] 2)
  = [0x1234; 5; 9].
Proof.
  assert (Hb : Forall is_u8 (Wire.read_response 1 [0x1234; 5])).
  { match goal with
    | |- Forall ?P ?l => let l' := eval vm_compute in l in change (Forall P l')
    end. ranged. }
  assert (Hr : (2 <= length [0; 0; 9])%nat) by (simpl; lia).
  rewrite (checkReadResponse_stores 1 (Wire.read_response 1 [0x1234; 5]) [0; 0; 9] 2
             Hb Hr eq_refl).
  reflexivity.
Defined.

(** ** HS321::begin *)

(** X10. [begin] always returns, also when both ports are null: the debug
    port is only used behind a null check.  The object is initialised
    exactly when the Modbus port is not null, so an initialised object has
    a port; address, ports, baud rate and pin are unchanged; the total
    timeout is 2000 and the inter-character timeout that of the baud rate
    when the object is initialised, and both are unchanged otherwise.  No
    input is consumed.  With a null Modbus port no pin is driven and the
    only output is one line on the debug port, if there is one.  Calling
    [begin] again leaves the object as it is. *)
Theorem begin_outcome (interCharOfBaud : Z -> Z) (self : HS321) (w : World) :
  exists self' w',
    begin interCharOfBaud self w = (Returned self', w')
    /\ _initialized self' = bool_decide (_serialPort self <> None)
    /\ (isInitialized self' = true -> _serialPort self' <> None)
    /\ _slaveAddress self' = _slaveAddress self
    /\ _serialPort self' = _serialPort self
    /\ _serialDebug self' = _serialDebug self
    /\ _baud self' = _baud self
    /\ _transmitterModeContact self' = _transmitterModeContact self
    /\ (_totalTimeout self', _interCharTimeout self')
       = (if _initialized self'
          then (2000, u32 (interCharOfBaud (_baud self)))
          else (_totalTimeout self, _interCharTimeout self))
    /\ no_input w w'
    /\ (_serialPort self = None ->
        pin_level w' = pin_level w
        /\ exists text,
             output w' = output w ++ match _serialDebug self with
                                     | Some dbg => [EvPrintln dbg (PStr text)]
                                     | None => []
                                     end)
    /\ (forall w2, fst (begin interCharOfBaud self' w2) = Returned self').
Proof.
  destruct self as [ini sa [port |] [dbg |] baud pin tot ic];
    (eexists _, _; split; [unfold begin; cbn; reflexivity |]);
    cbn [_initialized _slaveAddress _serialPort _serialDebug _baud
         _transmitterModeContact _totalTimeout _interCharTimeout
         set_initialized set_timeouts];
    repeat match goal with |- _ /\ _ => split end;
    try reflexivity; try discriminate;
    try (intros H; first [discriminate H | discriminate]).
  all: try (intros _; split; [reflexivity |]; eexists; cbn; reflexivity).
  all: try (intros _; split; [reflexivity |]; exists EmptyString; cbn;
            symmetry; apply app_nil_r).
  all: repeat split; reflexivity.
Qed.

(** ** The public operations *)

(** X11. The public operations refuse a null pointer, a zero count
    and a count that is too large without any input or output, on every
    object: a read with a null pointer returns [false]; reading or writing
    zero registers returns [false]; reading more than 125 registers and
    writing more than 122 registers return [false]; the world and the
    caller's array are unchanged. *)
Theorem public_operations_reject_arguments (fuel : nat) (self : HS321) (w : World)
    (group : GroupsParameter) (numberGroup : Z) (ptr : option (list Z))
    (count : nat) :
  readFaultDescription fuel self None w = (Returned (false, None), w)
  /\ readRunningState fuel self None w = (Returned (false, None), w)
  /\ readSingleGroupParameter fuel self group numberGroup None w
     = (Returned (false, None), w)
  /\ readParametersInGroups fuel self group numberGroup None count w
     = (Returned (false, None), w)
  /\ readParametersInGroups fuel self group numberGroup ptr 0 w
     = (Returned (false, ptr), w)
  /\ ((125 < count)%nat ->
      readParametersInGroups fuel self group numberGroup ptr count w
      = (Returned (false, ptr), w))
  /\ writeParametersInGroups fuel self group numberGroup None count w
     = (Returned false, w)
  /\ writeParametersInGroups fuel self group numberGroup ptr 0 w
     = (Returned false, w)
  /\ ((122 < count)%nat ->
      writeParametersInGroups fuel self group numberGroup ptr count w
      = (Returned false, w)).
Proof.
  unfold readFaultDescription, readRunningState, readSingleGroupParameter,
    readParametersInGroups, writeParametersInGroups, isInitialized.
  destruct (_initialized self); cbn [negb orb];
    repeat match goal with |- _ /\ _ => split end; try reflexivity.
  - rewrite orb_true_r. reflexivity.
  - intros Hc. destruct ptr as [values |]; [| reflexivity].
    destruct (Nat.eqb_spec count 0) as [? | _]; [lia |].
    rewrite bool_decide_eq_false_2 by discriminate. cbn [orb].
    unfold readParameters.
    destruct (Nat.eqb_spec count 0) as [? | _]; [lia |].
    destruct (Nat.ltb_spec 125 count) as [_ | ?]; [reflexivity | lia].
  - rewrite orb_true_r. reflexivity.
  - intros Hc. destruct ptr as [values |]; [| reflexivity].
    destruct (Nat.eqb_spec count 0) as [? | _]; [lia |].
    rewrite bool_decide_eq_false_2 by discriminate. cbn [orb].
    unfold writeParameters.
    destruct (Nat.eqb_spec count 0) as [? | _]; [lia |].
    destruct (Nat.ltb_spec MAX_MODBUS_REGISTERS count) as [_ | Hm]; [reflexivity |].
    unfold MAX_MODBUS_REGISTERS in Hm. assert (count = 123%nat) as -> by lia.
    reflexivity.
Qed.

(** The output of a read transaction is one transmission of its request. *)
Lemma readParameters_output (fuel : nat) (self : HS321) (port : nat)
    (sa start : Z) (values : list Z) (n : nat) (w : World) :
  _serialPort self = Some port -> is_u8 sa -> is_u16 start -> (1 <= n <= 125)%nat ->
  output (snd (readParameters fuel self sa start (Some values) n w))
  = output w ++ transmission self port (Wire.read_request sa start n).
Proof.
  intros Hport Hsa Hstart Hn.
  assert (E : readRequest sa start n = Wire.read_request sa start n).
  { apply readRequest_frame; [exact Hsa | exact Hstart | unfold is_u16; lia]. }
  rewrite readParameters_accepts by exact Hn.
  destruct (send_then_quiet self port (readRequest sa start n) 8 _ w Hport
              (quiet_after_read_send fuel self sa values n)) as [O _].
  rewrite O. rewrite take_ge; [rewrite E; reflexivity |]. rewrite E. reflexivity.
Qed.

(** The output of a write transaction is one transmission of its request. *)
Lemma writeParameters_output (fuel : nat) (self : HS321) (port : nat)
    (sa start : Z) (values : list Z) (n : nat) (w : World) :
  _serialPort self = Some port -> is_u8 sa -> is_u16 start ->
  Forall is_u16 values -> (n <= length values)%nat -> (1 <= n <= 122)%nat ->
  output (snd (writeParameters fuel self sa start (Some values) n w))
  = output w ++ transmission self port (writeRequest sa start values n).
Proof.
  intros Hport Hsa Hstart Hvalues Hlen Hn.
  rewrite writeParameters_accepts; [| lia | apply size_guard; exact Hn].
  destruct (send_then_quiet self port (writeRequest sa start values n)
              (writeRequestSize n) _ w Hport
              (quiet_after_write_send fuel self sa
                 (at_index (writeRequest sa start values n) 1))) as [O _].
  rewrite O. rewrite take_ge; [reflexivity |].
  rewrite writeRequest_length; [lia | assumption .. | lia | assumption].
Qed.

(** X12. On an initialised object each public read operation transmits
    exactly one frame, a read request to the object's slave address:
    [readFaultDescription] for one register at 0x8000, [readRunningState]
    for one register at 0x3000, [readSingleGroupParameter] for one register
    at [group * 256 + numberGroup], and [readParametersInGroups] for
    [count] registers from [group * 256 + numberGroup], for 1 to 125
    registers. *)
Theorem read_operations_transmit (fuel : nat) (self : HS321) (port : nat)
    (value : list Z) (w : World)
    (Hinit : isInitialized self = true)
    (Hport : _serialPort self = Some port)
    (Hsa : is_u8 (_slaveAddress self)) :
  let sa := _slaveAddress self in
  let sends (w' : World) (frame : list Z) :=
    output w' = output w ++ transmission self port frame in
  sends (snd (readFaultDescription fuel self (Some value) w))
        (Wire.read_request sa 0x8000 1)
  /\ sends (snd (readRunningState fuel self (Some value) w))
           (Wire.read_request sa 0x3000 1)
  /\ (forall group numberGroup, is_u8 numberGroup ->
        sends (snd (readSingleGroupParameter fuel self group numberGroup
                      (Some value) w))
              (Wire.read_request sa (group_value group * 256 + numberGroup) 1))
  /\ (forall group numberGroup count,
        is_u8 numberGroup -> (1 <= count <= 125)%nat ->
        sends (snd (readParametersInGroups fuel self group numberGroup
                      (Some value) count w))
              (Wire.read_request sa (group_value group * 256 + numberGroup) count)).
Proof.
  intros sa sends. unfold sends, readFaultDescription, readRunningState,
    readSingleGroupParameter, readParametersInGroups, readSingleParameter.
  rewrite Hinit. cbn [negb orb].
  rewrite bool_decide_eq_false_2 by discriminate.
  assert (U : forall a, (0 <= a < 2 ^ 16) -> is_u16 a) by (intros; assumption).
  repeat match goal with |- _ /\ _ => split end.
  - apply readParameters_output; [exact Hport | exact Hsa | apply U; lia | lia].
  - apply readParameters_output; [exact Hport | exact Hsa | apply U; lia | lia].
  - intros group numberGroup Hs.
    destruct (buildParameterAddress_value group numberGroup Hs) as [-> Ua].
    apply readParameters_output; [exact Hport | exact Hsa | exact Ua | lia].
  - intros group numberGroup count Hs Hc.
    destruct (Nat.eqb_spec count 0) as [? | _]; [lia |].
    destruct (buildParameterAddress_value group numberGroup Hs) as [-> Ua].
    apply readParameters_output; [exact Hport | exact Hsa | exact Ua | exact Hc].
Qed.

Lemma read_operations_transmit_witness :
  let self := mkHS321 true 1 (Some 1%nat) None 9600 4 2000 3645 in
  output (snd (readFaultDescription 3 self (Some [0]) quiet_world))
  = transmission self 1 [1; 3; 0x80; 0; 0; 1; 0xAD; 0xCA]
  /\ output (snd (readSingleGroupParameter 3 self GROUP_d 0 (Some [0]) quiet_world))
     = transmission self 1 (Wire.read_request 1 0x7000 1).
Proof.
  intros self.
  assert (Hsa : is_u8 1) by (unfold is_u8; lia).
  assert (H0 : is_u8 0) by (unfold is_u8; lia).
  destruct (read_operations_transmit 3 self 1 [0] quiet_world eq_refl eq_refl Hsa)
    as (F & _ & G & _).
  split; [exact F | exact (G GROUP_d 0 H0)].
Defined.

(** X13. On an initialised object each public write operation transmits
    exactly one frame to the object's slave address: [writeControlCommand]
    a write of the number of the command to register 0x2000,
    [writeSingleGroupParameter] a write of the value to register
    [group * 256 + numberGroup], and [writeParametersInGroups] a write of
    one register for a count of 1 and a write of [count] registers for a
    count from 2 to 122. *)
Theorem write_operations_transmit (fuel : nat) (self : HS321) (port : nat)
    (w : World)
    (Hinit : isInitialized self = true)
    (Hport : _serialPort self = Some port)
    (Hsa : is_u8 (_slaveAddress self)) :
  let sa := _slaveAddress self in
  let sends (w' : World) (frame : list Z) :=
    output w' = output w ++ transmission self port frame in
  (forall command,
     sends (snd (writeControlCommand fuel self command w))
           (Wire.write_single_request sa 0x2000 (command_value command)))
  /\ (forall group numberGroup value,
        is_u8 numberGroup -> is_u16 value ->
        sends (snd (writeSingleGroupParameter fuel self group numberGroup value w))
              (Wire.write_single_request sa
                 (group_value group * 256 + numberGroup) value))
  /\ (forall group numberGroup values,
        is_u8 numberGroup -> Forall is_u16 values -> (1 <= length values)%nat ->
        sends (snd (writeParametersInGroups fuel self group numberGroup
                      (Some values) 1 w))
              (Wire.write_single_request sa
                 (group_value group * 256 + numberGroup) (at_index values 0)))
  /\ (forall group numberGroup values count,
        is_u8 numberGroup -> Forall is_u16 values ->
        (1 < count <= 122)%nat -> (count <= length values)%nat ->
        sends (snd (writeParametersInGroups fuel self group numberGroup
                      (Some values) count w))
              (Wire.write_multiple_request sa
                 (group_value group * 256 + numberGroup) (take count values))).
Proof.
  intros sa sends. unfold sends, writeControlCommand, writeSingleGroupParameter,
    writeParametersInGroups, writeSingleParameter.
  rewrite Hinit. cbn [negb orb].
  assert (U : forall a, (0 <= a < 2 ^ 16) -> is_u16 a) by (intros; assumption).
  repeat match goal with |- _ /\ _ => split end.
  - intros command.
    assert (Uc : is_u16 (command_value command))
      by (unfold is_u16; destruct command; simpl; lia).
    rewrite (u16_small _ Uc).
    rewrite (writeParameters_output fuel self port);
      [| exact Hport | exact Hsa | apply U; lia
       | apply Forall_cons_2; [exact Uc | constructor] | simpl; lia | lia].
    rewrite writeRequest_single; [reflexivity | exact Hsa | apply U; lia | exact Uc].
  - intros group numberGroup value Hs Hv.
    destruct (buildParameterAddress_value group numberGroup Hs) as [-> Ua].
    rewrite (writeParameters_output fuel self port);
      [| exact Hport | exact Hsa | exact Ua
       | apply Forall_cons_2; [exact Hv | constructor] | simpl; lia | lia].
    rewrite writeRequest_single; [reflexivity | exact Hsa | exact Ua | exact Hv].
  - intros group numberGroup values Hs Hv Hl.
    rewrite bool_decide_eq_false_2 by discriminate. cbn [Nat.eqb orb].
    destruct (buildParameterAddress_value group numberGroup Hs) as [-> Ua].
    rewrite (writeParameters_output fuel self port);
      [| exact Hport | exact Hsa | exact Ua | exact Hv | lia | lia].
    rewrite writeRequest_single;
      [reflexivity | exact Hsa | exact Ua | apply at_index_u16; [exact Hv | lia]].
  - intros group numberGroup values count Hs Hv Hc Hl.
    rewrite bool_decide_eq_false_2 by discriminate.
    destruct (Nat.eqb_spec count 0) as [? | _]; [lia |]. cbn [orb].
    destruct (buildParameterAddress_value group numberGroup Hs) as [-> Ua].
    rewrite (writeParameters_output fuel self port);
      [| exact Hport | exact Hsa | exact Ua | exact Hv | lia | lia].
    rewrite writeRequest_multiple;
      [reflexivity | exact Hsa | exact Ua | exact Hv | lia | exact Hl].
Qed.

Lemma write_operations_transmit_witness :
  let self := mkHS321 true 1 (Some 1%nat) None 9600 4 2000 3645 in
  output (snd (writeControlCommand 3 self DECELERATE_STOP_COMMAND quiet_world))
  = transmission self 1 [1; 6; 0x20; 0; 0; 5; 0x42; 0x09].
Proof.
  intros self.
  assert (Hsa : is_u8 1) by (unfold is_u8; lia).
  destruct (write_operations_transmit 3 self 1 quiet_world eq_refl eq_refl Hsa)
    as (F & _).
  exact (F DECELERATE_STOP_COMMAND).
Defined.

(** ** What a transaction asks of the environment *)

(** What a call of [receiveData] has consumed. *)
Lemma receiveData_outcome (fuel : nat) (self : HS321) (buf : list Z) (len : nat)
    (w : World) :
  match receiveData fuel self (Some buf) len w with
  | (Returned (r, buf'), w') =>
      exists j : nat,
        (j <= len)%nat
        /\ read_calls w' = (read_calls w + j)%nat
        /\ (r = true -> j = len)
        /\ no_output w w' /\ same_oracle w w'
  | (NullDeref, _) => _serialPort self = None
  | (OutOfFuel, _) => True
  end.
Proof.
  destruct (Nat.eq_dec len 0%nat) as [-> | Hlen].
  { rewrite receiveData_zero. exists 0%nat.
    repeat split; try reflexivity; try discriminate; lia. }
  rewrite receiveData_unfold by exact Hlen.
  pose proof (receive_loop_outcome fuel self len (charTimeoutOf self len) buf 0
                (u32 (millis_at w (millis_calls w))) (snd (millis w))
                (Nat.le_0_l len)) as P.
  destruct (receive_loop fuel self len (charTimeoutOf self len) buf 0
              (u32 (millis_at w (millis_calls w))) (snd (millis w)))
    as [[[[ex bytes] bytesRead] | |] w']; [| exact P | exact I].
  destruct P as (j & E1 & E2 & _ & E4 & E5 & E6 & _).
  simpl in E1. subst j. exists bytesRead.
  split; [exact E2 |]. split; [exact E6 |].
  split; [intros H; apply Nat.eqb_eq; exact H |].
  split; [exact E4 | exact E5].
Qed.

Lemma same_oracle_trans (w1 w2 w3 : World) :
  same_oracle w1 w2 -> same_oracle w2 w3 -> same_oracle w1 w3.
Proof. intros (A & B & C) (D & E & F). repeat split; congruence. Qed.

Lemma same_oracle_refl (w : World) : same_oracle w w.
Proof. repeat split. Qed.

(** A transaction sends [frame], waits for [len] bytes and hands the
    result to [K], which does no input or output of its own. *)
Lemma exchange_outcome {A : Type} (fuel : nat) (self : HS321) (port : nat)
    (frame : list Z) (size len : nat)
    (K : bool -> option (list Z) -> IO A) (w : World) :
  _serialPort self = Some port ->
  (forall r response v, exists a, K r response v = (Returned a, v)) ->
  match (sendData self frame size;;
         '(received, response) ← receiveData fuel self (Some (local_array len)) len;
         K received response) w with
  | (Returned a, w') =>
      exists (j : nat) (r : bool) (response : option (list Z)),
        (j <= len)%nat
        /\ read_calls w' = (read_calls w + j)%nat
        /\ (r = true -> j = len)
        /\ K r response w' = (Returned a, w')
        /\ same_oracle w w'
  | (NullDeref, _) => False
  | (OutOfFuel, _) => True
  end.
Proof.
  intros Hport HK.
  destruct (sendData_run self port frame size w Hport) as (w1 & Es & Hin & _).
  unfold mbind at 1. unfold IO_bind at 1. rewrite Es.
  unfold mbind, IO_bind.
  pose proof (receiveData_outcome fuel self (local_array len) len w1) as R.
  destruct (receiveData fuel self (Some (local_array len)) len w1)
    as [[[r response] | |] w'].
  - destruct R as (j & Hj & Hr & Ht & _ & Ho).
    destruct Hin as (So & _ & _ & Rc).
    assert (S' : same_oracle w w') by (eapply same_oracle_trans; eassumption).
    destruct (HK r response w') as [a Ea]. rewrite Ea.
    exists j, r, response. repeat split; try assumption; try apply S'. congruence.
  - congruence.
  - exact I.
Qed.

Lemma read_continuation_pure (sa : Z) (values : list Z) (n : nat)
    (r : bool) (response : option (list Z)) (v : World) :
  exists a,
    ((if negb r then mret (false, Some values)
      else
        let '(ok, values) :=
          checkReadResponse sa (default [] response) values n in
        mret (ok, Some values)) : IO (bool * option (list Z))) v = (Returned a, v)
    /\ (r = false -> a = (false, Some values)).
Proof.
  destruct r; cbn [negb].
  - destruct (checkReadResponse sa (default [] response) values n) as [ok vs].
    eexists. split; [reflexivity | discriminate].
  - eexists. split; [reflexivity | reflexivity].
Qed.

(** The postcondition of [readParameters] on an object with a port. *)
Lemma readParameters_post (fuel : nat) (self : HS321) (port : nat)
    (sa start : Z) (arrayValues : option (list Z)) (n : nat) (w : World)
    (Hport : _serialPort self = Some port) :
  fst (readParameters fuel self sa start arrayValues n w) <> NullDeref
  /\ (forall ok arr w',
        readParameters fuel self sa start arrayValues n w = (Returned (ok, arr), w') ->
        same_oracle w w'
        /\ (read_calls w <= read_calls w' <= read_calls w + (5 + n * 2))%nat
        /\ (ok = true ->
            read_calls w' = (read_calls w + (5 + n * 2))%nat
            /\ (1 <= n <= 125)%nat /\ arrayValues <> None)).
Proof.
  destruct arrayValues as [values |];
    [| split; [discriminate |]; intros ok arr w' H; injection H as <- _ <-;
       split; [apply same_oracle_refl |]; split; [lia | discriminate]].
  destruct (Nat.eq_dec n 0%nat) as [-> | N0];
    [split; [discriminate |]; intros ok arr w' H; injection H as <- _ <-;
     split; [apply same_oracle_refl |]; split; [lia | discriminate] |].
  destruct (le_lt_dec n 125%nat) as [Hle | Hgt].
  2: { unfold readParameters. destruct (Nat.eqb_spec n 0) as [? | _]; [lia |].
       destruct (Nat.ltb_spec 125 n) as [_ | ?]; [| lia].
       split; [discriminate |]. intros ok arr w' H; injection H as <- _ <-.
       split; [apply same_oracle_refl |]. split; [lia | discriminate]. }
  rewrite readParameters_accepts by lia.
  pose proof (exchange_outcome fuel self port (readRequest sa start n) 8
                (5 + n * 2)
                (fun r response =>
                   if negb r then mret (false, Some values)
                   else
                     let '(ok, values) :=
                       checkReadResponse sa (default [] response) values n in
                     mret (ok, Some values)) w Hport) as X.
  cbv beta in X.
  match type of X with _ -> match ?t with _ => _ end => destruct t as [[a | |] w1] end.
  - destruct X as (j & r & response & Hj & Hr & Ht & HK & So).
    { intros r response v.
      destruct (read_continuation_pure sa values n r response v) as (a' & E & _).
      exists a'. exact E. }
    split; [discriminate |]. intros ok arr w' H. injection H as -> <-.
    split; [exact So |]. split; [lia |]. intros ->.
    destruct (read_continuation_pure sa values n r response w1) as (a' & E & F).
    destruct r; [| rewrite E in HK; specialize (F eq_refl); congruence].
    split; [rewrite Hr, (Ht eq_refl); reflexivity |]. split; [lia | discriminate].
  - exfalso. apply X. intros r response v.
    destruct (read_continuation_pure sa values n r response v) as (a' & E & _).
    exists a'. exact E.
  - split; [discriminate |]. intros ok arr w' H. discriminate H.
Qed.

Lemma write_continuation_pure (sa f : Z)
    (r : bool) (response : option (list Z)) (v : World) :
  exists a,
    ((if negb r then mret false
      else mret (validateModbusResponse (default [] response) 8 sa f)) : IO bool) v
    = (Returned a, v)
    /\ (r = false -> a = false).
Proof.
  destruct r; cbn [negb]; eexists; (split; [reflexivity |]);
    [discriminate | reflexivity].
Qed.

(** The postcondition of [writeParameters] on an object with a port. *)
Lemma writeParameters_post (fuel : nat) (self : HS321) (port : nat)
    (sa start : Z) (arrayValues : option (list Z)) (n : nat) (w : World)
    (Hport : _serialPort self = Some port) :
  fst (writeParameters fuel self sa start arrayValues n w) <> NullDeref
  /\ (forall ok w',
        writeParameters fuel self sa start arrayValues n w = (Returned ok, w') ->
        same_oracle w w'
        /\ (read_calls w <= read_calls w' <= read_calls w + 8)%nat
        /\ (ok = true ->
            read_calls w' = (read_calls w + 8)%nat
            /\ (1 <= n <= 122)%nat /\ arrayValues <> None)).
Proof.
  assert (Refused : writeParameters fuel self sa start arrayValues n w
                    = (Returned false, w) ->
          fst (writeParameters fuel self sa start arrayValues n w) <> NullDeref
          /\ (forall ok w',
                writeParameters fuel self sa start arrayValues n w
                = (Returned ok, w') ->
                same_oracle w w'
                /\ (read_calls w <= read_calls w' <= read_calls w + 8)%nat
                /\ (ok = true ->
                    read_calls w' = (read_calls w + 8)%nat
                    /\ (1 <= n <= 122)%nat /\ arrayValues <> None))).
  { intros ->. split; [discriminate |]. intros ok w' H. injection H as <- <-.
    split; [apply same_oracle_refl |]. split; [lia | discriminate]. }
  destruct arrayValues as [values |]; [| apply Refused; reflexivity].
  destruct (Nat.eq_dec n 0%nat) as [-> | N0]; [apply Refused; reflexivity |].
  destruct (le_lt_dec n 122%nat) as [Hle | Hgt].
  2: { apply Refused.
       unfold writeParameters.
       destruct (Nat.eqb_spec n 0) as [? | _]; [lia |].
       destruct (Nat.ltb_spec MAX_MODBUS_REGISTERS n) as [_ | Hm]; [reflexivity |].
       unfold MAX_MODBUS_REGISTERS in Hm. assert (n = 123%nat) as -> by lia.
       reflexivity. }
  clear Refused.
  rewrite writeParameters_accepts; [| lia | apply size_guard; lia].
  set (f := at_index (writeRequest sa start values n) 1).
  pose proof (exchange_outcome fuel self port (writeRequest sa start values n)
                (writeRequestSize n) 8
                (fun r response =>
                   if negb r then mret false
                   else mret (validateModbusResponse (default [] response) 8 sa f))
                w Hport) as X.
  cbv beta in X.
  match type of X with _ -> match ?t with _ => _ end => destruct t as [[a | |] w1] end.
  - destruct X as (j & r & response & Hj & Hr & Ht & HK & So).
    { intros r response v.
      destruct (write_continuation_pure sa f r response v) as (a' & E & _).
      exists a'. exact E. }
    split; [discriminate |]. intros ok w' H. injection H as -> <-.
    split; [exact So |]. split; [lia |]. intros ->.
    destruct (write_continuation_pure sa f r response w1) as (a' & E & F).
    destruct r; [| rewrite E in HK; specialize (F eq_refl); congruence].
    split; [rewrite Hr, (Ht eq_refl); reflexivity |]. split; [lia | discriminate].
  - exfalso. apply X. intros r response v.
    destruct (write_continuation_pure sa f r response v) as (a' & E & _).
    exists a'. exact E.
  - split; [discriminate |]. intros ok w' H. discriminate H.
Qed.

(** X14. On an object with a port, a call of [readParameters] for [n]
    registers that returns has read at most 5 + 2n bytes from the port,
    and exactly 5 + 2n when it returns [true]; it returns [true] only for
    a non-null array and 1 to 125 registers.  The bytes that follow in the
    receive buffer of the port are left there, and the answers of the
    environment are not changed. *)
Theorem readParameters_consumes (fuel : nat) (self : HS321) (port : nat)
    (sa start : Z) (arrayValues arr : option (list Z)) (n : nat) (ok : bool)
    (w w' : World)
    (Hport : _serialPort self = Some port)
    (Hrun : readParameters fuel self sa start arrayValues n w
            = (Returned (ok, arr), w')) :
  same_oracle w w'
  /\ (read_calls w <= read_calls w' <= read_calls w + (5 + n * 2))%nat
  /\ (ok = true ->
      read_calls w' = (read_calls w + (5 + n * 2))%nat
      /\ (1 <= n <= 125)%nat /\ arrayValues <> None).
Proof.
  exact (proj2 (readParameters_post fuel self port sa start arrayValues n w Hport)
           ok arr w' Hrun).
Qed.

Lemma readParameters_consumes_witness :
  let self := mkHS321 true 1 (Some 1%nat) None 9600 4 2000 3645 in
  let w := serving (Wire.read_response 1 [0x1234] ++ [0xAA; 0xBB]) in
  exists w',
    readParameters 20 self 1 0x3000 (Some [0]) 1 w
    = (Returned (true, Some [0x1234]), w')
    /\ read_calls w' = 7%nat.
Proof.
  intros self w.
  assert (Hrun : { w' | readParameters 20 self 1 0x3000 (Some [0]) 1 w
                        = (Returned (true, Some [0x1234]), w') })
    by (eexists; vm_compute; reflexivity).
  destruct Hrun as [w' Hrun]. exists w'. split; [exact Hrun |].
  destruct (readParameters_consumes 20 self 1 1 0x3000 (Some [0]) (Some [0x1234]) 1
              true w w' eq_refl Hrun) as (_ & _ & H).
  destruct (H eq_refl) as (E & _). exact E.
Defined.

(** X15. On an object with a port, a call of [writeParameters] that
    returns has read at most 8 bytes from the port, and exactly 8 when it
    returns [true]; it returns [true] only for a non-null array and 1 to
    122 registers. *)
Theorem writeParameters_consumes (fuel : nat) (self : HS321) (port : nat)
    (sa start : Z) (arrayValues : option (list Z)) (n : nat) (ok : bool)
    (w w' : World)
    (Hport : _serialPort self = Some port)
    (Hrun : writeParameters fuel self sa start arrayValues n w = (Returned ok, w')) :
  same_oracle w w'
  /\ (read_calls w <= read_calls w' <= read_calls w + 8)%nat
  /\ (ok = true ->
      read_calls w' = (read_calls w + 8)%nat
      /\ (1 <= n <= 122)%nat /\ arrayValues <> None).
Proof.
  exact (proj2 (writeParameters_post fuel self port sa start arrayValues n w Hport)
           ok w' Hrun).
Qed.

Lemma writeParameters_consumes_witness :
  let self := mkHS321 true 1 (Some 1%nat) None 9600 4 2000 3645 in
  let w := serving (Wire.write_single_request 1 0x2000 5 ++ [0xAA; 0xBB]) in
  exists w',
    writeParameters 20 self 1 0x2000 (Some [5]) 1 w = (Returned true, w')
    /\ read_calls w' = 8%nat.
Proof.
  intros self w.
  assert (Hrun : { w' | writeParameters 20 self 1 0x2000 (Some [5]) 1 w
                        = (Returned true, w') })
    by (eexists; vm_compute; reflexivity).
  destruct Hrun as [w' Hrun]. exists w'. split; [exact Hrun |].
  destruct (writeParameters_consumes 20 self 1 1 0x2000 (Some [5]) 1
              true w w' eq_refl Hrun) as (_ & _ & H).
  destruct (H eq_refl) as (E & _). exact E.
Defined.

(** X16. On an object that is initialised only if it has a Modbus port, as
    every object is that comes from the constructor and [begin], no public
    operation dereferences a null port: the seven read and write
    operations never do, whatever their arguments, and
    [checkCommunicationSettings] does not if the debug port is not null.
    The private [readParameters] and [writeParameters] do not as soon as
    the Modbus port is not null. *)
Theorem operations_never_dereference_null (fuel : nat) (self : HS321) (w : World)
    (Hinv : isInitialized self = true -> _serialPort self <> None) :
  (forall ptr, fst (readFaultDescription fuel self ptr w) <> NullDeref)
  /\ (forall ptr, fst (readRunningState fuel self ptr w) <> NullDeref)
  /\ (forall command, fst (writeControlCommand fuel self command w) <> NullDeref)
  /\ (forall group numberGroup ptr,
        fst (readSingleGroupParameter fuel self group numberGroup ptr w)
        <> NullDeref)
  /\ (forall group numberGroup ptr count,
        fst (readParametersInGroups fuel self group numberGroup ptr count w)
        <> NullDeref)
  /\ (forall group numberGroup value,
        fst (writeSingleGroupParameter fuel self group numberGroup value w)
        <> NullDeref)
  /\ (forall group numberGroup ptr count,
        fst (writeParametersInGroups fuel self group numberGroup ptr count w)
        <> NullDeref)
  /\ (_serialDebug self <> None ->
      fst (checkCommunicationSettings fuel self w) <> NullDeref)
  /\ (forall sa start ptr count,
        _serialPort self <> None ->
        fst (readParameters fuel self sa start ptr count w) <> NullDeref
        /\ fst (writeParameters fuel self sa start ptr count w) <> NullDeref).
Proof.
  assert (R : _serialPort self <> None ->
              forall sa start ptr count,
                fst (readParameters fuel self sa start ptr count w) <> NullDeref).
  { destruct (_serialPort self) as [port |] eqn:Hport; [intros _ | congruence].
    intros. eapply proj1, readParameters_post, Hport. }
  assert (W : _serialPort self <> None ->
              forall sa start ptr count,
                fst (writeParameters fuel self sa start ptr count w) <> NullDeref).
  { destruct (_serialPort self) as [port |] eqn:Hport; [intros _ | congruence].
    intros. eapply proj1, writeParameters_post, Hport. }
  assert (G : forall group numberGroup ptr count,
            fst (readParametersInGroups fuel self group numberGroup ptr count w)
            <> NullDeref).
  { intros. unfold readParametersInGroups.
    destruct (isInitialized self); cbn [negb orb]; [| discriminate].
    destruct (bool_decide (ptr = None) || (count =? 0)%nat);
      [discriminate | exact (R (Hinv eq_refl) _ _ _ _)]. }
  split; [intros ptr; unfold readFaultDescription, readSingleParameter;
          destruct (isInitialized self); cbn [negb orb]; [| discriminate];
          destruct (bool_decide (ptr = None));
          [discriminate | exact (R (Hinv eq_refl) _ _ _ _)] |].
  split; [intros ptr; unfold readRunningState;
          destruct (isInitialized self); cbn [negb orb]; [| discriminate];
          destruct (bool_decide (ptr = None));
          [discriminate | exact (R (Hinv eq_refl) _ _ _ _)] |].
  split; [intros command; unfold writeControlCommand, writeSingleParameter;
          destruct (isInitialized self); cbn [negb];
          [exact (W (Hinv eq_refl) _ _ _ _) | discriminate] |].
  split; [intros group numberGroup ptr;
          unfold readSingleGroupParameter, readSingleParameter;
          destruct (isInitialized self); cbn [negb orb]; [| discriminate];
          destruct (bool_decide (ptr = None));
          [discriminate | exact (R (Hinv eq_refl) _ _ _ _)] |].
  split; [exact G |].
  split; [intros group numberGroup value;
          unfold writeSingleGroupParameter, writeSingleParameter;
          destruct (isInitialized self); cbn [negb];
          [exact (W (Hinv eq_refl) _ _ _ _) | discriminate] |].
  split; [intros group numberGroup ptr count; unfold writeParametersInGroups;
          destruct (isInitialized self); cbn [negb orb]; [| discriminate];
          destruct (bool_decide (ptr = None) || (count =? 0)%nat);
          [discriminate | exact (W (Hinv eq_refl) _ _ _ _)] |].
  split; [| intros sa start ptr count Hp; split; [apply R | apply W]; exact Hp].
  intros H.
  unfold checkCommunicationSettings.
  destruct (negb (isInitialized self)); [discriminate |].
  unfold mbind, IO_bind.
  pose proof (G GROUP_FC 0 (Some (local_array 5)) 5%nat) as Rn.
  destruct (readParametersInGroups fuel self GROUP_FC 0 (Some (local_array 5)) 5 w)
    as [[[[|] arr] | |] w1]; try discriminate; [| exfalso; apply Rn; reflexivity].
  destruct (_serialDebug self) as [dbg |]; [| exfalso; apply H; reflexivity].
  intros E. vm_compute in E. discriminate E.
Qed.

Lemma operations_never_dereference_null_witness :
  let self := mkHS321 true 1 (Some 1%nat) None 9600 4 2000 3645 in
  fst (readRunningState 20 self (Some [0]) quiet_world) <> NullDeref.
Proof.
  intros self.
  assert (Hinv : isInitialized self = true -> _serialPort self <> None)
    by (intros _; discriminate).
  destruct (operations_never_dereference_null 20 self quiet_world Hinv)
    as (_ & H & _).
  exact (H (Some [0])).
Defined.

(** ** Transactions return *)

(** X17. Under a steady clock that does not wrap within the timeout a
    transaction returns: on an object with a port and a total timeout
    [T >= 0], if the clock advances by at most [step] between two
    readings and by at least one millisecond over [polls] readings, and
    [step * (polls * (T + 1) + 1) < 2^32], so that the 32-bit difference
    of two readings the timeout compares is the time that passed, then
    [readParameters] returns within
    (5 + 2n) * (polls * (T + 1) + 2) + polls * (T + 1) passes of the
    receive loop and [writeParameters] within
    8 * (polls * (T + 1) + 2) + polls * (T + 1) passes, whatever the slave
    sends. *)
Theorem transactions_return (polls : nat) (step : Z) (self : HS321) (port : nat)
    (sa start : Z) (arrayValues : option (list Z)) (n : nat) (w : World)
    (Hport : _serialPort self = Some port)
    (Hsteady : steady polls step w)
    (HT0 : 0 <= _totalTimeout self)
    (HT1 : step * (Z.of_nat polls * (_totalTimeout self + 1) + 1) < 2 ^ 32) :
  let passes (len : nat) :=
    Z.of_nat len * (Z.of_nat polls * (_totalTimeout self + 1) + 2)
    + Z.of_nat polls * (_totalTimeout self + 1) in
  (forall fuel, passes (5 + n * 2)%nat < Z.of_nat fuel ->
     exists r w', readParameters fuel self sa start arrayValues n w = (Returned r, w'))
  /\ (forall fuel, passes 8%nat < Z.of_nat fuel ->
        exists r w',
          writeParameters fuel self sa start arrayValues n w = (Returned r, w')).
Proof.
  intros passes.
  assert (Steady : forall frame size,
            steady polls step (snd (sendData self frame size w))).
  { intros frame size.
    destruct (sendData_run self port frame size w Hport) as (w1 & Es & Hin & _).
    rewrite Es. destruct Hin as ((Em & _) & _). destruct Hsteady as [A B].
    cbn [snd]. split; intros k; rewrite Em; [apply A | apply B]. }
  split; intros fuel Hfuel.
  - destruct arrayValues as [values |]; [| eexists _, _; reflexivity].
    destruct (Nat.eq_dec n 0%nat) as [-> | N0]; [eexists _, _; reflexivity |].
    destruct (le_lt_dec n 125%nat) as [Hle | Hgt].
    2: { unfold readParameters. destruct (Nat.eqb_spec n 0) as [? | _]; [lia |].
         destruct (Nat.ltb_spec 125 n) as [_ | ?]; [| lia].
         eexists _, _; reflexivity. }
    rewrite readParameters_accepts by lia.
    specialize (Steady (readRequest sa start n) 8%nat).
    destruct (sendData_run self port (readRequest sa start n) 8 w Hport)
      as (w1 & Es & _).
    rewrite Es in Steady. cbn [snd] in Steady.
    unfold mbind at 1. unfold IO_bind at 1. rewrite Es.
    destruct (receiveData_returns polls step self port (local_array (5 + n * 2))
                (5 + n * 2) fuel w1 Hport Steady HT0 HT1 Hfuel)
      as ([r response] & w' & E).
    unfold mbind, IO_bind. rewrite E.
    destruct (read_continuation_pure sa values n r response w') as (a & Ea & _).
    exists a, w'. exact Ea.
  - destruct arrayValues as [values |]; [| eexists _, _; reflexivity].
    destruct (Nat.eq_dec n 0%nat) as [-> | N0]; [eexists _, _; reflexivity |].
    destruct (le_lt_dec n 122%nat) as [Hle | Hgt].
    2: { unfold writeParameters. destruct (Nat.eqb_spec n 0) as [? | _]; [lia |].
         destruct (Nat.ltb_spec MAX_MODBUS_REGISTERS n) as [_ | Hm];
           [eexists _, _; reflexivity |].
         unfold MAX_MODBUS_REGISTERS in Hm. assert (n = 123%nat) as -> by lia.
         eexists _, _; reflexivity. }
    rewrite writeParameters_accepts; [| lia | apply size_guard; lia].
    specialize (Steady (writeRequest sa start values n) (writeRequestSize n)).
    destruct (sendData_run self port (writeRequest sa start values n)
                (writeRequestSize n) w Hport) as (w1 & Es & _).
    rewrite Es in Steady. cbn [snd] in Steady.
    unfold mbind at 1. unfold IO_bind at 1. rewrite Es.
    destruct (receiveData_returns polls step self port (local_array 8)
                8 fuel w1 Hport Steady HT0 HT1 Hfuel)
      as ([r response] & w' & E).
    unfold mbind, IO_bind. rewrite E.
    destruct (write_continuation_pure sa
                (at_index (writeRequest sa start values n) 1) r response w')
      as (a & Ea & _).
    exists a, w'. exact Ea.
Qed.

Lemma transactions_return_witness :
  let self := mkHS321 true 1 (Some 1%nat) None 9600 4 5 3645 in
  steady 1 1 silent_ticking
  /\ exists r w',
       readParameters 63 self 1 0x3000 (Some [0]) 1 silent_ticking = (Returned r, w').
Proof.
  intros self.
  assert (T : steady 1 1 silent_ticking).
  { split; intros k; cbn [silent_ticking millis_at]; lia. }
  split; [exact T |].
  refine (proj1 (transactions_return 1 1 self 1 1 0x3000 (Some [0]) 1 silent_ticking
                   eq_refl T _ _) 63%nat _).
  - cbn [_totalTimeout self]. lia.
  - cbn [_totalTimeout self]. lia.
  - cbn [_totalTimeout self]. lia.
Defined.

(** The bound on [step] is needed: a clock that advances by 2^32
    milliseconds at every reading is steady, but all its readings are
    equal as [unsigned long] values, no timeout ever expires and a
    transaction with a silent slave does not return. *)
Example receive_loop_wrapped_clock :
  let self := mkHS321 true 1 (Some 1%nat) None 9600 4 5 3645 in
  let w := mkWorld (fun k => Z.of_nat k * 2 ^ 32) (fun _ => 0) (fun _ => 0)
                   0 0 0 (fun _ => LOW) [] in
  steady 1 (2 ^ 32) w
  /\ fst (readParameters 63 self 1 0x3000 (Some [0]) 1 w) = OutOfFuel
  /\ fst (readParameters 500 self 1 0x3000 (Some [0]) 1 w) = OutOfFuel.
Proof.
  intros self w. split.
  - split; intros k; cbn [w millis_at]; lia.
  - split; vm_compute; reflexivity.
Qed.

(** ** A slave that does not answer *)

(** While [available()] reports nothing the receive loop reads nothing. *)
Lemma receive_loop_silent (fuel : nat) (self : HS321) (len : nat) (ct : Z)
    (buf : list Z) (br : nat) (last : Z) (w : World) :
  (forall k, available_at w k <= 0) ->
  match receive_loop fuel self len ct buf br last w with
  | (Returned (_, buf', br'), w') =>
      buf' = buf /\ br' = br /\ read_calls w' = read_calls w
  | _ => True
  end.
Proof.
  revert last w. induction fuel as [| fuel IH]; intros last w Hs;
    rewrite receive_loop_unfold; destruct (br <? len)%nat eqn:Hlt; cbn [negb];
    try (cbn; auto; fail).
  unfold mbind at 1, IO_bind at 1, millis at 1. cbn beta iota.
  set (w1 := mkWorld _ _ _ _ _ _ _ _).
  destruct (_totalTimeout self <? _); [cbn; auto |].
  rewrite drain_unfold.
  unfold mbind, IO_bind, serial_available, with_port.
  destruct (_serialPort self) as [port |]; [| exact I].
  cbn beta iota.
  destruct (Z.ltb_spec 0 (available_at w1 (available_calls w1))) as [Ha | Ha].
  { specialize (Hs (available_calls w)). subst w1.
    cbn [available_at available_calls] in Ha. lia. }
  cbn [andb]. unfold mret, IO_ret. cbn beta iota. rewrite Hlt.
  subst w1. cbn [available_at available_calls millis_at millis_calls read_at
                 read_calls pin_level output].
  assert (Next : forall v, read_calls v = read_calls w ->
                   available_at v = available_at w ->
                   match receive_loop fuel self len ct buf br last v with
                   | (Returned (_, buf', br'), w') =>
                       buf' = buf /\ br' = br /\ read_calls w' = read_calls w
                   | _ => True
                   end).
  { intros v Er Ea. specialize (IH last v). rewrite Ea, Er in IH. apply IH, Hs. }
  destruct (available_at w (S (available_calls w)) =? 0); [| apply Next; reflexivity].
  unfold millis at 1. cbn beta iota.
  match goal with |- context [if ?c then _ else _] => destruct c end;
    [cbn; auto | apply Next; reflexivity].
Qed.

Lemma receiveData_silent (fuel : nat) (self : HS321) (buf : list Z) (len : nat)
    (w : World) :
  (forall k, available_at w k <= 0) ->
  match receiveData fuel self (Some buf) len w with
  | (Returned (r, buf'), w') =>
      r = false /\ buf' = Some buf /\ read_calls w' = read_calls w
  | _ => True
  end.
Proof.
  intros Hs. destruct (Nat.eq_dec len 0%nat) as [-> | Hlen].
  { rewrite receiveData_zero. auto. }
  rewrite receiveData_unfold by exact Hlen.
  pose proof (receive_loop_silent fuel self len (charTimeoutOf self len) buf 0
                (u32 (millis_at w (millis_calls w))) (snd (millis w)) Hs) as P.
  destruct (receive_loop fuel self len (charTimeoutOf self len) buf 0
              (u32 (millis_at w (millis_calls w))) (snd (millis w)))
    as [[[[ex bytes] bytesRead] | |] w']; auto.
  destruct P as (-> & -> & E). split; [| split; [reflexivity | exact E]].
  destruct len; [lia | reflexivity].
Qed.

(** X18. When the slave does not answer, that is when [available()] never
    reports a byte, a transaction on an object with a port that returns
    returns [false] and has called [read()] not once; a read transaction
    leaves the caller's array as it was. *)
Theorem silent_slave (fuel : nat) (self : HS321) (port : nat)
    (sa start : Z) (values : list Z) (n : nat) (w : World)
    (Hport : _serialPort self = Some port)
    (Hsilent : forall k, available_at w k <= 0) :
  (forall ok arr w',
     readParameters fuel self sa start (Some values) n w = (Returned (ok, arr), w') ->
     ok = false /\ arr = Some values /\ read_calls w' = read_calls w)
  /\ (forall ok w',
        writeParameters fuel self sa start (Some values) n w = (Returned ok, w') ->
        ok = false /\ read_calls w' = read_calls w).
Proof.
  assert (Silent : forall frame size w1,
            sendData self frame size w = (Returned tt, w1) ->
            no_input w w1 ->
            forall len,
              match receiveData fuel self (Some (local_array len)) len w1 with
              | (Returned (r, buf'), w') =>
                  r = false /\ read_calls w' = read_calls w
              | _ => True
              end).
  { intros frame size w1 _ ((_ & Ea & _) & _ & _ & Er) len.
    pose proof (receiveData_silent fuel self (local_array len) len w1) as P.
    rewrite Ea, Er in P. specialize (P Hsilent).
    destruct (receiveData fuel self (Some (local_array len)) len w1)
      as [[[r buf'] | |] w']; auto. tauto. }
  split.
  - intros ok arr w'.
    destruct (Nat.eq_dec n 0%nat) as [-> | N0];
      [intros H; injection H as <- <- <-; auto |].
    destruct (le_lt_dec n 125%nat) as [Hle | Hgt].
    2: { unfold readParameters. destruct (Nat.eqb_spec n 0) as [? | _]; [lia |].
         destruct (Nat.ltb_spec 125 n) as [_ | ?]; [| lia].
         intros H; injection H as <- <- <-; auto. }
    rewrite readParameters_accepts by lia.
    destruct (sendData_run self port (readRequest sa start n) 8 w Hport)
      as (w1 & Es & Hin & _).
    unfold mbind at 1. unfold IO_bind at 1. rewrite Es.
    specialize (Silent _ _ _ Es Hin (5 + n * 2)%nat).
    unfold mbind, IO_bind.
    destruct (receiveData fuel self (Some (local_array (5 + n * 2))) (5 + n * 2) w1)
      as [[[r buf'] | |] w2]; try discriminate.
    destruct Silent as (-> & Er). cbn [negb].
    intros H. injection H as <- <- <-. auto.
  - intros ok w'.
    destruct (Nat.eq_dec n 0%nat) as [-> | N0];
      [intros H; injection H as <- <-; auto |].
    destruct (le_lt_dec n 122%nat) as [Hle | Hgt].
    2: { unfold writeParameters. destruct (Nat.eqb_spec n 0) as [? | _]; [lia |].
         destruct (Nat.ltb_spec MAX_MODBUS_REGISTERS n) as [_ | Hm];
           [intros H; injection H as <- <-; auto |].
         unfold MAX_MODBUS_REGISTERS in Hm. assert (n = 123%nat) as -> by lia.
         intros H; injection H as <- <-; auto. }
    rewrite writeParameters_accepts; [| lia | apply size_guard; lia].
    destruct (sendData_run self port (writeRequest sa start values n)
                (writeRequestSize n) w Hport) as (w1 & Es & Hin & _).
    unfold mbind at 1. unfold IO_bind at 1. rewrite Es.
    specialize (Silent _ _ _ Es Hin 8%nat).
    unfold mbind, IO_bind.
    destruct (receiveData fuel self (Some (local_array 8)) 8 w1)
      as [[[r buf'] | |] w2]; try discriminate.
    destruct Silent as (-> & Er). cbn [negb].
    intros H. injection H as <- <-. auto.
Qed.

Lemma silent_slave_witness :
  let self := mkHS321 true 1 (Some 1%nat) None 9600 4 5 3645 in
  exists w',
    readParameters 63 self 1 0x3000 (Some [7]) 1 silent_ticking
    = (Returned (false, Some [7]), w')
    /\ read_calls w' = 0%nat.
Proof.
  intros self.
  assert (Hrun : { w' | readParameters 63 self 1 0x3000 (Some [7]) 1 silent_ticking
                        = (Returned (false, Some [7]), w') })
    by (eexists; vm_compute; reflexivity).
  destruct Hrun as [w' Hrun]. exists w'. split; [exact Hrun |].
  assert (Hs : forall k : nat, available_at silent_ticking k <= 0)
    by (intros k; cbn [silent_ticking available_at]; lia).
  destruct (silent_slave 63 self 1 1 0x3000 [7] 1 silent_ticking eq_refl Hs)
    as (R & _).
  destruct (R false (Some [7]) w' Hrun) as (_ & _ & E). exact E.
Defined.

(** ** HS321::checkCommunicationSettings *)

(** X19. On an initialised object [checkCommunicationSettings] reads five
    registers from FC.00 on.  If the read succeeds and there is a debug
    port, it prints five labelled lines, the values being the five
    registers in the order they were read, consumes no further input,
    drives no pin and returns [true]; if the read succeeds and the debug
    port is null, the call dereferences the null pointer: unlike [begin],
    this function uses the debug port without a null check.  If the read
    fails, it prints nothing and returns [false]. *)
Theorem checkCommunicationSettings_report (fuel : nat) (self : HS321) (w : World)
    (Hinit : isInitialized self = true) :
  (forall arr w1,
     readParametersInGroups fuel self GROUP_FC 0 (Some (local_array 5)) 5 w
     = (Returned (true, arr), w1) ->
     match _serialDebug self with
     | Some dbg =>
         exists w2 l0 l1 l2 l3 l4,
           checkCommunicationSettings fuel self w = (Returned true, w2)
           /\ output w2
              = output w1
                ++ [EvPrint dbg (PStr l0);
                    EvPrintln dbg (PNum (at_index (default [] arr) 0));
                    EvPrint dbg (PStr l1);
                    EvPrintln dbg (PNum (at_index (default [] arr) 1));
                    EvPrint dbg (PStr l2);
                    EvPrintln dbg (PNum (at_index (default [] arr) 2));
                    EvPrint dbg (PStr l3);
                    EvPrintln dbg (PNum (at_index (default [] arr) 3));
                    EvPrint dbg (PStr l4);
                    EvPrintln dbg (PNum (at_index (default [] arr) 4))]
           /\ pin_level w2 = pin_level w1
           /\ no_input w1 w2
     | None => checkCommunicationSettings fuel self w = (NullDeref, w1)
     end)
  /\ (forall arr w1,
        readParametersInGroups fuel self GROUP_FC 0 (Some (local_array 5)) 5 w
        = (Returned (false, arr), w1) ->
        checkCommunicationSettings fuel self w = (Returned false, w1)).
Proof.
  unfold checkCommunicationSettings. rewrite Hinit. cbn [negb].
  split; intros arr w1 E.
  - destruct (_serialDebug self) as [dbg |];
      unfold mbind at 1; unfold IO_bind at 1; rewrite E; [| reflexivity].
    cbv beta iota zeta delta [mbind IO_bind mret IO_ret serial_print serial_println
                                 with_port emit millis_at available_at read_at
                                 millis_calls available_calls read_calls
                                 pin_level output].
    eexists _, _, _, _, _, _. split; [reflexivity |].
    cbn [output pin_level]. rewrite <- !app_assoc. cbn [app].
    split; [reflexivity |]. split; [reflexivity |]. repeat split.
  - unfold mbind at 1. unfold IO_bind at 1. rewrite E. reflexivity.
Qed.

Lemma checkCommunicationSettings_report_witness :
  let self := mkHS321 true 1 (Some 1%nat) None 9600 4 2000 3645 in
  exists w1,
    checkCommunicationSettings 40 self (serving (Wire.read_response 1 [3; 0; 1; 10; 1]))
    = (NullDeref, w1).
Proof.
  intros self.
  assert (Hread : { w1 | readParametersInGroups 40 self GROUP_FC 0
                           (Some (local_array 5)) 5
                           (serving (Wire.read_response 1 [3; 0; 1; 10; 1]))
                         = (Returned (true, Some [3; 0; 1; 10; 1]), w1) })
    by (eexists; vm_compute; reflexivity).
  destruct Hread as [w1 Hread]. exists w1.
  exact (proj1 (checkCommunicationSettings_report 40 self
                  (serving (Wire.read_response 1 [3; 0; 1; 10; 1])) eq_refl)
           (Some [3; 0; 1; 10; 1]) w1 Hread).
Defined.
